(** * Chat service: in-memory store, room registry and push-channel client

    A shallow embedding of the real-time core of the chat application:
    - [MemStorage] (server/storage.ts): users, rooms, messages, membership
      and typing rows held in JavaScript [Map]s;
    - the request handlers and the WebSocket room registry of
      [registerRoutes] (server/routes.ts);
    - the reconnect logic of the [useWebSocket] hook
      (client/src/hooks/use-websocket.ts).

    Conventions.  A JavaScript [Map] iterates in insertion order and the
    store reads its maps through [Array.from(map.values())], so a map is an
    association list in insertion order.  [randomUUID()] and [new Date()] are
    the two sources of non-determinism of the store; every operation takes
    the drawn identifier and the current time (milliseconds) as arguments.
    Dates are their [getTime()] value in [Z]. *)

From stdpp Require Import gmap strings list sorting.
From Stdlib Require Import ZArith Lia Sorted Permutation.

Local Open Scope string_scope.
Local Open Scope list_scope.

(** ** JavaScript [Map<string, V>] in insertion order *)

Section JsMap.
Context {V : Type}.

Fixpoint jm_get (k : string) (m : list (string * V)) : option V :=
  match m with
  | [] => None
  | (k', v) :: m' => if String.eqb k' k then Some v else jm_get k m'
  end.

Definition jm_has (k : string) (m : list (string * V)) : bool :=
  match jm_get k m with Some _ => true | None => false end.

(** [map.set(k, v)]: an existing key keeps its position, a new key goes
    last. *)
Fixpoint jm_set (k : string) (v : V) (m : list (string * V)) : list (string * V) :=
  match m with
  | [] => [(k, v)]
  | (k', v') :: m' =>
      if String.eqb k' k then (k, v) :: m' else (k', v') :: jm_set k v m'
  end.

Fixpoint jm_delete (k : string) (m : list (string * V)) : list (string * V) :=
  match m with
  | [] => []
  | (k', v') :: m' =>
      if String.eqb k' k then m' else (k', v') :: jm_delete k m'
  end.

Definition jm_keys (m : list (string * V)) : list string := List.map fst m.
Definition jm_values (m : list (string * V)) : list V := List.map snd m.
End JsMap.

(** ** [Array.prototype.sort] and [Array.prototype.slice] *)

Section JsArray.
Context {A : Type}.

(** [sort(cmp)] is stable (ECMAScript 2019): for a consistent comparator
    its result is the one stable ordering, computed here by insertion.
    [cmp a b <= 0] keeps [a] before [b]. *)
Fixpoint js_insert (cmp : A → A → Z) (x : A) (l : list A) : list A :=
  match l with
  | [] => [x]
  | y :: l' => if (cmp x y <=? 0)%Z then x :: y :: l' else y :: js_insert cmp x l'
  end.

Fixpoint js_sort (cmp : A → A → Z) (l : list A) : list A :=
  match l with
  | [] => []
  | x :: l' => js_insert cmp x (js_sort cmp l')
  end.

(** Relative index of [slice]: a negative index counts from the end. *)
Definition js_rel_index (len i : Z) : Z :=
  if (i <? 0)%Z then Z.max (len + i) 0 else Z.min i len.

Definition js_slice (start stop : Z) (l : list A) : list A :=
  let len := Z.of_nat (length l) in
  let k := js_rel_index len start in
  let final := js_rel_index len stop in
  firstn (Z.to_nat (final - k)) (skipn (Z.to_nat k) l).
End JsArray.

(** ** shared/schema.ts *)

(** Nullable text columns are [option string]; the nullable booleans
    [isOnline] and [isTyping] are only tested for truthiness, so [false]
    stands for every falsy value. *)
Record User := mkUser {
  u_id : string;
  u_username : string;
  u_displayName : string;
  u_password : string;
  u_avatar : option string;
  u_isOnline : bool;
  u_lastSeen : Z
}.

Record InsertUser := mkInsertUser {
  iu_username : string;
  iu_displayName : string;
  iu_password : string;
  iu_avatar : option string;
  iu_isOnline : bool
}.

Record ChatRoom := mkChatRoom {
  r_id : string;
  r_name : string;
  r_description : option string;
  r_avatar : option string;
  r_type : string;
  r_createdAt : Z
}.

Record InsertChatRoom := mkInsertChatRoom {
  ir_name : string;
  ir_description : option string;
  ir_avatar : option string;
  ir_type : string
}.

Record Message := mkMessage {
  m_id : string;
  m_content : string;
  m_senderId : string;
  m_roomId : string;
  m_timestamp : Z;
  m_status : string
}.

Record InsertMessage := mkInsertMessage {
  im_content : string;
  im_senderId : string;
  im_roomId : string
}.

Record RoomMember := mkRoomMember {
  rm_id : string;
  rm_userId : string;
  rm_roomId : string;
  rm_joinedAt : Z
}.

Record InsertRoomMember := mkInsertRoomMember {
  irm_userId : string;
  irm_roomId : string
}.

Record TypingStatus := mkTypingStatus {
  t_id : string;
  t_userId : string;
  t_roomId : string;
  t_isTyping : bool;
  t_lastUpdate : Z
}.

Record InsertTypingStatus := mkInsertTypingStatus {
  it_userId : string;
  it_roomId : string;
  it_isTyping : bool
}.

Record MessageWithSender := mkMessageWithSender {
  mws_message : Message;
  mws_sender : User
}.

Record ChatRoomWithDetails := mkChatRoomWithDetails {
  d_room : ChatRoom;
  d_members : list User;
  d_lastMessage : option MessageWithSender;
  d_unreadCount : nat;
  d_onlineCount : nat
}.

(** ** server/storage.ts: [MemStorage] *)

Record MemStorage := mkMemStorage {
  users : list (string * User);
  chatRooms : list (string * ChatRoom);
  messages : list (string * Message);
  roomMembers : list (string * RoomMember);
  typingStatuses : list (string * TypingStatus)
}.

Definition empty_storage : MemStorage := mkMemStorage [] [] [] [] [].

(** An [async] method either resolves or rejects with [new Error(msg)]. *)
Inductive Outcome (A : Type) : Type :=
| Resolved (a : A)
| Rejected (msg : string).
Arguments Resolved {A} a.
Arguments Rejected {A} msg.

Definition with_users (f : list (string * User) → list (string * User))
  (s : MemStorage) : MemStorage :=
  mkMemStorage (f (users s)) (chatRooms s) (messages s) (roomMembers s) (typingStatuses s).
Definition with_chatRooms (f : list (string * ChatRoom) → list (string * ChatRoom))
  (s : MemStorage) : MemStorage :=
  mkMemStorage (users s) (f (chatRooms s)) (messages s) (roomMembers s) (typingStatuses s).
Definition with_messages (f : list (string * Message) → list (string * Message))
  (s : MemStorage) : MemStorage :=
  mkMemStorage (users s) (chatRooms s) (f (messages s)) (roomMembers s) (typingStatuses s).
Definition with_roomMembers (f : list (string * RoomMember) → list (string * RoomMember))
  (s : MemStorage) : MemStorage :=
  mkMemStorage (users s) (chatRooms s) (messages s) (f (roomMembers s)) (typingStatuses s).
Definition with_typingStatuses (f : list (string * TypingStatus) → list (string * TypingStatus))
  (s : MemStorage) : MemStorage :=
  mkMemStorage (users s) (chatRooms s) (messages s) (roomMembers s) (f (typingStatuses s)).

Definition getUser (id : string) (s : MemStorage) : option User :=
  jm_get id (users s).

Definition getUserByUsername (username : string) (s : MemStorage) : option User :=
  List.find (fun user => String.eqb (u_username user) username) (jm_values (users s)).

Definition createUser (uuid : string) (now : Z) (insertUser : InsertUser) (s : MemStorage)
  : MemStorage * User :=
  let user := mkUser uuid (iu_username insertUser) (iu_displayName insertUser)
                (iu_password insertUser) (iu_avatar insertUser) (iu_isOnline insertUser) now in
  (with_users (jm_set (u_id user) user) s, user).

Definition updateUserOnlineStatus (id : string) (isOnline : bool) (now : Z) (s : MemStorage)
  : MemStorage :=
  match jm_get id (users s) with
  | Some user =>
      let user' := mkUser (u_id user) (u_username user) (u_displayName user)
                     (u_password user) (u_avatar user) isOnline now in
      with_users (jm_set id user') s
  | None => s
  end.

Definition getChatRoom (id : string) (s : MemStorage) : option ChatRoom :=
  jm_get id (chatRooms s).

Definition createChatRoom (uuid : string) (now : Z) (insertRoom : InsertChatRoom) (s : MemStorage)
  : MemStorage * ChatRoom :=
  let room := mkChatRoom uuid (ir_name insertRoom) (ir_description insertRoom)
                (ir_avatar insertRoom) (ir_type insertRoom) now in
  (with_chatRooms (jm_set (r_id room) room) s, room).

(** The loop [for (const id of ids) { const u = getUser(id); if (u) out.push(u) }]
    shared by [getRoomMembers] and [getTypingUsers]. *)
Fixpoint resolve_users (ids : list string) (s : MemStorage) : list User :=
  match ids with
  | [] => []
  | userId :: rest =>
      match getUser userId s with
      | Some user => user :: resolve_users rest s
      | None => resolve_users rest s
      end
  end.

Definition getRoomMembers (roomId : string) (s : MemStorage) : list User :=
  let memberIds :=
    List.map rm_userId
      (List.filter (fun member => String.eqb (rm_roomId member) roomId)
         (jm_values (roomMembers s))) in
  resolve_users memberIds s.

Definition isUserInRoom (userId roomId : string) (s : MemStorage) : bool :=
  existsb (fun member => String.eqb (rm_userId member) userId
                         && String.eqb (rm_roomId member) roomId)
    (jm_values (roomMembers s)).

Definition addUserToRoom (uuid : string) (now : Z) (insertRoomMember : InsertRoomMember)
  (s : MemStorage) : MemStorage * RoomMember :=
  let roomMember := mkRoomMember uuid (irm_userId insertRoomMember)
                      (irm_roomId insertRoomMember) now in
  (with_roomMembers (jm_set (rm_id roomMember) roomMember) s, roomMember).

(** Comparators of the three [sort] calls. *)
Definition by_timestamp_asc (a b : Message) : Z := (m_timestamp a - m_timestamp b)%Z.
Definition by_timestamp_desc (a b : Message) : Z := (m_timestamp b - m_timestamp a)%Z.

Definition lastMessage_time (d : ChatRoomWithDetails) : Z :=
  match d_lastMessage d with
  | Some lm => m_timestamp (mws_message lm)
  | None => 0%Z
  end.

Definition by_lastMessage_desc (a b : ChatRoomWithDetails) : Z :=
  (lastMessage_time b - lastMessage_time a)%Z.

Definition room_details (room : ChatRoom) (s : MemStorage) : ChatRoomWithDetails :=
  let members := getRoomMembers (r_id room) s in
  let roomMessages :=
    js_sort by_timestamp_desc
      (List.filter (fun msg => String.eqb (m_roomId msg) (r_id room))
         (jm_values (messages s))) in
  let lastMessage :=
    match roomMessages with
    | lastMsg :: _ =>
        match getUser (m_senderId lastMsg) s with
        | Some sender => Some (mkMessageWithSender lastMsg sender)
        | None => None
        end
    | [] => None
    end in
  let onlineCount := length (List.filter u_isOnline members) in
  mkChatRoomWithDetails room members lastMessage 0 onlineCount.

Definition getChatRoomsForUser (userId : string) (s : MemStorage) : list ChatRoomWithDetails :=
  let userRooms :=
    List.map rm_roomId
      (List.filter (fun member => String.eqb (rm_userId member) userId)
         (jm_values (roomMembers s))) in
  let rooms :=
    List.filter (fun room => existsb (String.eqb (r_id room)) userRooms)
      (jm_values (chatRooms s)) in
  let roomsWithDetails := List.map (fun room => room_details room s) rooms in
  js_sort by_lastMessage_desc roomsWithDetails.

(** The loop of [getMessages]: a message whose sender is not found is
    not pushed. *)
Fixpoint attach_senders (roomMessages : list Message) (s : MemStorage) : list MessageWithSender :=
  match roomMessages with
  | [] => []
  | message :: rest =>
      match getUser (m_senderId message) s with
      | Some sender => mkMessageWithSender message sender :: attach_senders rest s
      | None => attach_senders rest s
      end
  end.

Definition getMessages (roomId : string) (limit offset : Z) (s : MemStorage)
  : list MessageWithSender :=
  let roomMessages :=
    js_slice offset (offset + limit)
      (js_sort by_timestamp_asc
         (List.filter (fun msg => String.eqb (m_roomId msg) roomId)
            (jm_values (messages s)))) in
  attach_senders roomMessages s.

(** [createMessage] stores the message before it looks the sender up, so
    the store changes also when the call rejects. *)
Definition createMessage (uuid : string) (now : Z) (insertMessage : InsertMessage)
  (s : MemStorage) : MemStorage * Outcome MessageWithSender :=
  let message := mkMessage uuid (im_content insertMessage) (im_senderId insertMessage)
                   (im_roomId insertMessage) now "sent" in
  let s' := with_messages (jm_set (m_id message) message) s in
  match getUser (m_senderId message) s' with
  | Some sender => (s', Resolved (mkMessageWithSender message sender))
  | None => (s', Rejected "Sender not found")
  end.

Definition updateMessageStatus (messageId status : string) (s : MemStorage) : MemStorage :=
  match jm_get messageId (messages s) with
  | Some message =>
      let message' := mkMessage (m_id message) (m_content message) (m_senderId message)
                        (m_roomId message) (m_timestamp message) status in
      with_messages (jm_set messageId message') s
  | None => s
  end.

(** Timers armed with [setTimeout]: the callback and its due time. *)
Inductive TimerTask : Type :=
| ClearTyping (userId roomId : string)
| MarkDelivered (messageId : string).

Record Timer := mkTimer { fireAt : Z; task : TimerTask }.

Definition typing_key (userId roomId : string) : string :=
  String.append userId (String.append "-" roomId).

Definition clearTypingStatus (userId roomId : string) (s : MemStorage) : MemStorage :=
  with_typingStatuses (jm_delete (typing_key userId roomId)) s.

(** [id: existing?.id || randomUUID()]: an empty stored id is falsy. *)
Definition typing_row_id (existing : option TypingStatus) (uuid : string) : string :=
  match existing with
  | Some e => if String.eqb (t_id e) "" then uuid else t_id e
  | None => uuid
  end.

Definition updateTypingStatus (uuid : string) (now : Z) (insertTyping : InsertTypingStatus)
  (s : MemStorage) : MemStorage * Timer :=
  let key := typing_key (it_userId insertTyping) (it_roomId insertTyping) in
  let existing := jm_get key (typingStatuses s) in
  let typingStatus := mkTypingStatus (typing_row_id existing uuid)
                        (it_userId insertTyping) (it_roomId insertTyping)
                        (it_isTyping insertTyping) now in
  (with_typingStatuses (jm_set key typingStatus) s,
   mkTimer (now + 3000) (ClearTyping (it_userId insertTyping) (it_roomId insertTyping))).

Definition getTypingUsers (roomId : string) (now : Z) (s : MemStorage) : list User :=
  let typingUserIds :=
    List.map t_userId
      (List.filter (fun status => String.eqb (t_roomId status) roomId
                                  && t_isTyping status
                                  && (now - t_lastUpdate status <? 5000)%Z)
         (jm_values (typingStatuses s))) in
  resolve_users typingUserIds s.

Definition run_task (t : TimerTask) (s : MemStorage) : MemStorage :=
  match t with
  | ClearTyping userId roomId => clearTypingStatus userId roomId s
  | MarkDelivered messageId => updateMessageStatus messageId "delivered" s
  end.

(** ** server/routes.ts: the room registry behind the WebSocket server *)

Inductive ReadyState : Type := CONNECTING | OPEN | CLOSING | CLOSED.

Definition is_open (r : ReadyState) : bool :=
  match r with OPEN => true | _ => false end.

(** Frames written by the server; a frame stands for the text
    [JSON.stringify] makes of it. *)
Inductive Frame : Type :=
| Out_user_joined (userId : option string) (roomId : string)
| Out_new_message (message : option MessageWithSender)
| Out_typing_status (userId : option string) (isTyping : option bool) (roomId : string)
| Out_user_left (userId : string) (roomId : string).

(** Frames read by the server, after [JSON.parse]. *)
Inductive ClientFrame : Type :=
| In_join_room (roomId userId : string)
| In_new_message (message : option MessageWithSender)
| In_typing_status (isTyping : option bool)
| In_other
| In_unparsable.

(** The variables [currentRoomId] and [currentUserId] closed over by the
    handlers of one connection. *)
Record ConnVars := mkConnVars {
  currentRoomId : option string;
  currentUserId : option string
}.

(** A connection is a number; a JavaScript [Set] of connections is a
    duplicate-free list in insertion order.  [sent] logs the calls of
    [client.send]. *)
Record Hub := mkHub {
  roomClients : gmap string (list nat);
  conn_vars : gmap nat ConnVars;
  readyState : nat → ReadyState;
  sent : list (nat * Frame)
}.

Definition empty_hub : Hub := mkHub ∅ ∅ (fun _ => CONNECTING) [].

Definition ws_add (ws : nat) (clients : list nat) : list nat :=
  if existsb (Nat.eqb ws) clients then clients else clients ++ [ws].

Definition ws_delete (ws : nat) (clients : list nat) : list nat :=
  List.filter (fun client => negb (Nat.eqb client ws)) clients.

(** Truthiness of a [string | null]: [null] and the empty string are
    falsy. *)
Definition truthy (o : option string) : bool :=
  match o with
  | Some str => negb (String.eqb str "")
  | None => false
  end.

Definition is_excluded (exclude : option nat) (client : nat) : bool :=
  match exclude with
  | Some ws => Nat.eqb client ws
  | None => false
  end.

Definition broadcast (roomId : string) (message : Frame) (exclude : option nat) (h : Hub) : Hub :=
  match roomClients h !! roomId with
  | Some clients =>
      let messageStr := message in
      let receivers :=
        List.filter (fun client => negb (is_excluded exclude client)
                                   && is_open (readyState h client)) clients in
      mkHub (roomClients h) (conn_vars h) (readyState h)
        (sent h ++ List.map (fun client => (client, messageStr)) receivers)
  | None => h
  end.

(** [wss.on('connection', ws)]: fresh closure variables for [ws]. *)
Definition on_connection (ws : nat) (h : Hub) : Hub :=
  mkHub (roomClients h) (<[ws := mkConnVars None None]> (conn_vars h))
    (fun c => if Nat.eqb c ws then OPEN else readyState h c) (sent h).

Definition leave_previous (ws : nat) (v : ConnVars) (rc : gmap string (list nat))
  : gmap string (list nat) :=
  match currentRoomId v with
  | Some prev =>
      if truthy (Some prev) then
        match rc !! prev with
        | Some clients => <[prev := ws_delete ws clients]> rc
        | None => rc
        end
      else rc
  | None => rc
  end.

Definition enter_room (ws : nat) (roomId : string) (rc : gmap string (list nat))
  : gmap string (list nat) :=
  let rc1 := match rc !! roomId with
             | Some _ => rc
             | None => <[roomId := []]> rc
             end in
  match rc1 !! roomId with
  | Some clients => <[roomId := ws_add ws clients]> rc1
  | None => rc1
  end.

(** [ws.on('message', data)]. *)
Definition on_message (ws : nat) (frame : ClientFrame) (h : Hub) : Hub :=
  match conn_vars h !! ws with
  | None => h
  | Some v =>
      match frame with
      | In_join_room roomId userId =>
          let rc := enter_room ws roomId (leave_previous ws v (roomClients h)) in
          let v' := mkConnVars (Some roomId) (Some userId) in
          broadcast roomId (Out_user_joined (Some userId) roomId) (Some ws)
            (mkHub rc (<[ws := v']> (conn_vars h)) (readyState h) (sent h))
      | In_new_message message =>
          match currentRoomId v with
          | Some roomId =>
              if truthy (Some roomId)
              then broadcast roomId (Out_new_message message) None h
              else h
          | None => h
          end
      | In_typing_status isTyping =>
          match currentRoomId v with
          | Some roomId =>
              if truthy (Some roomId)
              then broadcast roomId
                     (Out_typing_status (currentUserId v) isTyping roomId) (Some ws) h
              else h
          | None => h
          end
      | In_other => h
      | In_unparsable => h
      end
  end.

(** [ws.on('close')].  The socket is [CLOSED] when the event is emitted. *)
Definition on_close (ws : nat) (h : Hub) : Hub :=
  let h0 := mkHub (roomClients h) (conn_vars h)
              (fun c => if Nat.eqb c ws then CLOSED else readyState h c) (sent h) in
  match conn_vars h !! ws with
  | None => h0
  | Some v =>
      match currentRoomId v with
      | Some roomId =>
          if truthy (Some roomId) then
            match roomClients h !! roomId with
            | Some clients =>
                let h1 := mkHub (<[roomId := ws_delete ws clients]> (roomClients h))
                            (conn_vars h) (readyState h0) (sent h) in
                match currentUserId v with
                | Some userId =>
                    if truthy (Some userId)
                    then broadcast roomId (Out_user_left userId roomId) (Some ws) h1
                    else h1
                | None => h1
                end
            | None => h0
            end
          else h0
      | None => h0
      end
  end.

(** Events of the registry: a connection opens (a new socket object, hence
    a number not used before), sends a frame, or closes. *)
Inductive HubEvent : Type :=
| Connect (ws : nat)
| Receive (ws : nat) (frame : ClientFrame)
| Close (ws : nat).

Definition hub_step (e : HubEvent) (h : Hub) : Hub :=
  match e with
  | Connect ws => match conn_vars h !! ws with None => on_connection ws h | Some _ => h end
  | Receive ws frame =>
      match readyState h ws with
      | CLOSED => h
      | _ => on_message ws frame h
      end
  | Close ws => on_close ws h
  end.

Definition run_hub (events : list HubEvent) (h : Hub) : Hub :=
  fold_left (fun acc e => hub_step e acc) events h.

(** Frames written to one connection, oldest first. *)
Definition delivered_to (ws : nat) (h : Hub) : list Frame :=
  List.map snd (List.filter (fun p => Nat.eqb (fst p) ws) (sent h)).

(** Rooms whose set holds [ws]. *)
Definition in_room (ws : nat) (roomId : string) (h : Hub) : Prop :=
  ∃ clients, roomClients h !! roomId = Some clients ∧ In ws clients.

(** ** server/routes.ts: the request handlers *)

Inductive Json : Type :=
| J_error (message : string)
| J_zod_error (message : string)
| J_session_user (user : User) (sessionId : string)
| J_success
| J_rooms (rooms : list ChatRoomWithDetails)
| J_messages (msgs : list MessageWithSender)
| J_message (message : MessageWithSender)
| J_users (typingUsers : list User).

Record Response := mkResponse { status : nat; body : Json }.

(** The process: the store, the session table, the armed timers and the
    registry that [broadcast] writes through. *)
Record Server := mkServer {
  storage : MemStorage;
  userSessions : list (string * string);
  timers : list Timer;
  hub : Hub
}.

Definition initial_server : Server := mkServer empty_storage [] [] empty_hub.

(** ** JavaScript strings

    A [string] holds the text of a JavaScript string as UTF-8 bytes (a
    surrogate that stands alone as its three-byte form).  JavaScript
    measures and slices a string in UTF-16 code units and maps case code
    point by code point, so [length], [slice] and [toUpperCase] of the
    handlers go through the code points and code units of the text.  Bytes
    that are not UTF-8 come from no JavaScript string; each is read as
    U+FFFD. *)

Definition byte_value (c : Ascii.ascii) : Z := Z.of_N (Ascii.N_of_ascii c).

Definition byte_of (v : Z) : Ascii.ascii := Ascii.ascii_of_N (Z.to_N v).

Definition is_continuation (v : Z) : bool := (128 <=? v)%Z && (v <? 192)%Z.

Definition replacement_character : Z := 65533.

(** The code points of a text, from its UTF-8 bytes. *)
Fixpoint code_points (s : string) : list Z :=
  match s with
  | EmptyString => []
  | String b0 r0 =>
      let v0 := byte_value b0 in
      if (v0 <? 128)%Z then v0 :: code_points r0
      else if (v0 <? 192)%Z then replacement_character :: code_points r0
      else
        match r0 with
        | String b1 r1 =>
            let v1 := byte_value b1 in
            if negb (is_continuation v1) then replacement_character :: code_points r0
            else if (v0 <? 224)%Z
            then Z.lor (Z.shiftl (Z.land v0 31) 6) (Z.land v1 63) :: code_points r1
            else
              match r1 with
              | String b2 r2 =>
                  let v2 := byte_value b2 in
                  if negb (is_continuation v2) then replacement_character :: code_points r0
                  else if (v0 <? 240)%Z
                  then Z.lor (Z.shiftl (Z.land v0 15) 12)
                         (Z.lor (Z.shiftl (Z.land v1 63) 6) (Z.land v2 63))
                       :: code_points r2
                  else
                    match r2 with
                    | String b3 r3 =>
                        let v3 := byte_value b3 in
                        let cp := Z.lor (Z.shiftl (Z.land v0 7) 18)
                                    (Z.lor (Z.shiftl (Z.land v1 63) 12)
                                       (Z.lor (Z.shiftl (Z.land v2 63) 6) (Z.land v3 63))) in
                        if negb (is_continuation v3) || (248 <=? v0)%Z || (1114111 <? cp)%Z
                        then replacement_character :: code_points r0
                        else cp :: code_points r3
                    | EmptyString => replacement_character :: code_points r0
                    end
              | EmptyString => replacement_character :: code_points r0
              end
        | EmptyString => [replacement_character]
        end
  end.

(** The UTF-8 bytes of one code point. *)
Definition utf8_bytes (cp : Z) : list Z :=
  if (cp <? 128)%Z then [cp]
  else if (cp <? 2048)%Z
  then [Z.lor 192 (Z.shiftr cp 6); Z.lor 128 (Z.land cp 63)]
  else if (cp <? 65536)%Z
  then [Z.lor 224 (Z.shiftr cp 12); Z.lor 128 (Z.land (Z.shiftr cp 6) 63);
        Z.lor 128 (Z.land cp 63)]
  else [Z.lor 240 (Z.shiftr cp 18); Z.lor 128 (Z.land (Z.shiftr cp 12) 63);
        Z.lor 128 (Z.land (Z.shiftr cp 6) 63); Z.lor 128 (Z.land cp 63)].

Definition string_of_code_points (cps : list Z) : string :=
  fold_right (fun v rest => String (byte_of v) rest) EmptyString
    (flat_map utf8_bytes cps).

Definition is_high_surrogate (u : Z) : bool := (55296 <=? u)%Z && (u <? 56320)%Z.

Definition is_low_surrogate (u : Z) : bool := (56320 <=? u)%Z && (u <? 57344)%Z.

(** The UTF-16 code units of a code point: itself, or a surrogate pair. *)
Definition utf16_units (cp : Z) : list Z :=
  if (cp <? 65536)%Z then [cp]
  else [(55296 + Z.shiftr (cp - 65536) 10)%Z; (56320 + Z.land (cp - 65536) 1023)%Z].

(** The code units of a JavaScript string, which its [length] counts and
    its [slice] selects. *)
Definition code_units (s : string) : list Z := flat_map utf16_units (code_points s).

(** Code units read as code points: a high surrogate followed by a low one
    is one code point, any other unit stands for itself. *)
Fixpoint code_points_of_units (units : list Z) : list Z :=
  match units with
  | [] => []
  | u :: rest =>
      match rest with
      | u' :: rest' =>
          if is_high_surrogate u && is_low_surrogate u'
          then (65536 + Z.shiftl (u - 55296) 10 + (u' - 56320))%Z :: code_points_of_units rest'
          else u :: code_points_of_units rest
      | [] => [u]
      end
  end.

Definition string_of_code_units (units : list Z) : string :=
  string_of_code_points (code_points_of_units units).

(** [str.length]. *)
Definition js_length (str : string) : nat := length (code_units str).

(** [str.slice(start, stop)]. *)
Definition string_slice (start stop : Z) (str : string) : string :=
  string_of_code_units (js_slice start stop (code_units str)).

(** The upper-case mappings of the Unicode Character Database (version
    14.0) that send a code point to one code point: every [stride]-th code
    point from [first] to [last] is moved by [delta]. *)
Definition upper_ranges : list (Z * Z * Z * Z) :=
  [   (97, 122, 1, (-32)); (181, 181, 1, 743); (224, 246, 1, (-32)); (248, 254, 1, (-32));
   (255, 255, 1, 121); (257, 303, 2, (-1)); (305, 305, 1, (-232)); (307, 311, 2, (-1));
   (314, 328, 2, (-1)); (331, 375, 2, (-1)); (378, 382, 2, (-1)); (383, 383, 1, (-300));
   (384, 384, 1, 195); (387, 389, 2, (-1)); (392, 392, 1, (-1)); (396, 396, 1, (-1));
   (402, 402, 1, (-1)); (405, 405, 1, 97); (409, 409, 1, (-1)); (410, 410, 1, 163);
   (414, 414, 1, 130); (417, 421, 2, (-1)); (424, 424, 1, (-1)); (429, 429, 1, (-1));
   (432, 432, 1, (-1)); (436, 438, 2, (-1)); (441, 441, 1, (-1)); (445, 445, 1, (-1));
   (447, 447, 1, 56); (453, 453, 1, (-1)); (454, 454, 1, (-2)); (456, 456, 1, (-1));
   (457, 457, 1, (-2)); (459, 459, 1, (-1)); (460, 460, 1, (-2)); (462, 476, 2, (-1));
   (477, 477, 1, (-79)); (479, 495, 2, (-1)); (498, 498, 1, (-1)); (499, 499, 1, (-2));
   (501, 501, 1, (-1)); (505, 543, 2, (-1)); (547, 563, 2, (-1)); (572, 572, 1, (-1));
   (575, 576, 1, 10815); (578, 578, 1, (-1)); (583, 591, 2, (-1)); (592, 592, 1, 10783);
   (593, 593, 1, 10780); (594, 594, 1, 10782); (595, 595, 1, (-210)); (596, 596, 1, (-206));
   (598, 599, 1, (-205)); (601, 601, 1, (-202)); (603, 603, 1, (-203)); (604, 604, 1, 42319);
   (608, 608, 1, (-205)); (609, 609, 1, 42315); (611, 611, 1, (-207)); (613, 613, 1, 42280);
   (614, 614, 1, 42308); (616, 616, 1, (-209)); (617, 617, 1, (-211)); (618, 618, 1, 42308);
   (619, 619, 1, 10743); (620, 620, 1, 42305); (623, 623, 1, (-211)); (625, 625, 1, 10749);
   (626, 626, 1, (-213)); (629, 629, 1, (-214)); (637, 637, 1, 10727); (640, 640, 1, (-218));
   (642, 642, 1, 42307); (643, 643, 1, (-218)); (647, 647, 1, 42282); (648, 648, 1, (-218));
   (649, 649, 1, (-69)); (650, 651, 1, (-217)); (652, 652, 1, (-71)); (658, 658, 1, (-219));
   (669, 669, 1, 42261); (670, 670, 1, 42258); (837, 837, 1, 84); (881, 883, 2, (-1));
   (887, 887, 1, (-1)); (891, 893, 1, 130); (940, 940, 1, (-38)); (941, 943, 1, (-37));
   (945, 961, 1, (-32)); (962, 962, 1, (-31)); (963, 971, 1, (-32)); (972, 972, 1, (-64));
   (973, 974, 1, (-63)); (976, 976, 1, (-62)); (977, 977, 1, (-57)); (981, 981, 1, (-47));
   (982, 982, 1, (-54)); (983, 983, 1, (-8)); (985, 1007, 2, (-1)); (1008, 1008, 1, (-86));
   (1009, 1009, 1, (-80)); (1010, 1010, 1, 7); (1011, 1011, 1, (-116)); (1013, 1013, 1, (-96));
   (1016, 1016, 1, (-1)); (1019, 1019, 1, (-1)); (1072, 1103, 1, (-32)); (1104, 1119, 1, (-80));
   (1121, 1153, 2, (-1)); (1163, 1215, 2, (-1)); (1218, 1230, 2, (-1)); (1231, 1231, 1, (-15));
   (1233, 1327, 2, (-1)); (1377, 1414, 1, (-48)); (4304, 4346, 1, 3008); (4349, 4351, 1, 3008);
   (5112, 5117, 1, (-8)); (7296, 7296, 1, (-6254)); (7297, 7297, 1, (-6253)); (7298, 7298, 1, (-6244));
   (7299, 7300, 1, (-6242)); (7301, 7301, 1, (-6243)); (7302, 7302, 1, (-6236)); (7303, 7303, 1, (-6181));
   (7304, 7304, 1, 35266); (7545, 7545, 1, 35332); (7549, 7549, 1, 3814); (7566, 7566, 1, 35384);
   (7681, 7829, 2, (-1)); (7835, 7835, 1, (-59)); (7841, 7935, 2, (-1)); (7936, 7943, 1, 8);
   (7952, 7957, 1, 8); (7968, 7975, 1, 8); (7984, 7991, 1, 8); (8000, 8005, 1, 8);
   (8017, 8023, 2, 8); (8032, 8039, 1, 8); (8048, 8049, 1, 74); (8050, 8053, 1, 86);
   (8054, 8055, 1, 100); (8056, 8057, 1, 128); (8058, 8059, 1, 112); (8060, 8061, 1, 126);
   (8112, 8113, 1, 8); (8126, 8126, 1, (-7205)); (8144, 8145, 1, 8); (8160, 8161, 1, 8);
   (8165, 8165, 1, 7); (8526, 8526, 1, (-28)); (8560, 8575, 1, (-16)); (8580, 8580, 1, (-1));
   (9424, 9449, 1, (-26)); (11312, 11359, 1, (-48)); (11361, 11361, 1, (-1)); (11365, 11365, 1, (-10795));
   (11366, 11366, 1, (-10792)); (11368, 11372, 2, (-1)); (11379, 11379, 1, (-1)); (11382, 11382, 1, (-1));
   (11393, 11491, 2, (-1)); (11500, 11502, 2, (-1)); (11507, 11507, 1, (-1)); (11520, 11557, 1, (-7264));
   (11559, 11559, 1, (-7264)); (11565, 11565, 1, (-7264)); (42561, 42605, 2, (-1)); (42625, 42651, 2, (-1));
   (42787, 42799, 2, (-1)); (42803, 42863, 2, (-1)); (42874, 42876, 2, (-1)); (42879, 42887, 2, (-1));
   (42892, 42892, 1, (-1)); (42897, 42899, 2, (-1)); (42900, 42900, 1, 48); (42903, 42921, 2, (-1));
   (42933, 42947, 2, (-1)); (42952, 42954, 2, (-1)); (42961, 42961, 1, (-1)); (42967, 42969, 2, (-1));
   (42998, 42998, 1, (-1)); (43859, 43859, 1, (-928)); (43888, 43967, 1, (-38864)); (65345, 65370, 1, (-32));
   (66600, 66639, 1, (-40)); (66776, 66811, 1, (-40)); (66967, 67003, 2, (-39)); (66968, 66977, 1, (-39));
   (66980, 66993, 1, (-39)); (66996, 67001, 1, (-39)); (67004, 67004, 1, (-39)); (68800, 68850, 1, (-64));
   (71872, 71903, 1, (-32)); (93792, 93823, 1, (-32)); (125218, 125251, 1, (-34))]%Z.

(** The mappings of SpecialCasing.txt that hold in every language and
    send a code point to several. *)
Definition upper_special : list (Z * list Z) :=
  [   (223, [83; 83]); (329, [700; 78]); (496, [74; 780]);
   (912, [921; 776; 769]); (944, [933; 776; 769]); (1415, [1333; 1362]);
   (7830, [72; 817]); (7831, [84; 776]); (7832, [87; 778]);
   (7833, [89; 778]); (7834, [65; 702]); (8016, [933; 787]);
   (8018, [933; 787; 768]); (8020, [933; 787; 769]); (8022, [933; 787; 834]);
   (8064, [7944; 921]); (8065, [7945; 921]); (8066, [7946; 921]);
   (8067, [7947; 921]); (8068, [7948; 921]); (8069, [7949; 921]);
   (8070, [7950; 921]); (8071, [7951; 921]); (8072, [7944; 921]);
   (8073, [7945; 921]); (8074, [7946; 921]); (8075, [7947; 921]);
   (8076, [7948; 921]); (8077, [7949; 921]); (8078, [7950; 921]);
   (8079, [7951; 921]); (8080, [7976; 921]); (8081, [7977; 921]);
   (8082, [7978; 921]); (8083, [7979; 921]); (8084, [7980; 921]);
   (8085, [7981; 921]); (8086, [7982; 921]); (8087, [7983; 921]);
   (8088, [7976; 921]); (8089, [7977; 921]); (8090, [7978; 921]);
   (8091, [7979; 921]); (8092, [7980; 921]); (8093, [7981; 921]);
   (8094, [7982; 921]); (8095, [7983; 921]); (8096, [8040; 921]);
   (8097, [8041; 921]); (8098, [8042; 921]); (8099, [8043; 921]);
   (8100, [8044; 921]); (8101, [8045; 921]); (8102, [8046; 921]);
   (8103, [8047; 921]); (8104, [8040; 921]); (8105, [8041; 921]);
   (8106, [8042; 921]); (8107, [8043; 921]); (8108, [8044; 921]);
   (8109, [8045; 921]); (8110, [8046; 921]); (8111, [8047; 921]);
   (8114, [8122; 921]); (8115, [913; 921]); (8116, [902; 921]);
   (8118, [913; 834]); (8119, [913; 834; 921]); (8124, [913; 921]);
   (8130, [8138; 921]); (8131, [919; 921]); (8132, [905; 921]);
   (8134, [919; 834]); (8135, [919; 834; 921]); (8140, [919; 921]);
   (8146, [921; 776; 768]); (8147, [921; 776; 769]); (8150, [921; 834]);
   (8151, [921; 776; 834]); (8162, [933; 776; 768]); (8163, [933; 776; 769]);
   (8164, [929; 787]); (8166, [933; 834]); (8167, [933; 776; 834]);
   (8178, [8186; 921]); (8179, [937; 921]); (8180, [911; 921]);
   (8182, [937; 834]); (8183, [937; 834; 921]); (8188, [937; 921]);
   (64256, [70; 70]); (64257, [70; 73]); (64258, [70; 76]);
   (64259, [70; 70; 73]); (64260, [70; 70; 76]); (64261, [83; 84]);
   (64262, [83; 84]); (64275, [1348; 1350]); (64276, [1348; 1333]);
   (64277, [1348; 1339]); (64278, [1358; 1350]); (64279, [1348; 1341])]%Z.

Definition in_upper_range (cp : Z) (r : Z * Z * Z * Z) : bool :=
  let '(first, last, stride, _) := r in
  (first <=? cp)%Z && (cp <=? last)%Z && ((cp - first) mod stride =? 0)%Z.

(** The upper-case form of one code point. *)
Definition upper_code_point (cp : Z) : list Z :=
  match List.find (fun m => (fst m =? cp)%Z) upper_special with
  | Some m => snd m
  | None =>
      match List.find (in_upper_range cp) upper_ranges with
      | Some (_, _, _, delta) => [(cp + delta)%Z]
      | None => [cp]
      end
  end.

(** [str.toUpperCase()]. *)
Definition toUpperCase (str : string) : string :=
  string_of_code_points (flat_map upper_code_point (code_points str)).

(** The body of a signup request; an absent field is the empty string,
    which the handler treats alike. *)
Record SignupBody := mkSignupBody {
  sb_username : string;
  sb_displayName : string;
  sb_password : string;
  sb_confirmPassword : string
}.

(** What one signup draws: three UUIDs, a session id and the clock. *)
Record SignupDraws := mkSignupDraws {
  sd_userId : string;
  sd_sessionId : string;
  sd_roomId : string;
  sd_memberId : string;
  sd_now : Z
}.

Definition signup (b : SignupBody) (d : SignupDraws) (sv : Server) : Server * Response :=
  if String.eqb (sb_username b) "" || String.eqb (sb_displayName b) ""
     || String.eqb (sb_password b) ""
  then (sv, mkResponse 400 (J_error "All fields are required"))
  else if negb (String.eqb (sb_password b) (sb_confirmPassword b))
  then (sv, mkResponse 400 (J_error "Passwords do not match"))
  else if Nat.ltb (js_length (sb_password b)) 6
  then (sv, mkResponse 400 (J_error "Password must be at least 6 characters long"))
  else
    match getUserByUsername (sb_username b) (storage sv) with
    | Some existingUser => (sv, mkResponse 409 (J_error "Username already exists"))
    | None =>
        let '(s1, newUser) :=
          createUser (sd_userId d) (sd_now d)
            (mkInsertUser (sb_username b) (sb_displayName b) (sb_password b)
               (Some (toUpperCase (string_slice 0 2 (sb_displayName b)))) true)
            (storage sv) in
        let sessions := jm_set (sd_sessionId d) (u_id newUser) (userSessions sv) in
        let '(s2, welcomeRoom) :=
          createChatRoom (sd_roomId d) (sd_now d)
            (mkInsertChatRoom "Welcome" (Some "Your first chat room") (Some "users") "group")
            s1 in
        let '(s3, _) :=
          addUserToRoom (sd_memberId d) (sd_now d)
            (mkInsertRoomMember (u_id newUser) (r_id welcomeRoom)) s2 in
        (mkServer s3 sessions (timers sv) (hub sv),
         mkResponse 200 (J_session_user newUser (sd_sessionId d)))
    end.

Definition login (username password sessionId : string) (now : Z) (sv : Server)
  : Server * Response :=
  if String.eqb username "" || String.eqb password ""
  then (sv, mkResponse 400 (J_error "Username and password are required"))
  else
    match getUserByUsername username (storage sv) with
    | Some user =>
        if String.eqb (u_password user) password then
          let s1 := updateUserOnlineStatus (u_id user) true now (storage sv) in
          let shown := match getUser (u_id user) s1 with Some u' => u' | None => user end in
          (mkServer s1 (jm_set sessionId (u_id user) (userSessions sv)) (timers sv) (hub sv),
           mkResponse 200 (J_session_user shown sessionId))
        else (sv, mkResponse 401 (J_error "Invalid username or password"))
    | None => (sv, mkResponse 401 (J_error "Invalid username or password"))
    end.

Definition logout (sessionId : string) (now : Z) (sv : Server) : Server * Response :=
  if truthy (Some sessionId) then
    match jm_get sessionId (userSessions sv) with
    | Some userId =>
        let s1 := if truthy (Some userId)
                  then updateUserOnlineStatus userId false now (storage sv)
                  else storage sv in
        (mkServer s1 (jm_delete sessionId (userSessions sv)) (timers sv) (hub sv),
         mkResponse 200 J_success)
    | None => (sv, mkResponse 200 J_success)
    end
  else (sv, mkResponse 200 J_success).

(** The guard shared by the room-scoped handlers: the acting user is the
    one named ["current_user"], who must be in the room. *)
Definition room_guard (roomId : string) (sv : Server) : User + Response :=
  match getUserByUsername "current_user" (storage sv) with
  | None => inr (mkResponse 404 (J_error "User not found"))
  | Some user =>
      if isUserInRoom (u_id user) roomId (storage sv)
      then inl user
      else inr (mkResponse 403 (J_error "Access denied"))
  end.

Definition get_rooms (sv : Server) : Response :=
  match getUserByUsername "current_user" (storage sv) with
  | None => mkResponse 404 (J_error "User not found")
  | Some user => mkResponse 200 (J_rooms (getChatRoomsForUser (u_id user) (storage sv)))
  end.

(** [parseInt(q) || dflt]: an absent, unparsable or zero value gives the
    default. *)
Definition or_default (q : option Z) (dflt : Z) : Z :=
  match q with
  | Some n => if (n =? 0)%Z then dflt else n
  | None => dflt
  end.

Definition get_messages (roomId : string) (limit offset : option Z) (sv : Server) : Response :=
  match room_guard roomId sv with
  | inr denied => denied
  | inl user =>
      mkResponse 200
        (J_messages (getMessages roomId (or_default limit 50) (or_default offset 0) (storage sv)))
  end.

(** POST /api/rooms/:roomId/messages.  [content] is [None] when the body
    has no string [content], which [insertMessageSchema.parse] rejects. *)
Definition post_message (roomId : string) (content : option string) (uuid : string) (now : Z)
  (sv : Server) : Server * Response :=
  match room_guard roomId sv with
  | inr denied => (sv, denied)
  | inl user =>
      match content with
      | None => (sv, mkResponse 400 (J_zod_error "Invalid message data"))
      | Some text =>
          let '(s1, created) :=
            createMessage uuid now (mkInsertMessage text (u_id user) roomId) (storage sv) in
          match created with
          | Resolved message =>
              (mkServer s1 (userSessions sv)
                 (timers sv ++ [mkTimer (now + 1000) (MarkDelivered (m_id (mws_message message)))])
                 (hub sv),
               mkResponse 200 (J_message message))
          | Rejected _ =>
              (mkServer s1 (userSessions sv) (timers sv) (hub sv),
               mkResponse 500 (J_error "Failed to send message"))
          end
      end
  end.

(** The [isTyping] field of a request body. *)
Inductive BodyBool : Type := Absent | IsBool (b : bool) | NotBool.

(** POST /api/rooms/:roomId/typing; [req.body.isTyping ?? true]. *)
Definition post_typing (roomId : string) (isTyping : BodyBool) (uuid : string) (now : Z)
  (sv : Server) : Server * Response :=
  match room_guard roomId sv with
  | inr denied => (sv, denied)
  | inl user =>
      match isTyping with
      | NotBool => (sv, mkResponse 400 (J_zod_error "Invalid typing data"))
      | _ =>
          let flag := match isTyping with IsBool b => b | _ => true end in
          let '(s1, tm) :=
            updateTypingStatus uuid now (mkInsertTypingStatus (u_id user) roomId flag)
              (storage sv) in
          (mkServer s1 (userSessions sv) (timers sv ++ [tm]) (hub sv),
           mkResponse 200 J_success)
      end
  end.

(** GET /api/rooms/:roomId/typing. *)
Definition get_typing (roomId : string) (now : Z) (sv : Server) : Response :=
  match room_guard roomId sv with
  | inr denied => denied
  | inl user =>
      let typingUsers := getTypingUsers roomId now (storage sv) in
      mkResponse 200
        (J_users (List.filter (fun u => negb (String.eqb (u_id u) (u_id user))) typingUsers))
  end.

Inductive Request : Type :=
| PostLogin (username password sessionId : string)
| PostSignup (b : SignupBody) (d : SignupDraws)
| PostLogout (sessionId : string)
| GetRooms
| GetMessages (roomId : string) (limit offset : option Z)
| PostMessage (roomId : string) (content : option string) (uuid : string)
| PostTyping (roomId : string) (isTyping : BodyBool) (uuid : string)
| GetTyping (roomId : string).

Definition handle (req : Request) (now : Z) (sv : Server) : Server * Response :=
  match req with
  | PostLogin username password sessionId => login username password sessionId now sv
  | PostSignup b d => signup b d sv
  | PostLogout sessionId => logout sessionId now sv
  | GetRooms => (sv, get_rooms sv)
  | GetMessages roomId limit offset => (sv, get_messages roomId limit offset sv)
  | PostMessage roomId content uuid => post_message roomId content uuid now sv
  | PostTyping roomId isTyping uuid => post_typing roomId isTyping uuid now sv
  | GetTyping roomId => (sv, get_typing roomId now sv)
  end.

(** What the event loop runs: a request, a due timer, or a socket event. *)
Inductive ServerEvent : Type :=
| Http (req : Request) (now : Z)
| TimerFires (i : nat)
| Socket (e : HubEvent).

Definition fire_timer (i : nat) (sv : Server) : Server :=
  match nth_error (timers sv) i with
  | Some tm =>
      mkServer (run_task (task tm) (storage sv)) (userSessions sv)
        (firstn i (timers sv) ++ skipn (S i) (timers sv)) (hub sv)
  | None => sv
  end.

Definition server_step (e : ServerEvent) (sv : Server) : Server :=
  match e with
  | Http req now => fst (handle req now sv)
  | TimerFires i => fire_timer i sv
  | Socket e' => mkServer (storage sv) (userSessions sv) (timers sv) (hub_step e' (hub sv))
  end.

Definition run_server (events : list ServerEvent) (sv : Server) : Server :=
  fold_left (fun acc e => server_step e acc) events sv.

Definition reachable (sv : Server) : Prop :=
  ∃ events, sv = run_server events initial_server.

(** ** client/src/hooks/use-websocket.ts: reconnection *)

Inductive ConnectionStatus : Type := connecting | connected | disconnected.

(** The hook's handlers are closures of one socket.  An event names its
    socket by whether [ws.current] still refers to it: a socket that
    [disconnect] closed, or that [connect] replaced, is [Detached], and its
    events still run the handlers. *)
Inductive SocketRef : Type := Current | Detached.

(** The refs and state of the hook and its timers: the [readyState] of the
    socket [ws.current] refers to ([None] for [null]), the status shown,
    the counter, the handle held by [reconnectTimeoutRef], the timers set
    and neither fired nor cleared (handle, delay in milliseconds), and the
    number of handles [setTimeout] has handed out.  A handle is truthy and
    differs from every earlier one; they are numbered 1, 2, ... here. *)
Record WsHook := mkWsHook {
  ws_current : option ReadyState;
  connectionStatus : ConnectionStatus;
  reconnectAttempts : nat;
  reconnectTimeoutRef : option nat;
  armed : list (nat * Z);
  handles : nat
}.

Definition maxReconnectAttempts : nat := 5.

Definition connect (c : WsHook) : WsHook :=
  match ws_current c with
  | Some OPEN => c
  | _ =>
      mkWsHook (Some CONNECTING) connecting (reconnectAttempts c)
        (reconnectTimeoutRef c) (armed c) (handles c)
  end.

(** What [ws.current.readyState] reads once the socket of an event has
    become [st]: the handlers never assign [ws.current]. *)
Definition seen_after (s : SocketRef) (st : ReadyState) (c : WsHook) : option ReadyState :=
  match s with
  | Current => option_map (fun _ => st) (ws_current c)
  | Detached => ws_current c
  end.

Definition onopen (s : SocketRef) (c : WsHook) : WsHook :=
  mkWsHook (seen_after s OPEN c) connected 0 (reconnectTimeoutRef c) (armed c) (handles c).

Definition reconnect_delay (attempts : nat) : Z :=
  (2 ^ Z.of_nat attempts * 1000)%Z.

Definition onclose (s : SocketRef) (c : WsHook) : WsHook :=
  if Nat.ltb (reconnectAttempts c) maxReconnectAttempts
  then
    let handle := S (handles c) in
    mkWsHook (seen_after s CLOSED c) disconnected (reconnectAttempts c) (Some handle)
      (armed c ++ [(handle, reconnect_delay (reconnectAttempts c))]) handle
  else
    mkWsHook (seen_after s CLOSED c) disconnected (reconnectAttempts c)
      (reconnectTimeoutRef c) (armed c) (handles c).

Definition clearTimeout (handle : nat) (timers : list (nat * Z)) : list (nat * Z) :=
  List.filter (fun t => negb (Nat.eqb (fst t) handle)) timers.

Definition timer_delay (handle : nat) (timers : list (nat * Z)) : option Z :=
  option_map snd (List.find (fun t => Nat.eqb (fst t) handle) timers).

(** The callback of the reconnect timer [handle], if it is still set. *)
Definition reconnect_timer (handle : nat) (c : WsHook) : WsHook :=
  match timer_delay handle (armed c) with
  | Some _ =>
      connect (mkWsHook (ws_current c) (connectionStatus c) (S (reconnectAttempts c))
                 (reconnectTimeoutRef c) (clearTimeout handle (armed c)) (handles c))
  | None => c
  end.

(** [disconnect()]: the timer whose handle the ref holds is cleared, the
    socket is closed and forgotten.  The close event of that socket comes
    later, as that of a [Detached] socket. *)
Definition disconnect (c : WsHook) : WsHook :=
  mkWsHook None disconnected (reconnectAttempts c) (reconnectTimeoutRef c)
    (match reconnectTimeoutRef c with
     | Some handle => clearTimeout handle (armed c)
     | None => armed c
     end)
    (handles c).

(** What happens to a hook: the calls of [connect] and [disconnect] (by
    the effects or the caller), the events of its sockets and the firing of
    its timers.  Which of them happen, and in which order, is for the page
    and the network to decide. *)
Inductive HookEvent : Type :=
| Connects
| Disconnects
| Opens (s : SocketRef)
| Closes (s : SocketRef)
| Fires (handle : nat).

Definition hook_step (e : HookEvent) (c : WsHook) : WsHook :=
  match e with
  | Connects => connect c
  | Disconnects => disconnect c
  | Opens s => onopen s c
  | Closes s => onclose s c
  | Fires handle => reconnect_timer handle c
  end.

Definition run_hook (events : list HookEvent) (c : WsHook) : WsHook :=
  fold_left (fun acc e => hook_step e acc) events c.

(** The hook before its first effect runs. *)
Definition initial_hook : WsHook := mkWsHook None disconnected 0 None [] 0.

(** [k] failures in a row of the current socket: each close is followed,
    when it set a timer, by that timer firing and the new socket failing in
    turn.  Returns the delays waited, in order. *)
Fixpoint fail_repeatedly (k : nat) (c : WsHook) : WsHook * list Z :=
  match k with
  | 0 => (c, [])
  | S k' =>
      let c1 := onclose Current c in
      match (if Nat.ltb (handles c) (handles c1)
             then timer_delay (handles c1) (armed c1) else None) with
      | Some delay =>
          let '(c2, delays) := fail_repeatedly k' (reconnect_timer (handles c1) c1) in
          (c2, delay :: delays)
      | None => (c1, [])
      end
  end.

(** ** Invariants of the store and notions used by the properties *)

Ltac derive_eq_dec :=
  unfold EqDecision, Decision; decide equality; apply (_ : EqDecision _).

#[global] Instance User_eq_dec : EqDecision User.
Proof. derive_eq_dec. Defined.

#[global] Instance Message_eq_dec : EqDecision Message.
Proof. derive_eq_dec. Defined.

#[global] Instance MessageWithSender_eq_dec : EqDecision MessageWithSender.
Proof. derive_eq_dec. Defined.

#[global] Instance Frame_eq_dec : EqDecision Frame.
Proof. derive_eq_dec. Defined.

(** Every entry of a map sits under the key computed from its value, and
    no key occurs twice. *)
Definition keyed_by {V : Type} (key_of : V → string) (m : list (string * V)) : Prop :=
  List.NoDup (jm_keys m) ∧ Forall (fun kv => fst kv = key_of (snd kv)) m.

Record store_ok (s : MemStorage) : Prop := mk_store_ok {
  ok_users : keyed_by u_id (users s);
  ok_chatRooms : keyed_by r_id (chatRooms s);
  ok_messages : keyed_by m_id (messages s);
  ok_roomMembers : keyed_by rm_id (roomMembers s);
  ok_typingStatuses :
    keyed_by (fun row => typing_key (t_userId row) (t_roomId row)) (typingStatuses s)
}.

(** Every stored message has a sender that [getUser] finds. *)
Definition senders_ok (s : MemStorage) : Prop :=
  Forall (fun msg => is_Some (getUser (m_senderId msg) s)) (jm_values (messages s)).

Definition storage_inv (s : MemStorage) : Prop := store_ok s ∧ senders_ok s.

(** Every stored message was stamped after the epoch. *)
Definition stamps_ok (s : MemStorage) : Prop :=
  Forall (fun msg => (0 < m_timestamp msg)%Z) (jm_values (messages s)).

Definition room_messages (roomId : string) (s : MemStorage) : list Message :=
  List.filter (fun msg => String.eqb (m_roomId msg) roomId) (jm_values (messages s)).

(** Timestamp of the most recent message of a room, zero without one. *)
Definition latest_message_time (roomId : string) (s : MemStorage) : Z :=
  match List.map m_timestamp (room_messages roomId s) with
  | [] => 0%Z
  | t :: ts => fold_right Z.max t ts
  end.

Definition has_membership (userId roomId : string) (s : MemStorage) : Prop :=
  ∃ member, In member (jm_values (roomMembers s))
            ∧ rm_userId member = userId ∧ rm_roomId member = roomId.

(** A fresh typing row of a room, as [getTypingUsers] selects it. *)
Definition fresh_typing_row (roomId : string) (now : Z) (row : TypingStatus) : Prop :=
  t_roomId row = roomId ∧ t_isTyping row = true ∧ (now - t_lastUpdate row < 5000)%Z.

(** Whether the sender of a message is found. *)
Definition resolves (s : MemStorage) (msg : Message) : bool :=
  match getUser (m_senderId msg) s with Some _ => true | None => false end.

(** [messagesForRoom] as the specification words it: the window of the
    room's messages in ascending timestamp order, each with its sender, and
    an [IntegrityError] when a sender of the window does not resolve. *)
Fixpoint attach_senders_strict (roomMessages : list Message) (s : MemStorage)
  : Outcome (list MessageWithSender) :=
  match roomMessages with
  | [] => Resolved []
  | message :: rest =>
      match getUser (m_senderId message) s with
      | Some sender =>
          match attach_senders_strict rest s with
          | Resolved out => Resolved (mkMessageWithSender message sender :: out)
          | Rejected e => Rejected e
          end
      | None => Rejected "IntegrityError"
      end
  end.

Definition messagesForRoom_spec (roomId : string) (limit offset : Z) (s : MemStorage)
  : Outcome (list MessageWithSender) :=
  attach_senders_strict
    (js_slice offset (offset + limit) (js_sort by_timestamp_asc (room_messages roomId s))) s.

(** "The handler publishes [fr] on the room": every open connection of
    the room's set has [fr] as its newest frame. *)
Definition pushed_to_room (roomId : string) (fr : Frame) (before after : Hub) : Prop :=
  ∀ ws, in_room ws roomId before → readyState before ws = OPEN →
        delivered_to ws after = delivered_to ws before ++ [fr].

(** A connection is in the set of at most one room. *)
Definition one_room_per_connection (h : Hub) : Prop :=
  ∀ ws r1 r2, in_room ws r1 h → in_room ws r2 h → r1 = r2.

(** Every membership in a room set is recorded in the variables of the
    connection, under a non-empty room id. *)
Definition memberships_recorded (h : Hub) : Prop :=
  ∀ ws r, in_room ws r h →
          r ≠ "" ∧ ∃ v, conn_vars h !! ws = Some v ∧ currentRoomId v = Some r.

(** A socket event that does not join the room named by the empty
    string. *)
Definition names_its_room (e : HubEvent) : Prop :=
  match e with
  | Receive _ (In_join_room roomId _) => roomId ≠ ""
  | _ => True
  end.

Definition valid_signup (b : SignupBody) : Prop :=
  sb_username b ≠ "" ∧ sb_displayName b ≠ "" ∧ sb_password b ≠ ""
  ∧ sb_password b = sb_confirmPassword b
  ∧ (6 <= js_length (sb_password b))%nat.

(** The user a successful signup creates. *)
Definition signup_user (b : SignupBody) (d : SignupDraws) : User :=
  mkUser (sd_userId d) (sb_username b) (sb_displayName b) (sb_password b)
    (Some (toUpperCase (string_slice 0 2 (sb_displayName b)))) true (sd_now d).

Fixpoint signup_all (reqs : list (SignupBody * SignupDraws)) (sv : Server)
  : Server * list Response :=
  match reqs with
  | [] => (sv, [])
  | (b, d) :: rest =>
      let '(sv1, resp) := signup b d sv in
      let '(sv2, resps) := signup_all rest sv1 in
      (sv2, resp :: resps)
  end.

(** ** Example states *)

Definition alice_signup : SignupBody * SignupDraws :=
  (mkSignupBody "current_user" "Alice" "secret1" "secret1",
   mkSignupDraws "u-alice" "s-1" "lobby" "rm-1" 1000).

Definition bob_signup : SignupBody * SignupDraws :=
  (mkSignupBody "bob" "Bob" "hunter22" "hunter22",
   mkSignupDraws "u-bob" "s-2" "den" "rm-2" 2000).

(** A signup whose display name and password have letters outside
    ASCII: the password has 8 characters in 9 bytes. *)
Definition elodie_signup : SignupBody * SignupDraws :=
  (mkSignupBody "elodie" "élodie" "pässwort" "pässwort",
   mkSignupDraws "u-elodie" "s-3" "salon" "rm-3" 3000).

(** Alice (the user the handlers act for) has signed up, which gave her
    the room ["lobby"]; connections 1 and 2 watch that room. *)
Definition demo_server : Server :=
  run_server
    [Http (PostSignup (fst alice_signup) (snd alice_signup)) 1000;
     Socket (Connect 1);
     Socket (Receive 1 (In_join_room "lobby" "u-alice"));
     Socket (Connect 2);
     Socket (Receive 2 (In_join_room "lobby" "u-bob"))]
    initial_server.

(** Alice is a member of two rooms; only ["den"] has a message. *)
Definition two_rooms_store : MemStorage :=
  let s1 := fst (createUser "u-alice" 1000
                   (mkInsertUser "current_user" "Alice" "secret1" (Some "AL") true)
                   empty_storage) in
  let s2 := fst (createChatRoom "lobby" 1000
                   (mkInsertChatRoom "Welcome" None (Some "users") "group") s1) in
  let s3 := fst (addUserToRoom "rm-1" 1000 (mkInsertRoomMember "u-alice" "lobby") s2) in
  let s4 := fst (createChatRoom "den" 2000
                   (mkInsertChatRoom "Den" None (Some "code") "group") s3) in
  let s5 := fst (addUserToRoom "rm-2" 2000 (mkInsertRoomMember "u-alice" "den") s4) in
  fst (createMessage "m-1" 3000 (mkInsertMessage "hello" "u-alice" "den") s5).

(** A store holding one message whose sender was never created. *)
Definition orphan_store : MemStorage :=
  fst (createMessage "m-1" 1000 (mkInsertMessage "hello" "ghost" "lobby") empty_storage).

(** Three connections join the room named by the empty string. *)
Definition unnamed_room_hub : Hub :=
  run_hub
    [Connect 1; Connect 2; Connect 3;
     Receive 1 (In_join_room "" "a");
     Receive 2 (In_join_room "" "b");
     Receive 3 (In_join_room "" "c")]
    empty_hub.

(** One connection joins the room named by the empty string and then the
    room ["lobby"]. *)
Definition two_rooms_hub : Hub :=
  run_hub
    [Connect 1;
     Receive 1 (In_join_room "" "a");
     Receive 1 (In_join_room "lobby" "a")]
    empty_hub.

(** A hook whose first socket has opened. *)
Definition fresh_hook : WsHook := mkWsHook (Some OPEN) connected 0 None [] 0.

(** Every timer still set carries a handle that [setTimeout] handed out. *)
Definition timers_issued (c : WsHook) : Prop :=
  List.Forall (fun t => (fst t <= handles c)%nat) (armed c).




(** Two sockets failed and [connect] was called after each: both reconnect
    timers are still set, and a third socket is connecting. *)
Definition two_timers_hook : WsHook :=
  run_hook [Connects; Opens Current; Closes Current; Connects; Closes Current; Connects]
    initial_hook.

(** ** server/routes.ts: the remaining handlers *)

Fixpoint string_drop (n : nat) (str : string) : string :=
  match n, str with
  | S n', String _ rest => string_drop n' rest
  | _, _ => str
  end.

(** [str.replace(pat, rep)] for a string pattern: the first occurrence. *)
Fixpoint replace_first (pat rep str : string) : string :=
  if String.prefix pat str
  then String.append rep (string_drop (String.length pat) str)
  else match str with
       | EmptyString => EmptyString
       | String c rest => String c (replace_first pat rep rest)
       end.

Inductive AuthBody : Type :=
| Auth_error (message : string)
| Auth_user (user : User).

(** GET /api/auth/me; [authorization] is the header, if the request has
    one. *)
Definition get_me (authorization : option string) (sv : Server)
  : Server * (nat * AuthBody) :=
  let sessionId := option_map (replace_first "Bearer " "") authorization in
  match sessionId with
  | None => (sv, (401, Auth_error "Not authenticated"))
  | Some sid =>
      if negb (truthy (Some sid)) then (sv, (401, Auth_error "Not authenticated"))
      else
        match jm_get sid (userSessions sv) with
        | None => (sv, (401, Auth_error "Not authenticated"))
        | Some userId =>
            if negb (truthy (Some userId)) then (sv, (401, Auth_error "Invalid session"))
            else
              match getUser userId (storage sv) with
              | Some user => (sv, (200, Auth_user user))
              | None =>
                  (mkServer (storage sv) (jm_delete sid (userSessions sv)) (timers sv) (hub sv),
                   (401, Auth_error "User not found"))
              end
        end
  end.

Inductive RoomBody : Type :=
| Room_error (message : string)
| Room_detail (room : ChatRoom) (members : list User) (onlineCount : nat).

(** GET /api/rooms/:roomId. *)
Definition get_room (roomId : string) (sv : Server) : nat * RoomBody :=
  match room_guard roomId sv with
  | inr denied =>
      (status denied,
       Room_error match body denied with J_error msg => msg | _ => "" end)
  | inl user =>
      match getChatRoom roomId (storage sv) with
      | None => (404, Room_error "Room not found")
      | Some room =>
          let members := getRoomMembers roomId (storage sv) in
          let onlineCount := length (List.filter u_isOnline members) in
          (200, Room_detail room members onlineCount)
      end
  end.

(** ** client: the hook's message handler and senders *)

Inductive Activity : Type := joined | left.

(** The callbacks the hook invokes. *)
Inductive HookCallback : Type :=
| OnNewMessage (message : MessageWithSender)
| OnTypingStatus (userId : string) (isTyping : bool)
| OnUserActivity (userId : string) (activity : Activity).

(** [ws.current.onmessage] on a frame of the server; an absent field is
    [None], and a [userId] that is [null] or empty is falsy. *)
Definition onmessage (data : Frame) : option HookCallback :=
  match data with
  | Out_new_message (Some message) => Some (OnNewMessage message)
  | Out_new_message None => None
  | Out_typing_status (Some userId) (Some isTyping) _ =>
      if truthy (Some userId) then Some (OnTypingStatus userId isTyping) else None
  | Out_typing_status _ _ _ => None
  | Out_user_joined (Some userId) _ =>
      if truthy (Some userId) then Some (OnUserActivity userId joined) else None
  | Out_user_joined None _ => None
  | Out_user_left userId _ =>
      if truthy (Some userId) then Some (OnUserActivity userId left) else None
  end.

(** [sendMessage(type, data)]: the frame written, if the socket is open;
    the hook returns [true] exactly then. *)
Definition hook_send (frame : ClientFrame) (c : WsHook) : option ClientFrame :=
  match ws_current c with
  | Some OPEN => Some frame
  | _ => None
  end.

Definition sendTypingStatus (isTyping : bool) (c : WsHook) : option ClientFrame :=
  hook_send (In_typing_status (Some isTyping)) c.

Definition broadcastNewMessage (message : MessageWithSender) (c : WsHook) : option ClientFrame :=
  hook_send (In_new_message (Some message)) c.

(** What the input box does with a typing notice
    ([updateTypingMutation]): the socket when the hook could send, the
    request API otherwise.  [hook] is [None] when the component was given no
    [sendTypingStatus]. *)
Inductive TypingPath : Type :=
| ViaSocket (frame : ClientFrame)
| ViaRequest (roomId : string) (isTyping : BodyBool).

Definition updateTyping (roomId : string) (typing : bool) (hook : option WsHook) : TypingPath :=
  match hook with
  | Some c =>
      match sendTypingStatus typing c with
      | Some frame => ViaSocket frame
      | None => ViaRequest roomId (IsBool typing)
      end
  | None => ViaRequest roomId (IsBool typing)
  end.

(** ** client: the chat area's handlers of pushed events *)

Definition same_message (a b : MessageWithSender) : bool :=
  String.eqb (m_id (mws_message a)) (m_id (mws_message b)).

(** [handleNewMessage]: the updater passed to [setMessages]. *)
Definition handleNewMessage (message : MessageWithSender) (prev : list MessageWithSender)
  : list MessageWithSender :=
  if existsb (fun m => same_message m message) prev then prev else prev ++ [message].

(** [handleTypingStatus]: [found] is what the lookup of the user among the
    room's members gave, [currentUserId] the id of the current user if one
    is known. *)
Definition handleTypingStatus (currentUserId : option string) (userId : string)
  (isTyping : bool) (found : option User) (prev : list User) : list User :=
  match found with
  | Some user =>
      if negb (match currentUserId with
               | Some me => String.eqb userId me
               | None => false
               end)
      then
        if isTyping
        then if existsb (fun u => String.eqb (u_id u) userId) prev
             then prev
             else prev ++ [user]
        else List.filter (fun u => negb (String.eqb (u_id u) userId)) prev
      else prev
  | None => prev
  end.

(** The lookup [roomData?.members?.find(u => u.id === userId)]. *)
Definition find_member (userId : string) (members : option (list User)) : option User :=
  match members with
  | Some ms => List.find (fun u => String.eqb (u_id u) userId) ms
  | None => None
  end.

Record TypingEvent := mkTypingEvent {
  te_userId : string;
  te_isTyping : bool;
  te_members : option (list User)
}.

Definition apply_typing_events (currentUserId : option string) (events : list TypingEvent)
  (prev : list User) : list User :=
  fold_left
    (fun acc e =>
       handleTypingStatus currentUserId (te_userId e) (te_isTyping e)
         (find_member (te_userId e) (te_members e)) acc)
    events prev.

(** ** Notions used by the further properties *)

(** A message with its status replaced. *)
Definition with_status (status : string) (msg : Message) : Message :=
  mkMessage (m_id msg) (m_content msg) (m_senderId msg) (m_roomId msg) (m_timestamp msg) status.

(** A user with the online flag and the last-seen time replaced. *)
Definition with_presence (isOnline : bool) (now : Z) (user : User) : User :=
  mkUser (u_id user) (u_username user) (u_displayName user) (u_password user)
    (u_avatar user) isOnline now.

(** No room set lists a connection twice. *)
Definition room_sets_nodup (h : Hub) : Prop :=
  ∀ r clients, roomClients h !! r = Some clients → List.NoDup clients.

(** Connections 1 and 2 watch ["lobby"], connection 3 watches ["den"]. *)
Definition lobby_hub : Hub :=
  run_hub
    [Connect 1; Receive 1 (In_join_room "lobby" "u-alice");
     Connect 2; Receive 2 (In_join_room "lobby" "u-bob");
     Connect 3; Receive 3 (In_join_room "den" "u-carol")]
    empty_hub.

Definition message_ids (l : list MessageWithSender) : list string :=
  List.map (fun m => m_id (mws_message m)) l.

(** The chat area's messages after the given messages arrived in turn,
    by the request callback or by the push channel. *)
Definition receive_all (arrivals prev : list MessageWithSender) : list MessageWithSender :=
  fold_left (fun acc m => handleNewMessage m acc) arrivals prev.

(** * Properties *)
(** ** JavaScript strings *)

(** [length] counts code units, not bytes; [slice] cuts between code units,
    also inside a surrogate pair; [toUpperCase] maps letters outside ASCII
    and may lengthen the text. *)
Lemma js_string_examples :
  String.length "pässe" = 6 ∧ js_length "pässe" = 5
  ∧ js_length "😀" = 2
  ∧ toUpperCase (string_slice 0 2 "élan") = "ÉL"
  ∧ toUpperCase (string_slice 0 2 "ßeta") = "SSE"
  ∧ code_units (string_slice 0 2 "a😀") = [97; 55357]%Z
  ∧ string_slice (-2) 9 "hello" = "lo".
Proof. vm_compute. repeat split. Qed.

(** ** Facts about maps in insertion order *)

Section JsMapFacts.
Context {V : Type}.
Implicit Types (m : list (string * V)) (k : string) (v : V).

Lemma jm_get_set_eq k v m : jm_get k (jm_set k v m) = Some v.
Proof.
  induction m as [|[k' v'] m IH]; simpl.
  - by rewrite String.eqb_refl.
  - destruct (String.eqb_spec k' k) as [->|Hne]; simpl.
    + by rewrite String.eqb_refl.
    + destruct (String.eqb_spec k' k); [contradiction | exact IH].
Qed.

Lemma jm_get_set_ne k k' v m : k ≠ k' → jm_get k' (jm_set k v m) = jm_get k' m.
Proof.
  intros Hne. induction m as [|[k0 v0] m IH]; simpl.
  - destruct (String.eqb_spec k k'); [contradiction | reflexivity].
  - destruct (String.eqb_spec k0 k) as [->|Hk]; simpl.
    + destruct (String.eqb_spec k k'); [contradiction | reflexivity].
    + destruct (String.eqb_spec k0 k'); [reflexivity | exact IH].
Qed.

Lemma jm_set_fresh k v m : jm_get k m = None → jm_set k v m = m ++ [(k, v)].
Proof.
  induction m as [|[k' v'] m IH]; simpl; [reflexivity|].
  destruct (String.eqb_spec k' k); [discriminate|].
  intros H. by rewrite IH.
Qed.

Lemma jm_get_In k v m : jm_get k m = Some v → In (k, v) m.
Proof.
  induction m as [|[k' v'] m IH]; simpl; [discriminate|].
  destruct (String.eqb_spec k' k) as [->|Hne].
  - intros [= ->]. by left.
  - intros H. right. by apply IH.
Qed.

Lemma jm_get_None k m : jm_get k m = None ↔ ¬ In k (jm_keys m).
Proof.
  induction m as [|[k' v'] m IH]; simpl.
  - split; [intros _ [] | reflexivity].
  - destruct (String.eqb_spec k' k) as [->|Hne].
    + split; [discriminate | intros H; exfalso; apply H; by left].
    + rewrite IH. split.
      * intros H [?|?]; [contradiction | by apply H].
      * intros H ?. apply H. by right.
Qed.

Lemma jm_In_get k v m : List.NoDup (jm_keys m) → In (k, v) m → jm_get k m = Some v.
Proof.
  induction m as [|[k' v'] m IH]; simpl; [intros _ []|].
  intros Hnd [[= -> ->]|Hin].
  - by rewrite String.eqb_refl.
  - inversion Hnd as [|? ? Hnotin Hnd']; subst.
    destruct (String.eqb_spec k' k) as [->|Hne].
    + exfalso. apply Hnotin. change k with (fst (k, v)). by apply in_map.
    + by apply IH.
Qed.

Lemma jm_In_set k v k0 v0 m :
  In (k, v) (jm_set k0 v0 m) → (k, v) = (k0, v0) ∨ In (k, v) m.
Proof.
  induction m as [|[k' v'] m IH]; simpl.
  - intros [H|[]]. by left.
  - destruct (String.eqb_spec k' k0) as [->|Hne]; simpl.
    + intros [H|H]; [by left | right; by right].
    + intros [H|H]; [right; by left|]. destruct (IH H); [by left | right; by right].
Qed.

Lemma jm_keys_set_In k k0 v0 m :
  In k (jm_keys (jm_set k0 v0 m)) → k = k0 ∨ In k (jm_keys m).
Proof.
  induction m as [|[k' v'] m IH]; simpl.
  - intros [H|[]]. by left.
  - destruct (String.eqb_spec k' k0) as [->|Hne]; simpl.
    + intros [H|H]; [by left | right; by right].
    + intros [H|H]; [right; by left|]. destruct (IH H); [by left | right; by right].
Qed.

Lemma jm_set_NoDup k v m : List.NoDup (jm_keys m) → List.NoDup (jm_keys (jm_set k v m)).
Proof.
  induction m as [|[k' v'] m IH]; simpl.
  - intros _. constructor; [intros [] | constructor].
  - intros Hnd. inversion Hnd as [|? ? Hnotin Hnd']; subst.
    destruct (String.eqb_spec k' k) as [->|Hne]; simpl.
    + by constructor.
    + constructor; [|by apply IH].
      intros Hin. destruct (jm_keys_set_In _ _ _ _ Hin); [congruence | contradiction].
Qed.

Lemma jm_In_delete k v k0 m : In (k, v) (jm_delete k0 m) → In (k, v) m.
Proof.
  induction m as [|[k' v'] m IH]; simpl; [tauto|].
  destruct (String.eqb_spec k' k0); simpl; [by right|].
  intros [H|H]; [by left | right; by apply IH].
Qed.

Lemma jm_keys_delete_In k k0 m : In k (jm_keys (jm_delete k0 m)) → In k (jm_keys m).
Proof.
  induction m as [|[k' v'] m IH]; simpl; [tauto|].
  destruct (String.eqb_spec k' k0); simpl; [by right|].
  intros [H|H]; [by left | right; by apply IH].
Qed.

Lemma jm_delete_NoDup k m : List.NoDup (jm_keys m) → List.NoDup (jm_keys (jm_delete k m)).
Proof.
  induction m as [|[k' v'] m IH]; simpl; [done|].
  intros Hnd. inversion Hnd as [|? ? Hnotin Hnd']; subst.
  destruct (String.eqb_spec k' k); simpl; [done|].
  constructor; [|by apply IH].
  intros Hin. apply Hnotin. by eapply jm_keys_delete_In.
Qed.

Lemma jm_get_delete_eq k m : List.NoDup (jm_keys m) → jm_get k (jm_delete k m) = None.
Proof.
  induction m as [|[k' v'] m IH]; simpl; [done|].
  intros Hnd. inversion Hnd as [|? ? Hnotin Hnd']; subst.
  destruct (String.eqb_spec k' k) as [->|Hne]; simpl.
  - by apply jm_get_None.
  - destruct (String.eqb_spec k' k); [contradiction | by apply IH].
Qed.

Lemma jm_values_In v m : In v (jm_values m) ↔ ∃ k, In (k, v) m.
Proof.
  unfold jm_values. rewrite in_map_iff. split.
  - intros [[k v'] [Hv Hin]]. simpl in Hv. subst. by exists k.
  - intros [k Hin]. by exists (k, v).
Qed.

Lemma keyed_by_nil (key_of : V → string) : keyed_by key_of [].
Proof. split; constructor. Qed.

Lemma keyed_by_set (key_of : V → string) k v m :
  keyed_by key_of m → k = key_of v → keyed_by key_of (jm_set k v m).
Proof.
  intros [Hnd Hkeys] Hk. split; [by apply jm_set_NoDup|].
  apply List.Forall_forall. intros [k1 v1] Hin. simpl.
  destruct (jm_In_set _ _ _ _ _ Hin) as [[= -> ->]|Hold]; [done|].
  rewrite List.Forall_forall in Hkeys. exact (Hkeys _ Hold).
Qed.

Lemma keyed_by_delete (key_of : V → string) k m :
  keyed_by key_of m → keyed_by key_of (jm_delete k m).
Proof.
  intros [Hnd Hkeys]. split; [by apply jm_delete_NoDup|].
  apply List.Forall_forall. intros [k1 v1] Hin.
  rewrite List.Forall_forall in Hkeys. apply Hkeys. by eapply jm_In_delete.
Qed.

Lemma keyed_by_get (key_of : V → string) k v m :
  keyed_by key_of m → jm_get k m = Some v → k = key_of v.
Proof.
  intros [_ Hkeys] Hget. rewrite List.Forall_forall in Hkeys.
  exact (Hkeys _ (jm_get_In _ _ _ Hget)).
Qed.

Lemma keyed_by_value (key_of : V → string) v m :
  keyed_by key_of m → In v (jm_values m) → jm_get (key_of v) m = Some v.
Proof.
  intros [Hnd Hkeys] Hin. apply jm_values_In in Hin as [k Hin].
  rewrite List.Forall_forall in Hkeys. pose proof (Hkeys _ Hin) as Hk. simpl in Hk. subst k.
  by apply jm_In_get.
Qed.
End JsMapFacts.

(** ** Facts about [sort] and [slice] *)

Section JsSortFacts.
Context {A : Type}.
Implicit Types (l : list A) (x : A).

Lemma js_insert_Permutation (cmp : A → A → Z) x l :
  Permutation (js_insert cmp x l) (x :: l).
Proof.
  induction l as [|y l IH]; simpl; [reflexivity|].
  destruct (cmp x y <=? 0)%Z; [reflexivity|].
  rewrite IH. apply perm_swap.
Qed.

Lemma js_sort_Permutation (cmp : A → A → Z) l : Permutation (js_sort cmp l) l.
Proof.
  induction l as [|x l IH]; simpl; [reflexivity|].
  rewrite js_insert_Permutation. by constructor.
Qed.

Lemma js_sort_In (cmp : A → A → Z) x l : In x (js_sort cmp l) ↔ In x l.
Proof.
  split; apply Permutation_in; [|symmetry]; apply js_sort_Permutation.
Qed.

Lemma js_sort_length (cmp : A → A → Z) l : length (js_sort cmp l) = length l.
Proof. apply Permutation_length, js_sort_Permutation. Qed.

(** Comparators of the shape [key a - key b]. *)
Variable key : A → Z.
Variable cmp : A → A → Z.
Hypothesis cmp_key : ∀ a b, cmp a b = (key a - key b)%Z.

Let le_key (a b : A) : Prop := (key a <= key b)%Z.

Lemma js_insert_sorted x l :
  StronglySorted le_key l → StronglySorted le_key (js_insert cmp x l).
Proof.
  induction l as [|y l IH]; simpl; intros Hs.
  - repeat constructor.
  - apply StronglySorted_inv in Hs as [Hs Hy].
    destruct (Z.leb_spec (cmp x y) 0) as [Hle|Hgt]; rewrite cmp_key in *.
    + constructor; [by constructor|].
      constructor; [unfold le_key; lia|].
      eapply List.Forall_impl; [|exact Hy]. unfold le_key. simpl. intros; lia.
    + constructor; [by apply IH|].
      eapply Permutation_Forall; [symmetry; apply js_insert_Permutation|].
      constructor; [unfold le_key; lia | exact Hy].
Qed.

Lemma js_sort_sorted l : StronglySorted le_key (js_sort cmp l).
Proof.
  induction l as [|x l IH]; simpl; [constructor | by apply js_insert_sorted].
Qed.

(** Stability: elements with equal keys keep their relative order. *)
Lemma js_insert_stable (k : Z) x l :
  List.filter (fun a => (key a =? k)%Z) (js_insert cmp x l)
  = List.filter (fun a => (key a =? k)%Z) (x :: l).
Proof.
  induction l as [|y l IH]; [reflexivity|].
  cbn [js_insert]. destruct (Z.leb_spec (cmp x y) 0) as [Hle|Hgt]; [reflexivity|].
  rewrite cmp_key in Hgt. cbn [List.filter] in *. rewrite IH.
  destruct (Z.eqb_spec (key x) k), (Z.eqb_spec (key y) k); try reflexivity. lia.
Qed.

Lemma js_sort_stable (k : Z) l :
  List.filter (fun a => (key a =? k)%Z) (js_sort cmp l)
  = List.filter (fun a => (key a =? k)%Z) l.
Proof.
  induction l as [|x l IH]; [reflexivity|].
  cbn [js_sort]. rewrite js_insert_stable. cbn [List.filter]. by rewrite IH.
Qed.
End JsSortFacts.

Section JsSliceFacts.
Context {A : Type}.

Lemma firstn_min_length (n : nat) (l : list A) :
  firstn (Nat.min n (length l)) l = firstn n l.
Proof.
  destruct (Nat.le_gt_cases n (length l)) as [Hle|Hgt].
  - by rewrite Nat.min_l.
  - rewrite Nat.min_r by lia. rewrite firstn_all. symmetry. apply firstn_all2. lia.
Qed.

Lemma js_slice_window (offset limit : Z) (l : list A) :
  (0 <= offset)%Z → (0 <= limit)%Z →
  js_slice offset (offset + limit) l
  = firstn (Z.to_nat limit) (skipn (Z.to_nat offset) l).
Proof.
  intros Ho Hl. unfold js_slice, js_rel_index.
  destruct (Z.ltb_spec offset 0); [lia|].
  destruct (Z.ltb_spec (offset + limit) 0); [lia|].
  destruct (Z_le_gt_dec offset (Z.of_nat (length l))) as [Hin|Hout].
  - rewrite (Z.min_l offset) by lia.
    rewrite <- (firstn_min_length (Z.to_nat limit)).
    f_equal. rewrite length_skipn. lia.
  - rewrite (Z.min_r offset) by lia. rewrite (Z.min_r (offset + limit)) by lia.
    rewrite Z.sub_diag. simpl.
    rewrite (skipn_all2 (n := Z.to_nat offset)) by lia.
    by rewrite firstn_nil.
Qed.

Lemma StronglySorted_filter (R : A → A → Prop) (f : A → bool) (l : list A) :
  StronglySorted R l → StronglySorted R (List.filter f l).
Proof.
  induction 1 as [|x l Hs IH Hx]; simpl; [constructor|].
  destruct (f x); [|exact IH]. constructor; [exact IH|].
  rewrite List.Forall_forall in *. intros y Hy. apply Hx.
  by apply filter_In in Hy as [? _].
Qed.

Lemma StronglySorted_firstn (R : A → A → Prop) (n : nat) (l : list A) :
  StronglySorted R l → StronglySorted R (firstn n l).
Proof.
  intros Hs. rewrite <- (firstn_skipn n l) in Hs.
  by apply StronglySorted_app_1_l in Hs.
Qed.

Lemma StronglySorted_skipn (R : A → A → Prop) (n : nat) (l : list A) :
  StronglySorted R l → StronglySorted R (skipn n l).
Proof.
  intros Hs. rewrite <- (firstn_skipn n l) in Hs.
  by apply StronglySorted_app_1_r in Hs.
Qed.
End JsSliceFacts.

(** ** The store keeps its invariants *)

Lemma Forall_values_set {V : Type} (P : V → Prop) k v (m : list (string * V)) :
  Forall P (jm_values m) → P v → Forall P (jm_values (jm_set k v m)).
Proof.
  intros Hm Hv. rewrite List.Forall_forall in *. intros x Hx.
  apply jm_values_In in Hx as [k' Hin].
  destruct (jm_In_set _ _ _ _ _ Hin) as [[= -> ->]|Hold]; [done|].
  apply Hm. apply jm_values_In. by exists k'.
Qed.

Lemma store_ok_empty : store_ok empty_storage.
Proof. split; apply keyed_by_nil. Qed.

Lemma store_ok_createUser uuid now ins s :
  store_ok s → store_ok (fst (createUser uuid now ins s)).
Proof. intros [? ? ? ? ?]. split; simpl; try done. by apply keyed_by_set. Qed.

Lemma store_ok_updateUserOnlineStatus id isOnline now s :
  store_ok s → store_ok (updateUserOnlineStatus id isOnline now s).
Proof.
  intros Hok. unfold updateUserOnlineStatus.
  destruct (jm_get id (users s)) as [user|] eqn:Hget; [|done].
  destruct Hok as [Hu ? ? ? ?]. split; simpl; try done.
  apply keyed_by_set; [done|]. simpl. by eapply keyed_by_get.
Qed.

Lemma store_ok_createChatRoom uuid now ins s :
  store_ok s → store_ok (fst (createChatRoom uuid now ins s)).
Proof. intros [? ? ? ? ?]. split; simpl; try done. by apply keyed_by_set. Qed.

Lemma store_ok_addUserToRoom uuid now ins s :
  store_ok s → store_ok (fst (addUserToRoom uuid now ins s)).
Proof. intros [? ? ? ? ?]. split; simpl; try done. by apply keyed_by_set. Qed.

Lemma createMessage_storage uuid now ins s :
  fst (createMessage uuid now ins s)
  = with_messages
      (jm_set uuid (mkMessage uuid (im_content ins) (im_senderId ins) (im_roomId ins) now "sent"))
      s.
Proof. unfold createMessage. simpl. by destruct (getUser _ _). Qed.

Lemma store_ok_createMessage uuid now ins s :
  store_ok s → store_ok (fst (createMessage uuid now ins s)).
Proof.
  rewrite createMessage_storage.
  intros [? ? ? ? ?]. split; simpl; try done. by apply keyed_by_set.
Qed.

Lemma store_ok_updateMessageStatus id st s :
  store_ok s → store_ok (updateMessageStatus id st s).
Proof.
  intros Hok. unfold updateMessageStatus.
  destruct (jm_get id (messages s)) as [msg|] eqn:Hget; [|done].
  destruct Hok as [? ? Hm ? ?]. split; simpl; try done.
  apply keyed_by_set; [done|]. simpl. by eapply keyed_by_get.
Qed.

Lemma store_ok_updateTypingStatus uuid now ins s :
  store_ok s → store_ok (fst (updateTypingStatus uuid now ins s)).
Proof. intros [? ? ? ? ?]. split; simpl; try done. by apply keyed_by_set. Qed.

Lemma store_ok_clearTypingStatus userId roomId s :
  store_ok s → store_ok (clearTypingStatus userId roomId s).
Proof. intros [? ? ? ? ?]. split; simpl; try done. by apply keyed_by_delete. Qed.

Lemma store_ok_run_task t s : store_ok s → store_ok (run_task t s).
Proof.
  destruct t; simpl; [apply store_ok_clearTypingStatus | apply store_ok_updateMessageStatus].
Qed.

(** A user found by name is stored under its own id. *)
Lemma getUserByUsername_getUser name user s :
  store_ok s → getUserByUsername name s = Some user →
  getUser (u_id user) s = Some user ∧ u_username user = name.
Proof.
  intros Hok Hfind. unfold getUserByUsername in Hfind.
  apply find_some in Hfind as [Hin Hname].
  split; [|by apply String.eqb_eq].
  apply (keyed_by_value u_id); [apply Hok | done].
Qed.

Lemma getUser_id id user s : store_ok s → getUser id s = Some user → u_id user = id.
Proof. intros Hok Hget. symmetry. eapply (keyed_by_get u_id); [apply Hok | exact Hget]. Qed.

(** Writing a user keeps every id resolvable. *)
Lemma getUser_set_is_Some k user id s :
  is_Some (getUser id s) → is_Some (getUser id (with_users (jm_set k user) s)).
Proof.
  unfold getUser. simpl. intros Hsome.
  destruct (String.eqb_spec k id) as [->|Hne].
  - rewrite jm_get_set_eq. by eexists.
  - by rewrite jm_get_set_ne.
Qed.

Lemma senders_ok_set_user k user s :
  senders_ok s → senders_ok (with_users (jm_set k user) s).
Proof.
  unfold senders_ok. simpl. intros Hs.
  eapply List.Forall_impl; [|exact Hs]. simpl. intros msg. apply getUser_set_is_Some.
Qed.

Lemma senders_ok_updateUserOnlineStatus id isOnline now s :
  senders_ok s → senders_ok (updateUserOnlineStatus id isOnline now s).
Proof.
  unfold updateUserOnlineStatus. destruct (jm_get id (users s)); [|done].
  apply senders_ok_set_user.
Qed.

Lemma senders_ok_set_message k msg s :
  senders_ok s → is_Some (getUser (m_senderId msg) s) →
  senders_ok (with_messages (jm_set k msg) s).
Proof.
  unfold senders_ok. simpl. intros Hs Hmsg.
  by apply (Forall_values_set (fun m => is_Some (getUser (m_senderId m) s))).
Qed.

Lemma senders_ok_updateMessageStatus id st s :
  senders_ok s → senders_ok (updateMessageStatus id st s).
Proof.
  intros Hs. unfold updateMessageStatus.
  destruct (jm_get id (messages s)) as [msg|] eqn:Hget; [|done].
  apply senders_ok_set_message; [done|]. simpl.
  unfold senders_ok in Hs. rewrite List.Forall_forall in Hs. apply Hs.
  apply jm_values_In. exists id. by apply jm_get_In.
Qed.

Lemma senders_ok_run_task t s : senders_ok s → senders_ok (run_task t s).
Proof. destruct t; simpl; [done | apply senders_ok_updateMessageStatus]. Qed.

Lemma storage_inv_signup b d sv :
  storage_inv (storage sv) → storage_inv (storage (fst (signup b d sv))).
Proof.
  intros [Hok Hs]. unfold signup.
  repeat (match goal with |- context [if ?c then _ else _] => destruct c end; [by split|]).
  simpl. split.
  - destruct Hok as [? ? ? ? ?]. split; simpl; try done; by apply keyed_by_set.
  - by apply (senders_ok_set_user _ _ _ Hs).
Qed.

Lemma storage_inv_login username password sessionId now sv :
  storage_inv (storage sv) →
  storage_inv (storage (fst (login username password sessionId now sv))).
Proof.
  intros [Hok Hs]. unfold login.
  destruct (_ || _); [by split|].
  destruct (getUserByUsername _ _); [|by split].
  destruct (String.eqb _ _); [|by split]. simpl.
  split; [by apply store_ok_updateUserOnlineStatus | by apply senders_ok_updateUserOnlineStatus].
Qed.

Lemma storage_inv_logout sessionId now sv :
  storage_inv (storage sv) → storage_inv (storage (fst (logout sessionId now sv))).
Proof.
  intros [Hok Hs]. unfold logout.
  destruct (truthy _); [|by split].
  destruct (jm_get _ _) as [userId|]; [|by split].
  destruct (truthy (Some userId)); simpl; [|by split].
  split; [by apply store_ok_updateUserOnlineStatus | by apply senders_ok_updateUserOnlineStatus].
Qed.

Lemma room_guard_user roomId sv user :
  room_guard roomId sv = inl user →
  getUserByUsername "current_user" (storage sv) = Some user
  ∧ isUserInRoom (u_id user) roomId (storage sv) = true.
Proof.
  unfold room_guard. destruct (getUserByUsername _ _) as [u|]; [|discriminate].
  destruct (isUserInRoom _ _ _) eqn:Hin; [|discriminate]. by intros [= ->].
Qed.

Lemma storage_inv_post_message roomId content uuid now sv :
  storage_inv (storage sv) →
  storage_inv (storage (fst (post_message roomId content uuid now sv))).
Proof.
  intros [Hok Hs]. unfold post_message.
  destruct (room_guard roomId sv) as [user|] eqn:Hg; [|by split].
  destruct content as [text|]; [|by split].
  apply room_guard_user in Hg as [Hfind _].
  destruct (getUserByUsername_getUser _ _ _ Hok Hfind) as [Hget _].
  unfold createMessage. simpl. unfold getUser in *. simpl. rewrite Hget. simpl.
  split.
  - destruct Hok as [? ? ? ? ?]. split; simpl; try done. by apply keyed_by_set.
  - apply senders_ok_set_message; [done|]. simpl. unfold getUser. rewrite Hget. by eexists.
Qed.

Lemma storage_inv_post_typing roomId isTyping uuid now sv :
  storage_inv (storage sv) →
  storage_inv (storage (fst (post_typing roomId isTyping uuid now sv))).
Proof.
  intros [Hok Hs]. unfold post_typing.
  destruct (room_guard roomId sv) as [user|]; [|by split].
  destruct isTyping; simpl; try by split.
  all: split; [|done].
  all: destruct Hok as [? ? ? ? ?]; split; simpl; try done; by apply keyed_by_set.
Qed.

Lemma storage_inv_step e sv :
  storage_inv (storage sv) → storage_inv (storage (server_step e sv)).
Proof.
  intros Hinv. destruct e as [req now|i|e']; simpl; [|unfold fire_timer|done].
  - destruct req; simpl; try done.
    + by apply storage_inv_login.
    + by apply storage_inv_signup.
    + by apply storage_inv_logout.
    + by apply storage_inv_post_message.
    + by apply storage_inv_post_typing.
  - destruct (nth_error _ _); [|done]. simpl. destruct Hinv.
    split; [by apply store_ok_run_task | by apply senders_ok_run_task].
Qed.

(** In every state the server reaches, the maps are keyed by the ids of
    their values and every message has a sender. *)
Lemma reachable_storage_inv sv : reachable sv → storage_inv (storage sv).
Proof.
  intros [events ->]. induction events as [|e events IH] using rev_ind.
  - split; [apply store_ok_empty | constructor].
  - unfold run_server in *. rewrite fold_left_app. simpl. by apply storage_inv_step.
Qed.

(** ** Messages of a room ([getMessages]) *)

Lemma attach_senders_In window s mws :
  In mws (attach_senders window s) ↔
  In (mws_message mws) window
  ∧ getUser (m_senderId (mws_message mws)) s = Some (mws_sender mws).
Proof.
  induction window as [|msg window IH]; simpl; [tauto|].
  destruct (getUser (m_senderId msg) s) as [sender|] eqn:Hget; simpl; rewrite IH.
  - split.
    + intros [<-|[? ?]]; simpl; [by split; [left|] | by split; [right|]].
    + intros [[->|Hin] Hs]; [left | right; by split].
      destruct mws as [m u]. simpl in *. congruence.
  - split; [intros [? ?]; by split; [right|]|].
    intros [[->|Hin] Hs]; [congruence | by split].
Qed.

Lemma attach_senders_messages window s :
  List.map mws_message (attach_senders window s) = List.filter (resolves s) window.
Proof.
  induction window as [|msg window IH]; simpl; [done|]. unfold resolves at 1.
  destruct (getUser (m_senderId msg) s); simpl; by rewrite IH.
Qed.

Lemma attach_senders_sorted (R : Message → Message → Prop) window s :
  StronglySorted R window →
  StronglySorted (fun a b => R (mws_message a) (mws_message b)) (attach_senders window s).
Proof.
  induction 1 as [|msg window Hs IH Hall]; simpl; [constructor|].
  destruct (getUser (m_senderId msg) s); [|exact IH].
  constructor; [exact IH|]. apply List.Forall_forall. intros mws Hin.
  apply attach_senders_In in Hin as [Hin _]. simpl.
  rewrite List.Forall_forall in Hall. by apply Hall.
Qed.

Lemma In_window {A : Type} (x : A) (n k : nat) (l : list A) :
  In x (firstn n (skipn k l)) → In x l.
Proof.
  intros Hin. rewrite <- (firstn_skipn k l). apply in_or_app. right.
  rewrite <- (firstn_skipn n (skipn k l)). apply in_or_app. by left.
Qed.

Lemma room_messages_In roomId s msg :
  In msg (room_messages roomId s) ↔ In msg (jm_values (messages s)) ∧ m_roomId msg = roomId.
Proof.
  unfold room_messages. rewrite filter_In.
  split; intros [? H]; (split; [done|]); by apply String.eqb_eq.
Qed.

(** C2, as the specification has it, fails on a store that holds a message
    without a sender (which [createMessage] leaves behind when it rejects):
    the specification asks for an [IntegrityError], [getMessages] resolves
    with the message left out. *)
Lemma getMessages_orphan_not_rejected :
  room_messages "lobby" orphan_store
    = [mkMessage "m-1" "hello" "ghost" "lobby" 1000 "sent"]
  ∧ getUser "ghost" orphan_store = None
  ∧ messagesForRoom_spec "lobby" 50 0 orphan_store = Rejected "IntegrityError"
  ∧ getMessages "lobby" 50 0 orphan_store = []
  ∧ Resolved (getMessages "lobby" 50 0 orphan_store)
    ≠ messagesForRoom_spec "lobby" 50 0 orphan_store.
Proof. repeat split; try reflexivity. discriminate. Qed.

(** C2, amended: for a limit and an offset that are not negative,
    [getMessages] sorts the messages of the room by ascending timestamp
    (stably: equal timestamps keep their insertion order), keeps the window
    of [limit] messages from position [offset], and returns each message of
    the window whose sender resolves, with that sender attached, in the same
    order; a message whose sender does not resolve is left out and nothing
    is raised. *)
Theorem getMessages_window_sorted_enriched
    (roomId : string) (limit offset : Z) (s : MemStorage)
    (Hlimit : (0 <= limit)%Z) (Hoffset : (0 <= offset)%Z) :
  let sorted := js_sort by_timestamp_asc (room_messages roomId s) in
  let window := firstn (Z.to_nat limit) (skipn (Z.to_nat offset) sorted) in
  let result := getMessages roomId limit offset s in
  Permutation sorted (room_messages roomId s)
  ∧ StronglySorted (fun a b => (m_timestamp a <= m_timestamp b)%Z) sorted
  ∧ (∀ t, List.filter (fun m => (m_timestamp m =? t)%Z) sorted
          = List.filter (fun m => (m_timestamp m =? t)%Z) (room_messages roomId s))
  ∧ List.map mws_message result = List.filter (resolves s) window
  ∧ (∀ mws, In mws result →
       getUser (m_senderId (mws_message mws)) s = Some (mws_sender mws)
       ∧ m_roomId (mws_message mws) = roomId)
  ∧ StronglySorted
      (fun a b => (m_timestamp (mws_message a) <= m_timestamp (mws_message b))%Z) result
  ∧ (length result <= Z.to_nat limit)%nat.
Proof.
  intros sorted window result.
  assert (Hres : result = attach_senders window s).
  { unfold result, getMessages. fold (room_messages roomId s). fold sorted.
    by rewrite js_slice_window. }
  assert (Hsorted : StronglySorted (fun a b => (m_timestamp a <= m_timestamp b)%Z) sorted).
  { apply (js_sort_sorted m_timestamp). reflexivity. }
  split; [apply js_sort_Permutation|].
  split; [exact Hsorted|].
  split; [intros t; apply (js_sort_stable m_timestamp); reflexivity|].
  split; [rewrite Hres; apply attach_senders_messages|].
  split; [|split].
  - intros mws Hin. rewrite Hres in Hin. apply attach_senders_In in Hin as [Hin Hs].
    split; [exact Hs|].
    apply In_window in Hin.
    apply js_sort_In in Hin. by apply room_messages_In in Hin as [_ ?].
  - rewrite Hres.
    apply (attach_senders_sorted (fun a b => (m_timestamp a <= m_timestamp b)%Z)).
    by apply StronglySorted_firstn, StronglySorted_skipn.
  - rewrite <- (length_map mws_message), Hres, attach_senders_messages.
    etransitivity; [apply filter_length_le|]. apply firstn_le_length.
Qed.

Lemma getMessages_window_sorted_enriched_witness :
  List.map (fun mws => m_id (mws_message mws))
    (getMessages "lobby" 2 0
       (storage (fst (post_message "lobby" (Some "again") "m-2" 7000
                        (fst (post_message "lobby" (Some "hi") "m-1" 5000 demo_server))))))
  = ["m-1"; "m-2"]
  ∧ (length (getMessages "lobby" 50 0 orphan_store) <= Z.to_nat 50)%nat.
Proof.
  split; [reflexivity|].
  apply (getMessages_window_sorted_enriched "lobby" 50 0 orphan_store); lia.
Defined.

(** ** Typing rows ([updateTypingStatus], [getTypingUsers]) *)

Lemma resolve_users_In ids s x :
  In x (resolve_users ids s) ↔ ∃ id, In id ids ∧ getUser id s = Some x.
Proof.
  induction ids as [|id ids IH]; simpl.
  - split; [tauto | by intros (? & [] & _)].
  - destruct (getUser id s) as [user|] eqn:Hget; simpl; rewrite IH; split.
    + intros [<-|(id' & ? & ?)]; [exists id | exists id']; auto.
    + intros (id' & [<-|?] & Hx); [left; congruence | right; by exists id'].
    + intros (id' & ? & ?). exists id'. auto.
    + intros (id' & [<-|?] & Hx); [congruence | by exists id'].
Qed.

Lemma getTypingUsers_In roomId now s x :
  In x (getTypingUsers roomId now s) ↔
  ∃ row, In row (jm_values (typingStatuses s))
         ∧ fresh_typing_row roomId now row
         ∧ getUser (t_userId row) s = Some x.
Proof.
  unfold getTypingUsers. rewrite resolve_users_In. split.
  - intros (id & Hid & Hget). apply in_map_iff in Hid as (row & <- & Hrow).
    apply filter_In in Hrow as [Hin Hsel].
    apply andb_prop in Hsel as [Hsel Hfresh]. apply andb_prop in Hsel as [Hroom Htyping].
    exists row. repeat split; try done; [by apply String.eqb_eq | by apply Z.ltb_lt].
  - intros (row & Hin & (Hroom & Htyping & Hfresh) & Hget).
    exists (t_userId row). split; [|done].
    apply in_map. apply filter_In. split; [done|].
    rewrite Htyping, andb_true_r. apply andb_true_intro.
    split; [by apply String.eqb_eq | by apply Z.ltb_lt].
Qed.

(** Under the invariant, the one row of a user in a room is the row stored
    under their key. *)
Lemma typing_row_unique s row usr :
  store_ok s → In row (jm_values (typingStatuses s)) →
  getUser (t_userId row) s = Some usr →
  jm_get (typing_key (u_id usr) (t_roomId row)) (typingStatuses s) = Some row.
Proof.
  intros Hok Hin Hget. rewrite (getUser_id _ _ _ Hok Hget).
  apply (keyed_by_value (fun r => typing_key (t_userId r) (t_roomId r))); [apply Hok | done].
Qed.

(** C3: for a user [u] of the store and a room [r], after
    [updateTypingStatus] writes a typing row at time [now]:
    [getTypingUsers r] includes [u] at every time less than 5000 ms after
    [now] (at once, and still after 4 seconds); on any store
    [getTypingUsers] returns exactly the users of the rows of the room that
    are typing and were updated less than 5000 ms ago; [u] is not returned
    once 6 seconds have passed, although the row is still stored; the write
    arms a timer due at [now + 3000] which removes the row, after which [u]
    is not returned at any time. *)
Theorem typing_status_lifecycle
    (u r uuid : string) (now : Z) (s : MemStorage) (usr : User)
    (Hok : store_ok s) (Huser : getUser u s = Some usr) :
  let written := updateTypingStatus uuid now (mkInsertTypingStatus u r true) s in
  let s1 := fst written in
  let cleared := run_task (task (snd written)) s1 in
  (∀ t, (t - now < 5000)%Z → In usr (getTypingUsers r t s1))
  ∧ (∀ s' room t x,
       In x (getTypingUsers room t s') ↔
       ∃ row, In row (jm_values (typingStatuses s'))
              ∧ t_roomId row = room ∧ t_isTyping row = true
              ∧ (t - t_lastUpdate row < 5000)%Z
              ∧ getUser (t_userId row) s' = Some x)
  ∧ (∀ t, (now + 6000 <= t)%Z →
       is_Some (jm_get (typing_key u r) (typingStatuses s1))
       ∧ ¬ In usr (getTypingUsers r t s1))
  ∧ snd written = mkTimer (now + 3000) (ClearTyping u r)
  ∧ jm_get (typing_key u r) (typingStatuses cleared) = None
  ∧ (∀ t, ¬ In usr (getTypingUsers r t cleared)).
Proof.
  intros written s1 cleared.
  pose proof (store_ok_updateTypingStatus uuid now (mkInsertTypingStatus u r true) s Hok)
    as Hok1. fold written s1 in Hok1.
  assert (Hok2 : store_ok cleared) by (by apply store_ok_run_task).
  assert (Hnew : jm_get (typing_key u r) (typingStatuses s1)
                 = Some (mkTypingStatus
                           (typing_row_id (jm_get (typing_key u r) (typingStatuses s)) uuid)
                           u r true now)).
  { simpl. apply jm_get_set_eq. }
  assert (Hid : u_id usr = u) by (by eapply getUser_id).
  split; [|split; [|split; [|split; [|split]]]].
  - intros t Ht. apply getTypingUsers_In. eexists. split; [|split].
    + apply jm_values_In. eexists. apply jm_get_In. exact Hnew.
    + repeat split; simpl; lia.
    + exact Huser.
  - intros s' room t x. rewrite getTypingUsers_In. unfold fresh_typing_row.
    split; intros (row & ? & ?); exists row; tauto.
  - intros t Ht. split; [rewrite Hnew; by eexists|].
    intros Hin. apply getTypingUsers_In in Hin as (row & Hrow & (Hroom & _ & Hfresh) & Hget).
    pose proof (typing_row_unique _ _ _ Hok1 Hrow Hget) as Hkey.
    rewrite Hid, Hroom, Hnew in Hkey. injection Hkey as <-. simpl in Hfresh. lia.
  - reflexivity.
  - simpl. apply jm_get_delete_eq. apply Hok1.
  - intros t Hin.
    apply getTypingUsers_In in Hin as (row & Hrow & (Hroom & _ & _) & Hget).
    pose proof (typing_row_unique _ _ _ Hok2 Hrow Hget) as Hkey.
    rewrite Hid, Hroom in Hkey.
    assert (Hgone : jm_get (typing_key u r) (typingStatuses cleared) = None).
    { simpl. apply jm_get_delete_eq. apply Hok1. }
    congruence.
Qed.

Lemma typing_status_lifecycle_witness :
  let s := storage demo_server in
  let written := updateTypingStatus "t-1" 5000 (mkInsertTypingStatus "u-alice" "lobby" true) s in
  List.map u_id (getTypingUsers "lobby" 9000 (fst written)) = ["u-alice"]
  ∧ List.map u_id (getTypingUsers "lobby" 11000 (fst written)) = []
  ∧ snd written = mkTimer (5000 + 3000) (ClearTyping "u-alice" "lobby").
Proof.
  assert (Hok : store_ok (storage demo_server)).
  { apply (reachable_storage_inv demo_server). by eexists. }
  assert (Huser : getUser "u-alice" (storage demo_server)
                  = Some (mkUser "u-alice" "current_user" "Alice" "secret1" (Some "AL") true 1000))
    by reflexivity.
  split; [reflexivity|]. split; [reflexivity|].
  exact (proj1 (proj2 (proj2 (proj2
    (typing_status_lifecycle "u-alice" "lobby" "t-1" 5000 _ _ Hok Huser))))).
Defined.

(** ** Rooms of a user ([getChatRoomsForUser]) *)

Lemma fold_max_spec (t : Z) (ts : list Z) :
  In (fold_right Z.max t ts) (t :: ts)
  ∧ Forall (fun y => (y <= fold_right Z.max t ts)%Z) (t :: ts).
Proof.
  induction ts as [|y ts [IHin IHall]]; simpl.
  - split; [by left | constructor; [lia | constructor]].
  - apply Forall_cons in IHall as [Ht Hts]. split.
    + destruct (Z.max_spec y (fold_right Z.max t ts)) as [[_ ->]|[_ ->]].
      * destruct IHin as [?|?]; [by left | right; by right].
      * right; by left.
    + constructor; [lia|]. constructor; [lia|].
      eapply List.Forall_impl; [|exact Hts]. simpl. intros; lia.
Qed.

Lemma latest_message_time_max roomId s msg :
  In msg (room_messages roomId s) →
  (∀ other, In other (room_messages roomId s) → (m_timestamp other <= m_timestamp msg)%Z) →
  latest_message_time roomId s = m_timestamp msg.
Proof.
  intros Hin Hmax. unfold latest_message_time.
  destruct (List.map m_timestamp (room_messages roomId s)) as [|t ts] eqn:Hts.
  - apply (in_map m_timestamp) in Hin. rewrite Hts in Hin. destruct Hin.
  - destruct (fold_max_spec t ts) as [Hmem Hall].
    rewrite <- Hts in Hmem, Hall.
    apply in_map_iff in Hmem as (top & Htop & Htopin).
    rewrite List.Forall_forall in Hall.
    pose proof (Hall _ (in_map m_timestamp _ _ Hin)).
    pose proof (Hmax _ Htopin). lia.
Qed.

Lemma latest_message_time_none roomId s :
  room_messages roomId s = [] → latest_message_time roomId s = 0%Z.
Proof. unfold latest_message_time. by intros ->. Qed.

Lemma latest_message_time_pos roomId s :
  stamps_ok s → room_messages roomId s ≠ [] → (0 < latest_message_time roomId s)%Z.
Proof.
  intros Hst Hne. unfold latest_message_time.
  destruct (List.map m_timestamp (room_messages roomId s)) as [|t ts] eqn:Hts.
  - destruct (room_messages roomId s); [done | discriminate].
  - destruct (fold_max_spec t ts) as [Hmem _]. rewrite <- Hts in Hmem.
    apply in_map_iff in Hmem as (top & <- & Htopin).
    apply room_messages_In in Htopin as [Hin _].
    unfold stamps_ok in Hst. rewrite List.Forall_forall in Hst. by apply Hst.
Qed.

(** With every sender resolvable, the key [getChatRoomsForUser] sorts by is
    the timestamp of the room's most recent message. *)
Lemma room_details_time room s :
  senders_ok s →
  lastMessage_time (room_details room s) = latest_message_time (r_id room) s.
Proof.
  intros Hs. unfold room_details, lastMessage_time. simpl.
  fold (room_messages (r_id room) s).
  pose proof (js_sort_sorted (fun m => (- m_timestamp m)%Z) by_timestamp_desc
                (fun a b => ltac:(unfold by_timestamp_desc; lia))
                (room_messages (r_id room) s)) as Hsorted.
  pose proof (js_sort_In by_timestamp_desc) as Hperm.
  destruct (js_sort by_timestamp_desc (room_messages (r_id room) s))
    as [|lastMsg rest] eqn:Hsort.
  - symmetry. apply latest_message_time_none.
    apply (f_equal (@length _)) in Hsort. rewrite js_sort_length in Hsort.
    by destruct (room_messages (r_id room) s).
  - assert (Hlast : In lastMsg (room_messages (r_id room) s)).
    { apply (Hperm lastMsg (room_messages (r_id room) s)). rewrite Hsort. by left. }
    assert (Hsender : is_Some (getUser (m_senderId lastMsg) s)).
    { unfold senders_ok in Hs. rewrite List.Forall_forall in Hs. apply Hs.
      by apply room_messages_In in Hlast as [? _]. }
    destruct Hsender as [sender ->]. simpl. symmetry.
    apply latest_message_time_max; [done|].
    intros other Hother.
    apply (Hperm other (room_messages (r_id room) s)) in Hother. rewrite Hsort in Hother.
    destruct Hother as [->|Hrest]; [lia|].
    apply StronglySorted_inv in Hsorted as [_ Hall].
    rewrite List.Forall_forall in Hall. specialize (Hall _ Hrest). simpl in Hall. lia.
Qed.

Lemma member_room_ids_In userId roomId s :
  In roomId (List.map rm_roomId
               (List.filter (fun member => String.eqb (rm_userId member) userId)
                  (jm_values (roomMembers s))))
  ↔ has_membership userId roomId s.
Proof.
  rewrite in_map_iff. unfold has_membership. split.
  - intros (member & <- & Hin). apply filter_In in Hin as [Hin Hu].
    exists member. repeat split; [done | by apply String.eqb_eq].
  - intros (member & Hin & <- & <-). exists member. split; [done|].
    apply filter_In. split; [done | apply String.eqb_refl].
Qed.

Lemma existsb_eqb_In (x : string) (l : list string) :
  existsb (String.eqb x) l = true ↔ In x l.
Proof.
  rewrite existsb_exists. split.
  - intros (y & Hin & Heq). apply String.eqb_eq in Heq. by subst.
  - intros Hin. exists x. split; [done | apply String.eqb_refl].
Qed.

Lemma NoDup_map_filter {A B : Type} (f : A → B) (p : A → bool) (l : list A) :
  List.NoDup (List.map f l) → List.NoDup (List.map f (List.filter p l)).
Proof.
  induction l as [|x l IH]; simpl; [done|].
  intros Hnd. inversion Hnd as [|? ? Hnotin Hnd']; subst.
  destruct (p x); simpl; [|by apply IH].
  constructor; [|by apply IH].
  intros Hin. apply Hnotin. apply in_map_iff in Hin as (y & Hy & Hin).
  apply filter_In in Hin as [Hin _]. rewrite <- Hy. by apply in_map.
Qed.

Lemma keyed_by_value_keys {V : Type} (key_of : V → string) (m : list (string * V)) :
  keyed_by key_of m → List.map key_of (jm_values m) = jm_keys m.
Proof.
  intros [_ Hkeys]. unfold jm_values, jm_keys. rewrite map_map.
  apply map_ext_in. intros kv Hin. rewrite List.Forall_forall in Hkeys.
  symmetry. by apply Hkeys.
Qed.

Lemma StronglySorted_weaken {A : Type} (R R' : A → A → Prop) (l : list A) :
  (∀ a b, In a l → In b l → R a b → R' a b) →
  StronglySorted R l → StronglySorted R' l.
Proof.
  intros Himp Hs. induction Hs as [|x l Hs IH Hall]; [constructor|].
  constructor.
  - apply IH. intros a b Ha Hb. apply Himp; by right.
  - rewrite List.Forall_forall in *. intros y Hy.
    apply Himp; [by left | by right | by apply Hall].
Qed.

(** C4: on a store that keeps its invariants, whose messages all have a
    sender and a timestamp after the epoch, [getChatRoomsForUser u] returns
    one summary for each room of the store for which a membership row
    [(u, room)] exists and for no other room, in descending order of the
    timestamp of the room's most recent message, a room without messages
    counting as timestamp zero and so coming after every room with
    messages. *)
Theorem getChatRoomsForUser_membership_and_order
    (u : string) (s : MemStorage)
    (Hok : store_ok s) (Hsenders : senders_ok s) (Hstamps : stamps_ok s) :
  let result := getChatRoomsForUser u s in
  (∀ room, In room (List.map d_room result) ↔
           In room (jm_values (chatRooms s)) ∧ has_membership u (r_id room) s)
  ∧ List.NoDup (List.map (fun d => r_id (d_room d)) result)
  ∧ (∀ d, In d result → d = room_details (d_room d) s)
  ∧ StronglySorted
      (fun a b => (latest_message_time (r_id (d_room b)) s
                   <= latest_message_time (r_id (d_room a)) s)%Z) result
  ∧ (∀ d, In d result → room_messages (r_id (d_room d)) s = [] →
          latest_message_time (r_id (d_room d)) s = 0%Z)
  ∧ (∀ before a after, result = before ++ a :: after →
       room_messages (r_id (d_room a)) s = [] →
       ∀ b, In b after → room_messages (r_id (d_room b)) s = []).
Proof.
  intros result.
  set (userRooms := List.map rm_roomId
                      (List.filter (fun member => String.eqb (rm_userId member) u)
                         (jm_values (roomMembers s)))).
  set (rooms := List.filter (fun room => existsb (String.eqb (r_id room)) userRooms)
                  (jm_values (chatRooms s))).
  assert (Hresult :
            result
            = js_sort by_lastMessage_desc (List.map (fun room => room_details room s) rooms))
    by reflexivity.
  assert (Hperm : Permutation result (List.map (fun room => room_details room s) rooms)).
  { rewrite Hresult. apply js_sort_Permutation. }
  assert (Hdetails : ∀ d, In d result → d = room_details (d_room d) s).
  { intros d Hd. eapply Permutation_in in Hd; [|exact Hperm].
    by apply in_map_iff in Hd as (room & <- & _). }
  assert (Hrooms : Permutation (List.map d_room result) rooms).
  { rewrite Hperm. rewrite map_map. simpl. by rewrite map_id. }
  assert (Hsorted : StronglySorted
            (fun a b => (latest_message_time (r_id (d_room b)) s
                         <= latest_message_time (r_id (d_room a)) s)%Z) result).
  { pose proof (js_sort_sorted (fun d => (- lastMessage_time d)%Z) by_lastMessage_desc
                  (fun a b => ltac:(unfold by_lastMessage_desc; lia))
                  (List.map (fun room => room_details room s) rooms)) as Hs.
    rewrite <- Hresult in Hs.
    eapply StronglySorted_weaken; [|exact Hs]. simpl.
    intros a b Ha Hb Hle.
    rewrite <- !room_details_time by done.
    rewrite <- (Hdetails a Ha), <- (Hdetails b Hb). lia. }
  split; [|split; [|split; [|split; [|split]]]].
  - intros room. split.
    + intros Hin. eapply Permutation_in in Hin; [|exact Hrooms].
      apply filter_In in Hin as [Hin Hmem]. split; [done|].
      apply member_room_ids_In. by apply existsb_eqb_In.
    + intros [Hin Hmem]. eapply Permutation_in; [symmetry; exact Hrooms|].
      apply filter_In. split; [done|].
      apply existsb_eqb_In. by apply member_room_ids_In.
  - rewrite <- (map_map d_room r_id).
    eapply Permutation_NoDup; [symmetry; apply Permutation_map; exact Hrooms|].
    apply NoDup_map_filter. rewrite (keyed_by_value_keys r_id); apply Hok.
  - exact Hdetails.
  - exact Hsorted.
  - intros d _. apply latest_message_time_none.
  - intros before a after Heq Hempty b Hb.
    rewrite Heq in Hsorted. apply StronglySorted_app_1_r in Hsorted.
    apply StronglySorted_inv in Hsorted as [_ Hall].
    rewrite List.Forall_forall in Hall. specialize (Hall _ Hb). simpl in Hall.
    rewrite (latest_message_time_none _ _ Hempty) in Hall.
    destruct (room_messages (r_id (d_room b)) s) as [|m ms] eqn:Hb_msgs; [done|].
    assert (0 < latest_message_time (r_id (d_room b)) s)%Z; [|lia].
    apply latest_message_time_pos; [done | by rewrite Hb_msgs].
Qed.

Lemma getChatRoomsForUser_membership_and_order_witness :
  List.map (fun d => r_id (d_room d)) (getChatRoomsForUser "u-alice" two_rooms_store)
  = ["den"; "lobby"]
  ∧ List.NoDup
      (List.map (fun d => r_id (d_room d)) (getChatRoomsForUser "u-alice" two_rooms_store)).
Proof.
  split; [reflexivity|].
  assert (Hok : store_ok two_rooms_store).
  { unfold two_rooms_store.
    apply store_ok_createMessage, store_ok_addUserToRoom, store_ok_createChatRoom,
      store_ok_addUserToRoom, store_ok_createChatRoom, store_ok_createUser, store_ok_empty. }
  assert (Hsenders : senders_ok two_rooms_store).
  { unfold senders_ok. simpl. repeat constructor. by eexists. }
  assert (Hstamps : stamps_ok two_rooms_store).
  { unfold stamps_ok. simpl. repeat constructor. }
  exact (proj1 (proj2
    (getChatRoomsForUser_membership_and_order "u-alice" two_rooms_store Hok Hsenders Hstamps))).
Defined.

(** ** Signup and unique usernames *)

Section FindAfterSet.
Context {V : Type} (key_of : V → string) (p : V → bool).
Implicit Types (m : list (string * V)) (k : string) (v : V).

Lemma find_set_none k v m :
  List.find p (jm_values m) = None → p v = false →
  List.find p (jm_values (jm_set k v m)) = None.
Proof.
  intros Hnone Hv. induction m as [|[k' v'] m IH]; simpl in *.
  - by rewrite Hv.
  - destruct (p v') eqn:Hv'; [discriminate|].
    destruct (String.eqb k' k); simpl; [by rewrite Hv | rewrite Hv'; by apply IH].
Qed.

Lemma find_set_new k v m :
  List.find p (jm_values m) = None → p v = true →
  List.find p (jm_values (jm_set k v m)) = Some v.
Proof.
  intros Hnone Hv. induction m as [|[k' v'] m IH]; simpl in *.
  - by rewrite Hv.
  - destruct (p v') eqn:Hv'; [discriminate|].
    destruct (String.eqb k' k); simpl; [by rewrite Hv | rewrite Hv'; by apply IH].
Qed.

Lemma find_set_other k v m found :
  keyed_by key_of m →
  List.find p (jm_values m) = Some found → key_of found ≠ k → p v = false →
  List.find p (jm_values (jm_set k v m)) = Some found.
Proof.
  intros [Hnd Hkeys] Hfound Hne Hv. induction m as [|[k' v'] m IH]; simpl in *; [done|].
  inversion Hnd as [|? ? _ Hnd']; subst.
  apply Forall_cons in Hkeys as [Hk' Hkeys]. simpl in Hk'.
  destruct (p v') eqn:Hv'.
  - injection Hfound as ->. destruct (String.eqb_spec k' k) as [->|_]; [done|].
    simpl. by rewrite Hv'.
  - destruct (String.eqb_spec k' k) as [->|_]; simpl.
    + by rewrite Hv.
    + rewrite Hv'. by apply IH.
Qed.
End FindAfterSet.

Lemma valid_signup_guards b :
  valid_signup b →
  String.eqb (sb_username b) "" || String.eqb (sb_displayName b) ""
    || String.eqb (sb_password b) "" = false
  ∧ negb (String.eqb (sb_password b) (sb_confirmPassword b)) = false
  ∧ Nat.ltb (js_length (sb_password b)) 6 = false.
Proof.
  intros (Hu & Hd & Hp & Hc & Hlen). repeat split.
  - apply String.eqb_neq in Hu, Hd, Hp. by rewrite Hu, Hd, Hp.
  - rewrite <- Hc. by rewrite String.eqb_refl.
  - apply Nat.ltb_ge. exact Hlen.
Qed.

Lemma signup_new b d sv :
  valid_signup b → getUserByUsername (sb_username b) (storage sv) = None →
  status (snd (signup b d sv)) = 200
  ∧ body (snd (signup b d sv)) = J_session_user (signup_user b d) (sd_sessionId d)
  ∧ users (storage (fst (signup b d sv)))
    = jm_set (sd_userId d) (signup_user b d) (users (storage sv)).
Proof.
  intros Hvalid Hnone. apply valid_signup_guards in Hvalid as (H1 & H2 & H3).
  unfold signup. rewrite H1, H2, H3, Hnone. simpl. done.
Qed.

Lemma signup_conflict b d sv :
  valid_signup b → is_Some (getUserByUsername (sb_username b) (storage sv)) →
  signup b d sv = (sv, mkResponse 409 (J_error "Username already exists")).
Proof.
  intros Hvalid [existing Hsome]. apply valid_signup_guards in Hvalid as (H1 & H2 & H3).
  unfold signup. by rewrite H1, H2, H3, Hsome.
Qed.

(** A signup leaves the users alone or writes its own user. *)
Lemma signup_users b d sv :
  users (storage (fst (signup b d sv))) = users (storage sv)
  ∨ users (storage (fst (signup b d sv)))
    = jm_set (sd_userId d) (signup_user b d) (users (storage sv)).
Proof.
  unfold signup.
  repeat (match goal with |- context [if ?c then _ else _] => destruct c end; [by left|]).
  by right.
Qed.

Lemma signup_all_cons b d rest sv :
  signup_all ((b, d) :: rest) sv
  = (fst (signup_all rest (fst (signup b d sv))),
     snd (signup b d sv) :: snd (signup_all rest (fst (signup b d sv)))).
Proof.
  simpl. destruct (signup b d sv) as [sv1 resp]. simpl.
  by destruct (signup_all rest sv1).
Qed.

Lemma store_ok_signup b d sv :
  store_ok (storage sv) → store_ok (storage (fst (signup b d sv))).
Proof.
  intros Hok. unfold signup.
  repeat (match goal with |- context [if ?c then _ else _] => destruct c end; [done|]).
  simpl. destruct Hok as [? ? ? ? ?]. split; simpl; try done; by apply keyed_by_set.
Qed.

Lemma signup_all_keeps name user reqs sv :
  store_ok (storage sv) →
  getUserByUsername name (storage sv) = Some user →
  ¬ In name (List.map (fun req => sb_username (fst req)) reqs) →
  ¬ In (u_id user) (List.map (fun req => sd_userId (snd req)) reqs) →
  getUserByUsername name (storage (fst (signup_all reqs sv))) = Some user.
Proof.
  revert sv. induction reqs as [|[b d] rest IH]; intros sv Hok Hfound Hname Hid; [done|].
  rewrite signup_all_cons. simpl in *.
  apply IH; [by apply store_ok_signup | | intros H; apply Hname; by right
            | intros H; apply Hid; by right].
  unfold getUserByUsername in *.
  destruct (signup_users b d sv) as [->| ->]; [done|].
  apply (find_set_other u_id); [apply Hok | done | intros H; apply Hid; by left |].
  simpl. apply String.eqb_neq. intros Heq. apply Hname. by left.
Qed.

(** C6: from a store that keeps its invariants, a sequence of signups with
    valid fields, usernames that differ from one another and from those
    already stored, and user ids drawn without repetition all succeed, and
    afterwards [getUserByUsername] finds each created user under its own
    name; a signup with valid fields whose username is already stored is
    answered 409 "Username already exists" and leaves the server, and so
    the number of users, as it was. *)
Theorem signup_distinct_usernames
    (reqs : list (SignupBody * SignupDraws)) (sv : Server)
    (Hok : store_ok (storage sv))
    (Hvalid : Forall (fun req => valid_signup (fst req)) reqs)
    (Hnames : List.NoDup (List.map (fun req => sb_username (fst req)) reqs))
    (Hnew : Forall (fun req => getUserByUsername (sb_username (fst req)) (storage sv) = None)
              reqs)
    (Hids : List.NoDup (List.map (fun req => sd_userId (snd req)) reqs)) :
  let sv' := fst (signup_all reqs sv) in
  let resps := snd (signup_all reqs sv) in
  length resps = length reqs
  ∧ Forall (fun resp => status resp = 200) resps
  ∧ Forall (fun req =>
              getUserByUsername (sb_username (fst req)) (storage sv')
              = Some (signup_user (fst req) (snd req))) reqs
  ∧ (∀ b d, valid_signup b →
       is_Some (getUserByUsername (sb_username b) (storage sv')) →
       signup b d sv' = (sv', mkResponse 409 (J_error "Username already exists"))
       ∧ length (users (storage (fst (signup b d sv')))) = length (users (storage sv'))).
Proof.
  simpl. split; [|split; [|split]].
  - clear. revert sv. induction reqs as [|[b d] rest IH]; intros sv; [done|].
    rewrite signup_all_cons. simpl. by rewrite IH.
  - revert sv Hok Hnew. induction reqs as [|[b d] rest IH]; intros sv Hok Hnew; [constructor|].
    rewrite signup_all_cons. simpl in *.
    apply Forall_cons in Hvalid as [Hb Hvalid]. apply Forall_cons in Hnew as [Hnone Hnew].
    inversion Hnames as [|? ? Hn Hnames']; subst. inversion Hids as [|? ? Hi Hids']; subst.
    destruct (signup_new b d sv Hb Hnone) as (Hstatus & _ & Husers).
    constructor; [done|].
    apply IH; try done; [by apply store_ok_signup|].
    apply List.Forall_forall. intros req Hreq.
    rewrite List.Forall_forall in Hnew. specialize (Hnew _ Hreq).
    unfold getUserByUsername in *. rewrite Husers.
    apply find_set_none; [done|]. simpl. apply String.eqb_neq.
    intros Heq. apply Hn. rewrite Heq. by apply (in_map (fun r => sb_username (fst r))).
  - revert sv Hok Hnew. induction reqs as [|[b d] rest IH]; intros sv Hok Hnew; [constructor|].
    rewrite signup_all_cons. simpl in *.
    apply Forall_cons in Hvalid as [Hb Hvalid]. apply Forall_cons in Hnew as [Hnone Hnew].
    inversion Hnames as [|? ? Hn Hnames']; subst. inversion Hids as [|? ? Hi Hids']; subst.
    destruct (signup_new b d sv Hb Hnone) as (_ & _ & Husers).
    assert (Hok1 : store_ok (storage (fst (signup b d sv)))) by (by apply store_ok_signup).
    constructor.
    + apply signup_all_keeps; try done.
      unfold getUserByUsername. rewrite Husers.
      apply find_set_new; [exact Hnone|]. simpl. apply String.eqb_refl.
    + apply IH; try done.
      apply List.Forall_forall. intros req Hreq.
      rewrite List.Forall_forall in Hnew. specialize (Hnew _ Hreq).
      unfold getUserByUsername in *. rewrite Husers.
      apply find_set_none; [done|]. simpl. apply String.eqb_neq.
      intros Heq. apply Hn. rewrite Heq. by apply (in_map (fun r => sb_username (fst r))).
  - intros b d Hb Hsome. rewrite (signup_conflict b d _ Hb Hsome). done.
Qed.

Lemma signup_distinct_usernames_witness :
  let sv' := fst (signup_all [alice_signup; bob_signup; elodie_signup] initial_server) in
  List.map status (snd (signup_all [alice_signup; bob_signup; elodie_signup] initial_server))
  = [200; 200; 200]
  ∧ Forall (fun req =>
              getUserByUsername (sb_username (fst req)) (storage sv')
              = Some (signup_user (fst req) (snd req)))
      [alice_signup; bob_signup; elodie_signup]
  ∧ status (snd (signup (fst bob_signup) (mkSignupDraws "u-x" "s-x" "r-x" "rm-x" 9000) sv'))
    = 409.
Proof.
  split; [vm_compute; reflexivity|]. split; [|vm_compute; reflexivity].
  refine (proj1 (proj2 (proj2
    (signup_distinct_usernames [alice_signup; bob_signup; elodie_signup] initial_server
       store_ok_empty _ _ _ _)))).
  - repeat (constructor; [repeat split; try discriminate; vm_compute; lia|]).
    constructor.
  - repeat constructor; simpl; intuition discriminate.
  - repeat constructor.
  - repeat constructor; simpl; intuition discriminate.
Defined.

(** ** Membership rows ([addUserToRoom], [getRoomMembers], [isUserInRoom]) *)

Lemma resolve_users_app ids1 ids2 s :
  resolve_users (ids1 ++ ids2) s = resolve_users ids1 s ++ resolve_users ids2 s.
Proof.
  induction ids1 as [|id ids1 IH]; simpl; [done|].
  destruct (getUser id s); simpl; by rewrite IH.
Qed.

Lemma resolve_users_same_users ids s s' :
  users s = users s' → resolve_users ids s = resolve_users ids s'.
Proof.
  intros Husers. induction ids as [|id ids IH]; simpl; [done|].
  unfold getUser. by rewrite Husers, IH.
Qed.

(** C10: two calls of [addUserToRoom] for the same user [u] (a user of the
    store) and room [r], with two different fresh ids, append two rows;
    [getRoomMembers r] then lists [u] two more times than before, and
    [isUserInRoom u r] holds. *)
Theorem addUserToRoom_twice_duplicates
    (u r id1 id2 : string) (t1 t2 : Z) (s : MemStorage) (usr : User)
    (Huser : getUser u s = Some usr) (Hdistinct : id1 ≠ id2)
    (Hfresh1 : jm_get id1 (roomMembers s) = None)
    (Hfresh2 : jm_get id2 (roomMembers s) = None) :
  let first := addUserToRoom id1 t1 (mkInsertRoomMember u r) s in
  let second := addUserToRoom id2 t2 (mkInsertRoomMember u r) (fst first) in
  let s2 := fst second in
  rm_id (snd first) ≠ rm_id (snd second)
  ∧ roomMembers s2
    = roomMembers s ++ [(id1, mkRoomMember id1 u r t1); (id2, mkRoomMember id2 u r t2)]
  ∧ getRoomMembers r s2 = getRoomMembers r s ++ [usr; usr]
  ∧ count_occ User_eq_dec (getRoomMembers r s2) usr
    = count_occ User_eq_dec (getRoomMembers r s) usr + 2
  ∧ isUserInRoom u r s2 = true.
Proof.
  intros first second s2.
  assert (Hrows : roomMembers s2
            = roomMembers s ++ [(id1, mkRoomMember id1 u r t1); (id2, mkRoomMember id2 u r t2)]).
  { simpl. rewrite (jm_set_fresh id1) by done.
    rewrite jm_set_fresh.
    - by rewrite <- app_assoc.
    - rewrite <- (jm_set_fresh id1) by done. by rewrite jm_get_set_ne. }
  assert (Hmembers : getRoomMembers r s2 = getRoomMembers r s ++ [usr; usr]).
  { unfold getRoomMembers. rewrite Hrows. unfold jm_values.
    rewrite map_app, List.filter_app, map_app, resolve_users_app. simpl.
    rewrite String.eqb_refl. simpl.
    rewrite (resolve_users_same_users _ s2 s) by reflexivity.
    replace (getUser u s2) with (getUser u s) by reflexivity. by rewrite Huser. }
  split; [done|]. split; [exact Hrows|]. split; [exact Hmembers|]. split.
  - rewrite Hmembers, count_occ_app. simpl.
    destruct (User_eq_dec usr usr); [lia | done].
  - unfold isUserInRoom. rewrite Hrows. unfold jm_values.
    rewrite map_app, existsb_app. simpl. rewrite !String.eqb_refl. simpl.
    apply orb_true_r.
Qed.

Lemma addUserToRoom_twice_duplicates_witness :
  let s := storage demo_server in
  let s2 := fst (addUserToRoom "rm-8" 3000 (mkInsertRoomMember "u-alice" "den")
                   (fst (addUserToRoom "rm-7" 2000 (mkInsertRoomMember "u-alice" "den") s))) in
  List.map u_id (getRoomMembers "den" s) = []
  ∧ List.map u_id (getRoomMembers "den" s2) = ["u-alice"; "u-alice"]
  ∧ isUserInRoom "u-alice" "den" s2 = true.
Proof.
  split; [reflexivity|]. split; [reflexivity|].
  refine (proj2 (proj2 (proj2 (proj2
    (addUserToRoom_twice_duplicates "u-alice" "den" "rm-7" "rm-8" 2000 3000
       (storage demo_server)
       (mkUser "u-alice" "current_user" "Alice" "secret1" (Some "AL") true 1000)
       _ _ _ _))))); [reflexivity | discriminate | reflexivity | reflexivity].
Defined.

(** ** The list-typing endpoint *)

(** C9: whenever GET /api/rooms/:roomId/typing answers with a list of
    users, that list is the result of [getTypingUsers] without the user the
    handler acts for, so the acting user is never in it. *)
Theorem get_typing_excludes_requester
    (roomId : string) (now : Z) (sv : Server) (listed : list User)
    (Hbody : body (get_typing roomId now sv) = J_users listed) :
  ∃ user,
    getUserByUsername "current_user" (storage sv) = Some user
    ∧ listed = List.filter (fun u => negb (String.eqb (u_id u) (u_id user)))
                 (getTypingUsers roomId now (storage sv))
    ∧ ¬ In (u_id user) (List.map u_id listed).
Proof.
  unfold get_typing in Hbody.
  destruct (room_guard roomId sv) as [user|denied] eqn:Hguard.
  - apply room_guard_user in Hguard as [Hfind _]. simpl in Hbody.
    injection Hbody as <-. exists user. split; [done|]. split; [done|].
    intros Hin. apply in_map_iff in Hin as (x & Hx & Hin).
    apply filter_In in Hin as [_ Hne]. rewrite Hx, String.eqb_refl in Hne. discriminate.
  - unfold room_guard in Hguard.
    destruct (getUserByUsername _ _); [|injection Hguard as <-; discriminate].
    destruct (isUserInRoom _ _ _); [discriminate | injection Hguard as <-; discriminate].
Qed.

Lemma get_typing_excludes_requester_witness :
  let sv := fst (post_typing "lobby" Absent "t-1" 5000 demo_server) in
  List.map u_id (getTypingUsers "lobby" 6000 (storage sv)) = ["u-alice"]
  ∧ ∃ user,
      getUserByUsername "current_user" (storage sv) = Some user
      ∧ [] = List.filter (fun u => negb (String.eqb (u_id u) (u_id user)))
               (getTypingUsers "lobby" 6000 (storage sv))
      ∧ ¬ In (u_id user) (List.map u_id []).
Proof.
  split; [reflexivity|].
  apply (get_typing_excludes_requester "lobby" 6000
           (fst (post_typing "lobby" Absent "t-1" 5000 demo_server)) []).
  reflexivity.
Defined.

(** ** Reconnection of the client hook *)

Lemma timer_delay_fresh (timers : list (nat * Z)) (issued handle : nat) (delay : Z) :
  List.Forall (fun t => (fst t <= issued)%nat) timers → issued < handle →
  timer_delay handle (timers ++ [(handle, delay)]) = Some delay.
Proof.
  intros Hall Hlt. unfold timer_delay.
  induction Hall as [|[h d] rest Hh _ IH]; simpl.
  - by rewrite Nat.eqb_refl.
  - simpl in Hh. destruct (Nat.eqb_spec h handle) as [->|_]; [lia|exact IH].
Qed.

Lemma clearTimeout_fresh (timers : list (nat * Z)) (issued handle : nat) (delay : Z) :
  List.Forall (fun t => (fst t <= issued)%nat) timers → issued < handle →
  clearTimeout handle (timers ++ [(handle, delay)]) = timers.
Proof.
  intros Hall Hlt. unfold clearTimeout.
  induction Hall as [|[h d] rest Hh _ IH]; simpl.
  - by rewrite Nat.eqb_refl.
  - simpl in Hh. destruct (Nat.eqb_spec h handle) as [->|_]; [lia|]. simpl. by rewrite IH.
Qed.

Lemma clearTimeout_subset (handle : nat) (timers : list (nat * Z)) (t : nat * Z) :
  In t (clearTimeout handle timers) ↔ In t timers ∧ fst t ≠ handle.
Proof.
  unfold clearTimeout. rewrite List.filter_In.
  destruct (Nat.eqb_spec (fst t) handle); simpl; intuition congruence.
Qed.

Lemma timers_issued_weaken (timers : list (nat * Z)) (n m : nat) :
  (n <= m)%nat →
  List.Forall (fun t => (fst t <= n)%nat) timers →
  List.Forall (fun t => (fst t <= m)%nat) timers.
Proof. intros Hle. apply List.Forall_impl. intros t Ht. lia. Qed.

Lemma timers_issued_clear (handle n : nat) (timers : list (nat * Z)) :
  List.Forall (fun t => (fst t <= n)%nat) timers →
  List.Forall (fun t => (fst t <= n)%nat) (clearTimeout handle timers).
Proof.
  rewrite !List.Forall_forall. intros Hall t Ht.
  apply clearTimeout_subset in Ht as [Ht _]. by apply Hall.
Qed.

Lemma timers_issued_step (e : HookEvent) (c : WsHook) :
  timers_issued c → timers_issued (hook_step e c).
Proof.
  unfold timers_issued. intros Hc. destruct e as [| |s|s|handle]; simpl.
  - unfold connect. by destruct (ws_current c) as [[]|].
  - unfold disconnect. simpl. destruct (reconnectTimeoutRef c); [|done].
    by apply timers_issued_clear.
  - exact Hc.
  - unfold onclose. destruct (Nat.ltb _ _); simpl; [|done].
    apply List.Forall_app. split.
    + by apply (timers_issued_weaken _ (handles c)); [lia|].
    + constructor; [simpl; lia|constructor].
  - unfold reconnect_timer. destruct (timer_delay handle (armed c)); [|done].
    unfold connect. simpl.
    destruct (ws_current c) as [[]|]; simpl; by apply timers_issued_clear.
Qed.

(** Every state the hook reaches has only handed-out handles set. *)
Lemma timers_issued_run (events : list HookEvent) (c : WsHook) :
  timers_issued c → timers_issued (run_hook events c).
Proof.
  revert c. induction events as [|e events IH]; intros c Hc; [done|].
  simpl. apply IH. by apply timers_issued_step.
Qed.

Lemma seen_after_not_open (c : WsHook) : seen_after Current CLOSED c ≠ Some OPEN.
Proof. unfold seen_after. by destruct (ws_current c). Qed.

Lemma onclose_arms s c :
  reconnectAttempts c < maxReconnectAttempts →
  onclose s c
  = mkWsHook (seen_after s CLOSED c) disconnected (reconnectAttempts c) (Some (S (handles c)))
      (armed c ++ [(S (handles c), (2 ^ Z.of_nat (reconnectAttempts c) * 1000)%Z)])
      (S (handles c)).
Proof. intros Hlt. unfold onclose. apply Nat.ltb_lt in Hlt. by rewrite Hlt. Qed.

Lemma onclose_gives_up s c :
  (maxReconnectAttempts <= reconnectAttempts c)%nat →
  onclose s c
  = mkWsHook (seen_after s CLOSED c) disconnected (reconnectAttempts c)
      (reconnectTimeoutRef c) (armed c) (handles c).
Proof. intros Hge. unfold onclose. apply Nat.ltb_ge in Hge. by rewrite Hge. Qed.

Lemma fail_repeatedly_retry (k : nat) (c : WsHook) :
  reconnectAttempts c < maxReconnectAttempts → timers_issued c →
  fail_repeatedly (S k) c
  = (fst (fail_repeatedly k
            (mkWsHook (Some CONNECTING) connecting (S (reconnectAttempts c))
               (Some (S (handles c))) (armed c) (S (handles c)))),
     (2 ^ Z.of_nat (reconnectAttempts c) * 1000)%Z
     :: snd (fail_repeatedly k
               (mkWsHook (Some CONNECTING) connecting (S (reconnectAttempts c))
                  (Some (S (handles c))) (armed c) (S (handles c))))).
Proof.
  intros Hlt Hissued. cbn [fail_repeatedly]. rewrite onclose_arms by done.
  cbn [handles armed]. rewrite (proj2 (Nat.ltb_lt _ _)) by lia.
  unfold reconnect_timer. cbn [armed].
  rewrite (timer_delay_fresh _ (handles c)) by (done || lia).
  rewrite (clearTimeout_fresh _ (handles c)) by (done || lia).
  unfold connect. cbn [ws_current reconnectAttempts reconnectTimeoutRef armed handles].
  pose proof (seen_after_not_open c) as Hnot.
  destruct (seen_after Current CLOSED c) as [[]|]; try done;
    by destruct (fail_repeatedly k _).
Qed.

Lemma fail_repeatedly_stop (k : nat) (c : WsHook) :
  (maxReconnectAttempts <= reconnectAttempts c)%nat →
  fail_repeatedly (S k) c
  = (mkWsHook (seen_after Current CLOSED c) disconnected (reconnectAttempts c)
       (reconnectTimeoutRef c) (armed c) (handles c), []).
Proof.
  intros Hge. cbn [fail_repeatedly]. rewrite onclose_gives_up by done.
  cbn [handles]. by rewrite Nat.ltb_irrefl.
Qed.

Lemma fail_repeatedly_from (k : nat) (c : WsHook) :
  (reconnectAttempts c <= maxReconnectAttempts)%nat → timers_issued c →
  let remaining := Nat.min k (maxReconnectAttempts - reconnectAttempts c) in
  let final := fst (fail_repeatedly k c) in
  snd (fail_repeatedly k c)
  = List.map (fun n => (2 ^ Z.of_nat n * 1000)%Z) (seq (reconnectAttempts c) remaining)
  ∧ armed final = armed c
  ∧ reconnectAttempts final = reconnectAttempts c + remaining
  ∧ (maxReconnectAttempts - reconnectAttempts c < k →
     connectionStatus final = disconnected
     ∧ ws_current final ≠ Some OPEN
     ∧ seen_after Current CLOSED final = ws_current final
     ∧ (reconnectAttempts c < maxReconnectAttempts → ws_current final = Some CLOSED)).
Proof.
  revert c. induction k as [|k IH]; intros c Hle Hissued.
  - simpl. split; [done|]. split; [done|]. split; lia.
  - destruct (Nat.eq_dec (reconnectAttempts c) maxReconnectAttempts) as [Hmax|Hless].
    + rewrite fail_repeatedly_stop by lia.
      unfold maxReconnectAttempts in *. rewrite Hmax.
      replace (Nat.min (S k) (5 - 5)) with 0 by lia.
      simpl. split; [done|]. split; [done|]. split; [lia|]. intros _.
      split; [done|]. split; [by destruct (ws_current c)|].
      split; [by destruct (ws_current c)|lia].
    + rewrite fail_repeatedly_retry by (done || lia).
      set (c1 := mkWsHook (Some CONNECTING) connecting (S (reconnectAttempts c))
                   (Some (S (handles c))) (armed c) (S (handles c))).
      destruct (IH c1) as (Hdelays & Hnone & Hcount & Hstatus); [simpl; lia | |].
      { unfold timers_issued. simpl.
        by apply (timers_issued_weaken _ (handles c)); [lia|]. }
      unfold maxReconnectAttempts in *. cbn [fst snd].
      replace (Nat.min (S k) (5 - reconnectAttempts c))
        with (S (Nat.min k (5 - S (reconnectAttempts c)))) by lia.
      cbn [seq List.map]. rewrite Hdelays. simpl in *.
      split; [done|]. split; [done|]. split; [lia|]. intros Hk.
      destruct Hstatus as (Hdisc & Hnot & Hseen & Hclosed); [lia|].
      split; [done|]. split; [done|]. split; [done|]. intros _.
      destruct (Nat.eq_dec (S (reconnectAttempts c)) 5) as [Hfive|Hfour].
      * destruct k as [|k']; [lia|].
        revert Hseen Hnot. clear -Hfive.
        rewrite fail_repeatedly_stop by (subst c1; unfold maxReconnectAttempts; simpl; lia).
        by subst c1.
      * apply Hclosed. lia.
Qed.

Lemma timers_issued_reachable (events : list HookEvent) :
  timers_issued (run_hook events initial_hook).
Proof. apply timers_issued_run. constructor. Qed.




(** ** The registry: [broadcast], joining and leaving *)

Lemma broadcast_sent roomId fr exclude h clients :
  roomClients h !! roomId = Some clients →
  sent (broadcast roomId fr exclude h)
  = sent h ++ List.map (fun c => (c, fr))
                (List.filter (fun c => negb (is_excluded exclude c)
                                       && is_open (readyState h c)) clients).
Proof. intros Hset. unfold broadcast. by rewrite Hset. Qed.

Lemma broadcast_registry roomId fr exclude h :
  roomClients (broadcast roomId fr exclude h) = roomClients h
  ∧ conn_vars (broadcast roomId fr exclude h) = conn_vars h
  ∧ readyState (broadcast roomId fr exclude h) = readyState h.
Proof. unfold broadcast. by destruct (roomClients h !! roomId). Qed.

(** A frame broadcast on a room holding the open connections [a], [b] and
    [c], excluding [a], is written once to [b] and once to [c]. *)
Lemma broadcast_excluding_one roomId fr h (a b c : nat) :
  roomClients h !! roomId = Some [a; b; c] →
  a ≠ b → a ≠ c →
  readyState h b = OPEN → readyState h c = OPEN →
  sent (broadcast roomId fr (Some a) h) = sent h ++ [(b, fr); (c, fr)].
Proof.
  intros Hset Hab Hac Hb Hc. rewrite (broadcast_sent _ _ _ _ _ Hset). simpl.
  rewrite Nat.eqb_refl, Hb, Hc. simpl.
  destruct (Nat.eqb_spec b a); [congruence|]. destruct (Nat.eqb_spec c a); [congruence|].
  done.
Qed.

(** A connection that is not open is passed over. *)
Lemma broadcast_skips_closed roomId fr exclude h ws :
  readyState h ws ≠ OPEN →
  delivered_to ws (broadcast roomId fr exclude h) = delivered_to ws h.
Proof.
  intros Hclosed. unfold broadcast, delivered_to.
  destruct (roomClients h !! roomId) as [clients|]; [|done]. simpl.
  rewrite List.filter_app, map_app.
  match goal with |- _ ++ ?extra = _ => assert (Hnil : extra = []) end;
    [|by rewrite Hnil, app_nil_r].
  induction clients as [|c clients IH]; simpl; [done|].
  destruct (negb (is_excluded exclude c) && is_open (readyState h c)) eqn:Hsel; [|exact IH].
  simpl. destruct (Nat.eqb_spec c ws) as [->|_]; [|exact IH].
  apply andb_prop in Hsel as [_ Hopen]. destruct (readyState h ws); done.
Qed.

(** A connection that joined a room under a non-empty room id and user id
    leaves it on close, and each other open connection of the room is
    written one [user_left] frame with that user id. *)
Lemma on_close_named_room ws roomId userId clients h :
  conn_vars h !! ws = Some (mkConnVars (Some roomId) (Some userId)) →
  roomId ≠ "" → userId ≠ "" →
  roomClients h !! roomId = Some clients →
  roomClients (on_close ws h) !! roomId = Some (ws_delete ws clients)
  ∧ sent (on_close ws h)
    = sent h ++ List.map (fun c => (c, Out_user_left userId roomId))
                  (List.filter (fun c => is_open (readyState h c)) (ws_delete ws clients)).
Proof.
  intros Hvars Hroom Huser Hset. unfold on_close. rewrite Hvars. simpl.
  apply String.eqb_neq in Hroom, Huser. rewrite Hroom, Huser, Hset. simpl.
  unfold broadcast. simpl. rewrite lookup_insert_eq. simpl.
  split; [apply lookup_insert_eq|]. do 2 f_equal.
  unfold ws_delete. clear Hset. induction clients as [|c clients IH]; simpl; [done|].
  destruct (Nat.eqb_spec c ws) as [->|Hne]; simpl; [exact IH|].
  destruct (Nat.eqb_spec c ws); [done|]. simpl. by rewrite IH.
Qed.

(** C5 at the room named by the empty string: connections 1, 2 and 3 are
    open and in the room's set, connection 1 recorded user ["a"] when it
    joined; when it closes, nothing is written and it stays in the set. *)
Lemma close_in_unnamed_room_emits_nothing :
  roomClients unnamed_room_hub !! "" = Some [1; 2; 3]
  ∧ List.map (readyState unnamed_room_hub) [1; 2; 3] = [OPEN; OPEN; OPEN]
  ∧ conn_vars unnamed_room_hub !! 1 = Some (mkConnVars (Some "") (Some "a"))
  ∧ sent (on_close 1 unnamed_room_hub) = sent unnamed_room_hub
  ∧ delivered_to 2 (on_close 1 unnamed_room_hub) = [Out_user_joined (Some "c") ""]
  ∧ delivered_to 3 (on_close 1 unnamed_room_hub) = []
  ∧ roomClients (on_close 1 unnamed_room_hub) !! "" = Some [1; 2; 3].
Proof. repeat split; vm_compute; reflexivity. Qed.

(** C7 at the room named by the empty string: a connection that joined it
    and then joins ["lobby"] is in the sets of both rooms. *)
Lemma join_after_unnamed_room_keeps_both :
  roomClients two_rooms_hub !! "" = Some [1]
  ∧ roomClients two_rooms_hub !! "lobby" = Some [1]
  ∧ in_room 1 "" two_rooms_hub
  ∧ in_room 1 "lobby" two_rooms_hub
  ∧ ¬ one_room_per_connection two_rooms_hub.
Proof.
  assert (H0 : roomClients two_rooms_hub !! "" = Some [1]) by (vm_compute; reflexivity).
  assert (H1 : roomClients two_rooms_hub !! "lobby" = Some [1]) by (vm_compute; reflexivity).
  assert (Hin0 : in_room 1 "" two_rooms_hub) by (exists [1]; split; [done | by left]).
  assert (Hin1 : in_room 1 "lobby" two_rooms_hub) by (exists [1]; split; [done | by left]).
  repeat split; try done.
  intros Hone. specialize (Hone 1 "" "lobby" Hin0 Hin1). discriminate.
Qed.

(** ** Request handlers and the push channel *)

Lemma post_message_hub roomId content uuid now sv :
  hub (fst (post_message roomId content uuid now sv)) = hub sv.
Proof.
  unfold post_message. destruct (room_guard roomId sv); [|done].
  destruct content; [|done].
  destruct (createMessage _ _ _ _) as [s1 [message|msg]]; done.
Qed.

Lemma post_typing_hub roomId isTyping uuid now sv :
  hub (fst (post_typing roomId isTyping uuid now sv)) = hub sv.
Proof.
  unfold post_typing. destruct (room_guard roomId sv); [|done].
  by destruct isTyping.
Qed.

Lemma not_pushed_when_unchanged roomId fr h ws :
  in_room ws roomId h → readyState h ws = OPEN → ¬ pushed_to_room roomId fr h h.
Proof.
  intros Hin Hopen Hpushed. specialize (Hpushed ws Hin Hopen).
  apply (f_equal (@length _)) in Hpushed. rewrite length_app in Hpushed. simpl in Hpushed. lia.
Qed.

(** C1, as the specification has it, fails: Alice is in room ["lobby"] and
    the open connections 1 and 2 watch it; both requests succeed and
    neither publishes anything on the room. *)
Lemma request_handlers_publish_nothing :
  let posted := post_message "lobby" (Some "hi") "m-1" 5000 demo_server in
  let typed := post_typing "lobby" (IsBool true) "t-1" 5000 demo_server in
  status (snd posted) = 200
  ∧ status (snd typed) = 200
  ∧ in_room 1 "lobby" (hub demo_server)
  ∧ readyState (hub demo_server) 1 = OPEN
  ∧ sent (hub (fst posted)) = sent (hub demo_server)
  ∧ sent (hub (fst typed)) = sent (hub demo_server)
  ∧ (∀ fr, ¬ pushed_to_room "lobby" fr (hub demo_server) (hub (fst posted)))
  ∧ (∀ fr, ¬ pushed_to_room "lobby" fr (hub demo_server) (hub (fst typed))).
Proof.
  assert (Hin : in_room 1 "lobby" (hub demo_server)).
  { exists [1; 2]. split; [vm_compute; reflexivity | by left]. }
  assert (Hopen : readyState (hub demo_server) 1 = OPEN) by reflexivity.
  repeat split; try reflexivity; try done.
  - intros fr. rewrite post_message_hub. by apply (not_pushed_when_unchanged _ _ _ 1).
  - intros fr. rewrite post_typing_hub. by apply (not_pushed_when_unchanged _ _ _ 1).
Qed.

(** C1, amended: the handlers of POST /api/rooms/:roomId/messages and
    POST /api/rooms/:roomId/typing leave the registry untouched and write
    to no connection.  The push is made on the socket path: for a connection
    [ws] whose current room [roomId] is not the empty string, a
    [new_message] frame it sends is written to every open connection of the
    room's set, excluding none, and a [typing_status] frame it sends is
    written to every open connection of the set except [ws] itself. *)
Theorem push_only_on_socket_path
    (sv : Server) (ws : nat) (v : ConnVars) (roomId : string) (clients : list nat)
    (Hvars : conn_vars (hub sv) !! ws = Some v)
    (Hroom : currentRoomId v = Some roomId) (Hnamed : roomId ≠ "")
    (Hset : roomClients (hub sv) !! roomId = Some clients) :
  (∀ rid content uuid now, hub (fst (post_message rid content uuid now sv)) = hub sv)
  ∧ (∀ rid isTyping uuid now, hub (fst (post_typing rid isTyping uuid now sv)) = hub sv)
  ∧ (∀ message,
       sent (on_message ws (In_new_message message) (hub sv))
       = sent (hub sv)
         ++ List.map (fun c => (c, Out_new_message message))
              (List.filter (fun c => is_open (readyState (hub sv) c)) clients))
  ∧ (∀ message c, In c clients → readyState (hub sv) c = OPEN →
       In (Out_new_message message)
          (delivered_to c (on_message ws (In_new_message message) (hub sv))))
  ∧ (∀ isTyping,
       sent (on_message ws (In_typing_status isTyping) (hub sv))
       = sent (hub sv)
         ++ List.map (fun c => (c, Out_typing_status (currentUserId v) isTyping roomId))
              (List.filter (fun c => negb (Nat.eqb c ws) && is_open (readyState (hub sv) c))
                 clients)).
Proof.
  assert (Htruthy : truthy (Some roomId) = true).
  { simpl. apply String.eqb_neq in Hnamed. by rewrite Hnamed. }
  assert (Hnew : ∀ message,
            sent (on_message ws (In_new_message message) (hub sv))
            = sent (hub sv)
              ++ List.map (fun c => (c, Out_new_message message))
                   (List.filter (fun c => is_open (readyState (hub sv) c)) clients)).
  { intros message. unfold on_message. rewrite Hvars, Hroom, Htruthy.
    by rewrite (broadcast_sent _ _ _ _ _ Hset). }
  split; [intros; apply post_message_hub|].
  split; [intros; apply post_typing_hub|].
  split; [exact Hnew|]. split.
  - intros message c Hc Hopen. unfold delivered_to. rewrite Hnew.
    apply in_map_iff. exists (c, Out_new_message message). split; [done|].
    apply filter_In. split; [|simpl; apply Nat.eqb_refl].
    apply in_or_app. right. apply (in_map (fun c => (c, Out_new_message message))).
    apply filter_In. split; [done|]. by rewrite Hopen.
  - intros isTyping. unfold on_message. rewrite Hvars, Hroom, Htruthy.
    by rewrite (broadcast_sent _ _ _ _ _ Hset).
Qed.

Lemma push_only_on_socket_path_witness :
  sent (on_message 1 (In_new_message None) (hub demo_server))
  = sent (hub demo_server) ++ [(1, Out_new_message None); (2, Out_new_message None)]
  ∧ sent (on_message 1 (In_typing_status (Some true)) (hub demo_server))
    = sent (hub demo_server)
      ++ [(2, Out_typing_status (Some "u-alice") (Some true) "lobby")]
  ∧ ∀ rid content uuid now,
      hub (fst (post_message rid content uuid now demo_server)) = hub demo_server.
Proof.
  split; [vm_compute; reflexivity|]. split; [vm_compute; reflexivity|].
  refine (proj1 (push_only_on_socket_path demo_server 1
                   (mkConnVars (Some "lobby") (Some "u-alice")) "lobby" [1; 2] _ _ _ _)).
  - vm_compute; reflexivity.
  - reflexivity.
  - discriminate.
  - vm_compute; reflexivity.
Defined.

(** ** One room per connection, for rooms with a name *)

Lemma ws_delete_In ws c clients : In c (ws_delete ws clients) ↔ In c clients ∧ c ≠ ws.
Proof.
  unfold ws_delete. rewrite filter_In. split; intros [Hin Hne]; (split; [done|]).
  - intros ->. by rewrite Nat.eqb_refl in Hne.
  - by destruct (Nat.eqb_spec c ws).
Qed.

Lemma ws_add_In ws c clients : In c (ws_add ws clients) ↔ c = ws ∨ In c clients.
Proof.
  unfold ws_add. destruct (existsb (Nat.eqb ws) clients) eqn:Hex.
  - split; [by right|]. intros [->|Hin]; [|done].
    apply existsb_exists in Hex as (x & Hx & Heq). apply Nat.eqb_eq in Heq. by subst.
  - rewrite in_app_iff. simpl. split; intros [H|H]; auto. destruct H as [->|[]]. by left.
Qed.

Lemma leave_previous_member ws v (rc : gmap string (list nat)) c r clients' :
  leave_previous ws v rc !! r = Some clients' → In c clients' →
  (∃ clients, rc !! r = Some clients ∧ In c clients)
  ∧ (c = ws → currentRoomId v = Some r → r = "").
Proof.
  unfold leave_previous. destruct (currentRoomId v) as [prev|];
    [|intros Hr Hin; split; [by eauto | discriminate]].
  destruct (truthy (Some prev)) eqn:Htruthy.
  - destruct (rc !! prev) as [cl|] eqn:Hprev.
    + destruct (decide (prev = r)) as [->|Hne].
      * rewrite lookup_insert_eq. intros [= <-] Hin. apply ws_delete_In in Hin as [Hin Hc].
        split; [by eauto | done].
      * rewrite lookup_insert_ne by done. intros Hr Hin.
        split; [by eauto | congruence].
    + intros Hr Hin. split; [by eauto|]. intros _ [= ->]. congruence.
  - intros Hr Hin. split; [by eauto|]. intros _ [= ->].
    simpl in Htruthy. by destruct (String.eqb_spec r "").
Qed.

Lemma enter_room_member ws roomId (rc : gmap string (list nat)) c r clients' :
  enter_room ws roomId rc !! r = Some clients' → In c clients' →
  (c = ws ∧ r = roomId) ∨ ∃ clients, rc !! r = Some clients ∧ In c clients.
Proof.
  unfold enter_room. destruct (rc !! roomId) as [cl|] eqn:Hroom.
  - rewrite Hroom. destruct (decide (roomId = r)) as [->|Hne].
    + rewrite lookup_insert_eq. intros [= <-] Hin.
      apply ws_add_In in Hin as [->|Hin]; [by left | right; by eauto].
    + rewrite lookup_insert_ne by done. intros Hr Hin. right. by eauto.
  - rewrite lookup_insert_eq. destruct (decide (roomId = r)) as [->|Hne].
    + rewrite lookup_insert_eq. intros [= <-] Hin.
      apply ws_add_In in Hin as [->|[]]. by left.
    + rewrite !lookup_insert_ne by done. intros Hr Hin. right. by eauto.
Qed.

Lemma memberships_recorded_same h h' :
  roomClients h' = roomClients h → conn_vars h' = conn_vars h →
  memberships_recorded h → memberships_recorded h'.
Proof.
  intros Hrc Hcv Hrec ws r (clients & Hset & Hin). rewrite Hcv.
  apply Hrec. exists clients. by rewrite <- Hrc.
Qed.

Lemma memberships_recorded_broadcast roomId fr exclude h :
  memberships_recorded h → memberships_recorded (broadcast roomId fr exclude h).
Proof.
  destruct (broadcast_registry roomId fr exclude h) as (Hrc & Hcv & _).
  by apply memberships_recorded_same.
Qed.

Lemma memberships_recorded_join ws v roomId userId h :
  roomId ≠ "" → conn_vars h !! ws = Some v → memberships_recorded h →
  memberships_recorded
    (mkHub (enter_room ws roomId (leave_previous ws v (roomClients h)))
       (<[ws := mkConnVars (Some roomId) (Some userId)]> (conn_vars h))
       (readyState h) (sent h)).
Proof.
  intros Hnamed Hvars Hrec c r (clients' & Hset & Hin). simpl in *.
  destruct (enter_room_member _ _ _ _ _ _ Hset Hin) as [[-> ->]|(cl1 & Hset1 & Hin1)].
  - split; [done|]. eexists. by rewrite lookup_insert_eq.
  - destruct (leave_previous_member _ _ _ _ _ _ Hset1 Hin1) as [(cl & Hset0 & Hin0) Hleft].
    destruct (Hrec c r) as (Hr & v0 & Hv0 & Hcur); [by exists cl|].
    split; [done|]. destruct (decide (c = ws)) as [->|Hne].
    + exfalso. apply Hr. apply Hleft; [done|]. congruence.
    + exists v0. by rewrite lookup_insert_ne.
Qed.

Lemma memberships_recorded_step e h :
  names_its_room e → memberships_recorded h → memberships_recorded (hub_step e h).
Proof.
  intros Hnamed Hrec. destruct e as [ws|ws frame|ws]; simpl.
  - destruct (conn_vars h !! ws) eqn:Hvars; [done|].
    intros c r Hin. destruct (Hrec c r Hin) as (Hr & v & Hv & Hcur).
    split; [done|]. exists v. simpl. rewrite lookup_insert_ne; [done | congruence].
  - assert (Hmsg : memberships_recorded (on_message ws frame h)).
    { unfold on_message. destruct (conn_vars h !! ws) as [v|] eqn:Hvars; [|done].
      destruct frame as [roomId userId|message|isTyping| |]; try done.
      - apply memberships_recorded_broadcast. by apply memberships_recorded_join.
      - destruct (currentRoomId v); [|done].
        destruct (truthy _); [|done]. by apply memberships_recorded_broadcast.
      - destruct (currentRoomId v); [|done].
        destruct (truthy _); [|done]. by apply memberships_recorded_broadcast. }
    by destruct (readyState h ws).
  - unfold on_close.
    destruct (conn_vars h !! ws) as [v|]; [|by apply (memberships_recorded_same h)].
    destruct (currentRoomId v) as [roomId|]; [|by apply (memberships_recorded_same h)].
    destruct (truthy (Some roomId)); [|by apply (memberships_recorded_same h)].
    destruct (roomClients h !! roomId) as [clients|] eqn:Hset;
      [|by apply (memberships_recorded_same h)].
    assert (Hleft : memberships_recorded
              (mkHub (<[roomId := ws_delete ws clients]> (roomClients h)) (conn_vars h)
                 (fun c => if Nat.eqb c ws then CLOSED else readyState h c) (sent h))).
    { intros c r (cl & Hr & Hin). simpl in *. apply Hrec.
      destruct (decide (roomId = r)) as [->|Hne].
      - rewrite lookup_insert_eq in Hr. injection Hr as <-.
        apply ws_delete_In in Hin as [Hin _]. by exists clients.
      - rewrite lookup_insert_ne in Hr by done. by exists cl. }
    destruct (currentUserId v) as [userId|]; [|done].
    destruct (truthy (Some userId)); [|done].
    by apply memberships_recorded_broadcast.
Qed.

(** As long as no connection joins the room named by the empty string, a
    connection is in the set of at most one room. *)
Lemma one_room_per_connection_named events :
  Forall names_its_room events → one_room_per_connection (run_hub events empty_hub).
Proof.
  intros Hnamed.
  assert (Hrec : memberships_recorded (run_hub events empty_hub)).
  { induction events as [|e events IH] using rev_ind.
    - intros ws r (clients & Hset & _). simpl in Hset. by rewrite lookup_empty in Hset.
    - apply Forall_app in Hnamed as [Hevents He]. apply Forall_cons in He as [He _].
      unfold run_hub in *. rewrite fold_left_app. simpl.
      by apply memberships_recorded_step; [|apply IH]. }
  intros ws r1 r2 Hin1 Hin2.
  destruct (Hrec ws r1 Hin1) as (_ & v1 & Hv1 & Hcur1).
  destruct (Hrec ws r2 Hin2) as (_ & v2 & Hv2 & Hcur2). congruence.
Qed.

Lemma enter_room_lookup ws roomId (rc : gmap string (list nat)) :
  ∃ clients, enter_room ws roomId rc !! roomId = Some clients ∧ In ws clients.
Proof.
  unfold enter_room. destruct (rc !! roomId) as [cl|] eqn:Hroom.
  - rewrite Hroom. exists (ws_add ws cl). split; [apply lookup_insert_eq|].
    apply ws_add_In. by left.
  - rewrite lookup_insert_eq. exists (ws_add ws []). split; [apply lookup_insert_eq|].
    apply ws_add_In. by left.
Qed.

(** A join puts the connection into the set of the new room and writes one
    [user_joined] frame to every other open connection of that set, none to
    the joining connection. *)
Lemma join_room_notifies_others ws v roomId userId h :
  conn_vars h !! ws = Some v →
  let h' := on_message ws (In_join_room roomId userId) h in
  ∃ clients,
    roomClients h' !! roomId = Some clients
    ∧ In ws clients
    ∧ sent h'
      = sent h ++ List.map (fun c => (c, Out_user_joined (Some userId) roomId))
                    (List.filter (fun c => negb (Nat.eqb c ws) && is_open (readyState h c))
                       clients)
    ∧ delivered_to ws h' = delivered_to ws h.
Proof.
  intros Hvars h'. unfold h', on_message. rewrite Hvars.
  destruct (enter_room_lookup ws roomId (leave_previous ws v (roomClients h)))
    as (clients & Hset & Hin).
  exists clients.
  destruct (broadcast_registry roomId (Out_user_joined (Some userId) roomId) (Some ws)
              (mkHub (enter_room ws roomId (leave_previous ws v (roomClients h)))
                 (<[ws := mkConnVars (Some roomId) (Some userId)]> (conn_vars h))
                 (readyState h) (sent h))) as (Hrc & _ & _).
  rewrite Hrc. simpl. split; [exact Hset|]. split; [exact Hin|].
  assert (Hsent := broadcast_sent roomId (Out_user_joined (Some userId) roomId) (Some ws)
                     (mkHub (enter_room ws roomId (leave_previous ws v (roomClients h)))
                        (<[ws := mkConnVars (Some roomId) (Some userId)]> (conn_vars h))
                        (readyState h) (sent h)) clients Hset).
  simpl in Hsent. split; [exact Hsent|].
  unfold delivered_to. rewrite Hsent, List.filter_app, map_app.
  match goal with |- _ ++ ?extra = _ => assert (Hnil : extra = []) end;
    [|by rewrite Hnil, app_nil_r].
  clear. induction clients as [|c clients IH]; simpl; [done|].
  destruct (Nat.eqb_spec c ws) as [->|Hne]; simpl; [exact IH|].
  destruct (is_open (readyState h c)); simpl; [|exact IH].
  destruct (Nat.eqb_spec c ws); [done | exact IH].
Qed.

(** * Further properties of the store *)

Section JsMapOverwrite.
Context {V : Type}.
Implicit Types (m : list (string * V)) (k : string) (v : V).

Lemma jm_keys_set_existing k v v0 m :
  jm_get k m = Some v0 → jm_keys (jm_set k v m) = jm_keys m.
Proof.
  induction m as [|[k' v'] m IH]; simpl; [discriminate|].
  destruct (String.eqb_spec k' k) as [->|Hne]; simpl; [done|].
  intros Hget. by rewrite IH.
Qed.

Lemma jm_set_set k v v' m : jm_set k v (jm_set k v' m) = jm_set k v m.
Proof.
  induction m as [|[k0 v0] m IH]; simpl.
  - by rewrite String.eqb_refl.
  - destruct (String.eqb_spec k0 k) as [->|Hne]; simpl.
    + by rewrite String.eqb_refl.
    + destruct (String.eqb_spec k0 k); [done|]. by rewrite IH.
Qed.

Lemma jm_delete_absent k m : jm_get k m = None → jm_delete k m = m.
Proof.
  induction m as [|[k' v'] m IH]; simpl; [done|].
  destruct (String.eqb_spec k' k); [discriminate|]. intros Hget. by rewrite IH.
Qed.

Lemma jm_get_delete_ne k k' m : k ≠ k' → jm_get k' (jm_delete k m) = jm_get k' m.
Proof.
  intros Hne. induction m as [|[k0 v0] m IH]; simpl; [done|].
  destruct (String.eqb_spec k0 k) as [->|Hk]; simpl.
  - destruct (String.eqb_spec k k'); [done | reflexivity].
  - destruct (String.eqb_spec k0 k'); [reflexivity | exact IH].
Qed.

(** Overwriting the value of a key by one that a test and a projection
    cannot tell from it does not change what [find] projects to. *)
Lemma find_set_same {B : Type} (p : V → bool) (f : V → B) k v v0 m :
  jm_get k m = Some v0 → p v = p v0 → f v = f v0 →
  option_map f (List.find p (jm_values (jm_set k v m)))
  = option_map f (List.find p (jm_values m)).
Proof.
  intros Hget Hp Hf. induction m as [|[k' v'] m IH]; simpl in *; [discriminate|].
  destruct (String.eqb_spec k' k) as [->|Hne]; simpl.
  - injection Hget as ->. rewrite Hp. destruct (p v0); simpl; [by rewrite Hf | done].
  - destruct (p v'); [done | by apply IH].
Qed.
End JsMapOverwrite.


Lemma filter_values_set_length {V : Type} (p : V → bool) k v (m : list (string * V)) :
  (length (List.filter p (jm_values (jm_set k v m)))
   <= S (length (List.filter p (jm_values m))))%nat.
Proof.
  induction m as [|[k' v'] m IH]; simpl.
  - destruct (p v); simpl; lia.
  - destruct (String.eqb_spec k' k); simpl.
    + destruct (p v), (p v'); simpl; lia.
    + destruct (p v'); simpl; lia.
Qed.

Lemma attach_senders_app l1 l2 s :
  attach_senders (l1 ++ l2) s = attach_senders l1 s ++ attach_senders l2 s.
Proof.
  induction l1 as [|msg l1 IH]; simpl; [done|].
  destruct (getUser (m_senderId msg) s); simpl; by rewrite IH.
Qed.

Lemma firstn_add_skipn {A : Type} (a b : nat) (l : list A) :
  firstn (a + b) l = firstn a l ++ firstn b (skipn a l).
Proof.
  revert l. induction a as [|a IH]; intros l; simpl; [done|].
  destruct l as [|x l]; simpl; [by rewrite firstn_nil | by rewrite IH].
Qed.

(** A listing that takes in the whole room shows every message of the
    room whose sender resolves. *)
Lemma getMessages_whole_room roomId limit s msg sender :
  (Z.of_nat (length (room_messages roomId s)) <= limit)%Z →
  In msg (room_messages roomId s) →
  getUser (m_senderId msg) s = Some sender →
  In (mkMessageWithSender msg sender) (getMessages roomId limit 0 s).
Proof.
  intros Hlen Hin Hsender. unfold getMessages. fold (room_messages roomId s).
  rewrite (js_slice_window 0 limit) by lia.
  rewrite firstn_all2; rewrite skipn_O; [|rewrite js_sort_length; lia].
  apply attach_senders_In. simpl. split; [by apply js_sort_In | done].
Qed.

(** X1: [updateMessageStatus] does nothing for an unknown id; for a stored
    message it replaces the status and nothing else: the message keeps its
    place and its other fields, every other message is as before, and a
    second call with the same status changes nothing more. *)
Theorem updateMessageStatus_overwrites_only_status (id status : string) (s : MemStorage) :
  let s' := updateMessageStatus id status s in
  (jm_get id (messages s) = None → s' = s)
  ∧ jm_get id (messages s') = option_map (with_status status) (jm_get id (messages s))
  ∧ (∀ other, other ≠ id → jm_get other (messages s') = jm_get other (messages s))
  ∧ jm_keys (messages s') = jm_keys (messages s)
  ∧ updateMessageStatus id status s' = s'
  ∧ users s' = users s ∧ chatRooms s' = chatRooms s
  ∧ roomMembers s' = roomMembers s ∧ typingStatuses s' = typingStatuses s.
Proof.
  unfold updateMessageStatus.
  destruct (jm_get id (messages s)) as [msg|] eqn:Hget; simpl.
  - split; [discriminate|]. split; [apply jm_get_set_eq|].
    split; [intros other Hne; by apply jm_get_set_ne|].
    split; [by eapply jm_keys_set_existing|].
    split; [|done].
    rewrite jm_get_set_eq. unfold with_messages. simpl. by rewrite jm_set_set.
  - rewrite Hget. done.
Qed.

(** X2: a message created for a sender of the store is listed by
    [getMessages] for its room with that sender attached and status
    ["sent"], and with status ["delivered"] once the delivery timer has
    run, whenever the limit takes in the whole room. *)
Theorem createMessage_listed_then_delivered
    (uuid : string) (now limit : Z) (ins : InsertMessage) (s : MemStorage) (sender : User)
    (Hsender : getUser (im_senderId ins) s = Some sender)
    (Hlimit : (Z.of_nat (length (room_messages (im_roomId ins) s)) < limit)%Z) :
  let msg := mkMessage uuid (im_content ins) (im_senderId ins) (im_roomId ins) now "sent" in
  let s1 := fst (createMessage uuid now ins s) in
  let s2 := run_task (MarkDelivered uuid) s1 in
  snd (createMessage uuid now ins s) = Resolved (mkMessageWithSender msg sender)
  ∧ In (mkMessageWithSender msg sender) (getMessages (im_roomId ins) limit 0 s1)
  ∧ In (mkMessageWithSender (with_status "delivered" msg) sender)
       (getMessages (im_roomId ins) limit 0 s2).
Proof.
  intros msg s1 s2.
  assert (Hs1 : s1 = with_messages (jm_set uuid msg) s) by apply createMessage_storage.
  assert (Hs2 : s2 = with_messages (jm_set uuid (with_status "delivered" msg)) s).
  { unfold s2. simpl. unfold updateMessageStatus. rewrite Hs1. simpl.
    rewrite jm_get_set_eq. unfold with_messages. simpl. by rewrite jm_set_set. }
  split; [|split].
  - unfold createMessage. simpl. unfold getUser in *. simpl. by rewrite Hsender.
  - rewrite Hs1. apply getMessages_whole_room; [| |exact Hsender].
    + pose proof (filter_values_set_length
                    (fun m => String.eqb (m_roomId m) (im_roomId ins)) uuid msg (messages s)).
      unfold room_messages in *. simpl. lia.
    + apply room_messages_In. split; [|done]. apply jm_values_In. exists uuid.
      apply jm_get_In. simpl. apply jm_get_set_eq.
  - rewrite Hs2. apply getMessages_whole_room; [| |exact Hsender].
    + pose proof (filter_values_set_length
                    (fun m => String.eqb (m_roomId m) (im_roomId ins)) uuid
                    (with_status "delivered" msg) (messages s)).
      unfold room_messages in *. simpl. lia.
    + apply room_messages_In. split; [|done]. apply jm_values_In. exists uuid.
      apply jm_get_In. simpl. apply jm_get_set_eq.
Qed.

Lemma createMessage_listed_then_delivered_witness :
  let ins := mkInsertMessage "hi" "u-alice" "lobby" in
  let s1 := fst (createMessage "m-1" 5000 ins (storage demo_server)) in
  List.map (fun mws => m_status (mws_message mws)) (getMessages "lobby" 50 0 s1) = ["sent"]
  ∧ In (mkMessageWithSender
          (with_status "delivered" (mkMessage "m-1" "hi" "u-alice" "lobby" 5000 "sent"))
          (mkUser "u-alice" "current_user" "Alice" "secret1" (Some "AL") true 1000))
       (getMessages "lobby" 50 0 (run_task (MarkDelivered "m-1") s1)).
Proof.
  split; [reflexivity|].
  refine (proj2 (proj2
    (createMessage_listed_then_delivered "m-1" 5000 50 (mkInsertMessage "hi" "u-alice" "lobby")
       (storage demo_server)
       (mkUser "u-alice" "current_user" "Alice" "secret1" (Some "AL") true 1000) _ _)));
    [reflexivity | simpl; lia].
Defined.

(** X3: [createMessage] for a sender the store does not know rejects with
    "Sender not found" but has already stored the message; no listing of
    [getMessages] shows it. *)
Theorem createMessage_unknown_sender_still_stored
    (uuid : string) (now : Z) (ins : InsertMessage) (s : MemStorage)
    (Hunknown : getUser (im_senderId ins) s = None) :
  let msg := mkMessage uuid (im_content ins) (im_senderId ins) (im_roomId ins) now "sent" in
  let s1 := fst (createMessage uuid now ins s) in
  snd (createMessage uuid now ins s) = Rejected "Sender not found"
  ∧ jm_get uuid (messages s1) = Some msg
  ∧ (∀ roomId limit offset mws,
       In mws (getMessages roomId limit offset s1) → mws_message mws ≠ msg).
Proof.
  intros msg s1.
  assert (Hs1 : s1 = with_messages (jm_set uuid msg) s) by apply createMessage_storage.
  split; [|split].
  - unfold createMessage. simpl. unfold getUser in *. simpl. by rewrite Hunknown.
  - rewrite Hs1. simpl. apply jm_get_set_eq.
  - intros roomId limit offset mws Hin Heq.
    unfold getMessages in Hin. apply attach_senders_In in Hin as [_ Hsender].
    rewrite Heq, Hs1 in Hsender. unfold getUser in *. simpl in *. congruence.
Qed.

Lemma createMessage_unknown_sender_still_stored_witness :
  snd (createMessage "m-1" 1000 (mkInsertMessage "hello" "ghost" "lobby") empty_storage)
  = Rejected "Sender not found"
  ∧ jm_get "m-1" (messages orphan_store)
    = Some (mkMessage "m-1" "hello" "ghost" "lobby" 1000 "sent").
Proof.
  split.
  - exact (proj1 (createMessage_unknown_sender_still_stored "m-1" 1000
                    (mkInsertMessage "hello" "ghost" "lobby") empty_storage eq_refl)).
  - reflexivity.
Defined.

(** X4: pages of [getMessages] tile the room: for limits and an offset
    that are not negative, the page of [l1] messages from [offset] followed
    by the page of [l2] messages from [offset + l1] is the page of
    [l1 + l2] messages from [offset]. *)
Theorem getMessages_pages_concatenate
    (roomId : string) (l1 l2 offset : Z) (s : MemStorage)
    (Hl1 : (0 <= l1)%Z) (Hl2 : (0 <= l2)%Z) (Hoffset : (0 <= offset)%Z) :
  getMessages roomId l1 offset s ++ getMessages roomId l2 (offset + l1) s
  = getMessages roomId (l1 + l2) offset s.
Proof.
  unfold getMessages. rewrite !js_slice_window by lia.
  rewrite <- attach_senders_app. f_equal.
  rewrite !Z2Nat.inj_add by lia.
  rewrite firstn_add_skipn. f_equal. f_equal.
  rewrite skipn_skipn. f_equal. lia.
Qed.

Lemma getMessages_pages_concatenate_witness :
  let s := storage (fst (post_message "lobby" (Some "again") "m-2" 7000
                           (fst (post_message "lobby" (Some "hi") "m-1" 5000 demo_server)))) in
  List.map (fun mws => m_id (mws_message mws)) (getMessages "lobby" 1 1 s) = ["m-2"]
  ∧ getMessages "lobby" 1 0 s ++ getMessages "lobby" 1 (0 + 1) s
    = getMessages "lobby" (1 + 1) 0 s.
Proof.
  split; [reflexivity|].
  apply getMessages_pages_concatenate; lia.
Defined.

(** X5: [updateUserOnlineStatus] does nothing for an unknown id; for a
    stored user it replaces the online flag and the last-seen time only,
    leaves every other user as it was, and never changes which user id a
    username resolves to. *)
Theorem updateUserOnlineStatus_only_presence
    (id : string) (isOnline : bool) (now : Z) (s : MemStorage) :
  let s' := updateUserOnlineStatus id isOnline now s in
  (getUser id s = None → s' = s)
  ∧ getUser id s' = option_map (with_presence isOnline now) (getUser id s)
  ∧ (∀ other, other ≠ id → getUser other s' = getUser other s)
  ∧ (∀ name, option_map u_id (getUserByUsername name s')
             = option_map u_id (getUserByUsername name s))
  ∧ jm_keys (users s') = jm_keys (users s)
  ∧ chatRooms s' = chatRooms s ∧ messages s' = messages s
  ∧ roomMembers s' = roomMembers s ∧ typingStatuses s' = typingStatuses s.
Proof.
  unfold updateUserOnlineStatus, getUser.
  destruct (jm_get id (users s)) as [user|] eqn:Hget; simpl.
  - split; [discriminate|]. split; [apply jm_get_set_eq|].
    split; [intros other Hne; by apply jm_get_set_ne|].
    split; [|split; [by eapply jm_keys_set_existing | done]].
    intros name. unfold getUserByUsername. simpl.
    by apply (find_set_same _ u_id _ _ user).
  - rewrite Hget. done.
Qed.

(** X6: after [updateTypingStatus] writes [isTyping = false] for a user of
    the store, [getTypingUsers] of the room does not return that user at any
    time, although the row is stored. *)
Theorem typing_stopped_not_listed
    (u r uuid : string) (now : Z) (s : MemStorage) (usr : User)
    (Hok : store_ok s) (Huser : getUser u s = Some usr) :
  let s1 := fst (updateTypingStatus uuid now (mkInsertTypingStatus u r false) s) in
  is_Some (jm_get (typing_key u r) (typingStatuses s1))
  ∧ ∀ t, ¬ In usr (getTypingUsers r t s1).
Proof.
  intros s1.
  pose proof (store_ok_updateTypingStatus uuid now (mkInsertTypingStatus u r false) s Hok)
    as Hok1. fold s1 in Hok1.
  assert (Hnew : jm_get (typing_key u r) (typingStatuses s1)
                 = Some (mkTypingStatus
                           (typing_row_id (jm_get (typing_key u r) (typingStatuses s)) uuid)
                           u r false now)).
  { simpl. apply jm_get_set_eq. }
  split; [rewrite Hnew; by eexists|].
  intros t Hin. apply getTypingUsers_In in Hin as (row & Hrow & (Hroom & Htyping & _) & Hget).
  pose proof (typing_row_unique _ _ _ Hok1 Hrow Hget) as Hkey.
  rewrite (getUser_id _ _ _ Hok Huser), Hroom, Hnew in Hkey.
  injection Hkey as <-. discriminate.
Qed.

Lemma typing_stopped_not_listed_witness :
  let s0 := fst (updateTypingStatus "t-1" 5000 (mkInsertTypingStatus "u-alice" "lobby" true)
                   (storage demo_server)) in
  let s1 := fst (updateTypingStatus "t-2" 5500 (mkInsertTypingStatus "u-alice" "lobby" false) s0) in
  List.map u_id (getTypingUsers "lobby" 5500 s0) = ["u-alice"]
  ∧ is_Some (jm_get (typing_key "u-alice" "lobby") (typingStatuses s1))
  ∧ ∀ t, ¬ In (mkUser "u-alice" "current_user" "Alice" "secret1" (Some "AL") true 1000)
             (getTypingUsers "lobby" t s1).
Proof.
  split; [reflexivity|].
  apply (typing_stopped_not_listed "u-alice" "lobby" "t-2" 5500); [|reflexivity].
  apply store_ok_updateTypingStatus.
  apply (reachable_storage_inv demo_server). by eexists.
Defined.

(** X7: the timer of an earlier [updateTypingStatus] is not cancelled by a
    later one: when it runs it removes the row the later call wrote, so the
    user is not returned by [getTypingUsers] any more, however recent the
    later call was. *)
Theorem earlier_typing_timer_clears_later_row
    (u r uuid1 uuid2 : string) (t1 t2 : Z) (s : MemStorage) (usr : User)
    (Hok : store_ok s) (Huser : getUser u s = Some usr) :
  let first := updateTypingStatus uuid1 t1 (mkInsertTypingStatus u r true) s in
  let second := updateTypingStatus uuid2 t2 (mkInsertTypingStatus u r true) (fst first) in
  let cleared := run_task (task (snd first)) (fst second) in
  fireAt (snd first) = (t1 + 3000)%Z
  ∧ (∀ t, (t - t2 < 5000)%Z → In usr (getTypingUsers r t (fst second)))
  ∧ jm_get (typing_key u r) (typingStatuses cleared) = None
  ∧ (∀ t, ¬ In usr (getTypingUsers r t cleared)).
Proof.
  intros first second cleared.
  assert (Hok1 : store_ok (fst first)) by (by apply store_ok_updateTypingStatus).
  assert (Hok2 : store_ok (fst second)) by (by apply store_ok_updateTypingStatus).
  assert (Hok3 : store_ok cleared) by (by apply store_ok_run_task).
  assert (Hgone : jm_get (typing_key u r) (typingStatuses cleared) = None).
  { simpl. apply jm_get_delete_eq. apply Hok2. }
  split; [reflexivity|]. split; [|split; [exact Hgone|]].
  - intros t Ht. apply getTypingUsers_In. eexists. split; [|split].
    + apply jm_values_In. exists (typing_key u r). apply jm_get_In. simpl. apply jm_get_set_eq.
    + repeat split; simpl; lia.
    + exact Huser.
  - intros t Hin. apply getTypingUsers_In in Hin as (row & Hrow & (Hroom & _ & _) & Hget).
    pose proof (typing_row_unique _ _ _ Hok3 Hrow Hget) as Hkey.
    rewrite (getUser_id _ _ _ Hok Huser), Hroom in Hkey. congruence.
Qed.

Lemma earlier_typing_timer_clears_later_row_witness :
  let first := updateTypingStatus "t-1" 5000 (mkInsertTypingStatus "u-alice" "lobby" true)
                 (storage demo_server) in
  let second := updateTypingStatus "t-2" 7500 (mkInsertTypingStatus "u-alice" "lobby" true)
                  (fst first) in
  List.map u_id (getTypingUsers "lobby" 8000 (fst second)) = ["u-alice"]
  ∧ (∀ t, ¬ In (mkUser "u-alice" "current_user" "Alice" "secret1" (Some "AL") true 1000)
             (getTypingUsers "lobby" t (run_task (task (snd first)) (fst second)))).
Proof.
  split; [reflexivity|].
  refine (proj2 (proj2 (proj2
    (earlier_typing_timer_clears_later_row "u-alice" "lobby" "t-1" "t-2" 5000 7500
       (storage demo_server) _ _ eq_refl)))).
  apply (reachable_storage_inv demo_server). by eexists.
Defined.

(** * Further properties of the request handlers *)

Lemma isUserInRoom_membership userId roomId s :
  isUserInRoom userId roomId s = true ↔ has_membership userId roomId s.
Proof.
  unfold isUserInRoom, has_membership. rewrite existsb_exists. split.
  - intros (member & Hin & Hsel). apply andb_prop in Hsel as [Hu Hr].
    exists member. repeat split; [done | by apply String.eqb_eq | by apply String.eqb_eq].
  - intros (member & Hin & <- & <-). exists member. split; [done|].
    by rewrite !String.eqb_refl.
Qed.

Lemma room_guard_denied roomId sv denied :
  room_guard roomId sv = inr denied →
  (getUserByUsername "current_user" (storage sv) = None
   ∧ denied = mkResponse 404 (J_error "User not found"))
  ∨ (∃ user, getUserByUsername "current_user" (storage sv) = Some user
             ∧ ¬ has_membership (u_id user) roomId (storage sv)
             ∧ denied = mkResponse 403 (J_error "Access denied")).
Proof.
  unfold room_guard. destruct (getUserByUsername _ _) as [user|]; [|intros [= <-]; by left].
  destruct (isUserInRoom _ _ _) eqn:Hin; [discriminate|]. intros [= <-]. right.
  exists user. repeat split; try done. intros Hmem.
  apply isUserInRoom_membership in Hmem. congruence.
Qed.

(** X8: when the user the handlers act for has no membership row for the
    room (or does not exist), every room-scoped request -- list messages,
    send message, set typing, list typing, room detail -- is refused with
    403 "Access denied" (404 "User not found" without such a user) and
    changes nothing. *)
Theorem room_scoped_requests_refused_without_membership
    (roomId : string) (sv : Server)
    (Hnone : ∀ user, getUserByUsername "current_user" (storage sv) = Some user →
                     ¬ has_membership (u_id user) roomId (storage sv)) :
  ∃ denied,
    (denied = mkResponse 404 (J_error "User not found")
     ∧ getUserByUsername "current_user" (storage sv) = None
     ∨ denied = mkResponse 403 (J_error "Access denied")
       ∧ is_Some (getUserByUsername "current_user" (storage sv)))
    ∧ (∀ limit offset, get_messages roomId limit offset sv = denied)
    ∧ (∀ content uuid now, post_message roomId content uuid now sv = (sv, denied))
    ∧ (∀ isTyping uuid now, post_typing roomId isTyping uuid now sv = (sv, denied))
    ∧ (∀ now, get_typing roomId now sv = denied)
    ∧ fst (get_room roomId sv) = status denied.
Proof.
  destruct (room_guard roomId sv) as [user|denied] eqn:Hguard.
  - exfalso. apply room_guard_user in Hguard as [Hfind Hin].
    apply (Hnone user Hfind). by apply isUserInRoom_membership.
  - exists denied. split.
    + destruct (room_guard_denied _ _ _ Hguard) as [[? ->]|(user & Hfind & _ & ->)];
        [by left | right; split; [done | by eexists]].
    + unfold get_messages, post_message, post_typing, get_typing, get_room.
      rewrite Hguard. done.
Qed.

Lemma room_scoped_requests_refused_without_membership_witness :
  status (get_messages "den" None None demo_server) = 403
  ∧ ∃ denied,
      (denied = mkResponse 404 (J_error "User not found")
       ∧ getUserByUsername "current_user" (storage demo_server) = None
       ∨ denied = mkResponse 403 (J_error "Access denied")
         ∧ is_Some (getUserByUsername "current_user" (storage demo_server)))
      ∧ (∀ limit offset, get_messages "den" limit offset demo_server = denied)
      ∧ (∀ content uuid now,
           post_message "den" content uuid now demo_server = (demo_server, denied))
      ∧ (∀ isTyping uuid now,
           post_typing "den" isTyping uuid now demo_server = (demo_server, denied))
      ∧ (∀ now, get_typing "den" now demo_server = denied)
      ∧ fst (get_room "den" demo_server) = status denied.
Proof.
  split; [reflexivity|].
  apply (room_scoped_requests_refused_without_membership "den" demo_server).
  intros user Hfind Hmem. apply isUserInRoom_membership in Hmem.
  vm_compute in Hfind. injection Hfind as <-. vm_compute in Hmem. discriminate.
Defined.

(** X9: on a store that keeps its invariants, the send-message request is
    answered 200, 400, 403 or 404, never 500.  Unless the answer is 200 the
    server is unchanged; when it is 200 the message is stored under the
    drawn id with the acting user as sender and status ["sent"], and one
    timer is armed that marks this message delivered 1000 ms later. *)
Theorem post_message_outcomes
    (roomId : string) (content : option string) (uuid : string) (now : Z) (sv : Server)
    (Hok : store_ok (storage sv)) :
  let sv' := fst (post_message roomId content uuid now sv) in
  let resp := snd (post_message roomId content uuid now sv) in
  (status resp = 200 ∨ status resp = 400 ∨ status resp = 403 ∨ status resp = 404)
  ∧ (status resp ≠ 200 → sv' = sv)
  ∧ (status resp = 200 →
     ∃ user text,
       content = Some text
       ∧ getUserByUsername "current_user" (storage sv) = Some user
       ∧ body resp
         = J_message (mkMessageWithSender
                        (mkMessage uuid text (u_id user) roomId now "sent") user)
       ∧ jm_get uuid (messages (storage sv'))
         = Some (mkMessage uuid text (u_id user) roomId now "sent")
       ∧ timers sv' = timers sv ++ [mkTimer (now + 1000) (MarkDelivered uuid)]
       ∧ users (storage sv') = users (storage sv)).
Proof.
  unfold post_message.
  destruct (room_guard roomId sv) as [user|denied] eqn:Hguard.
  - apply room_guard_user in Hguard as [Hfind _].
    destruct content as [text|]; simpl; [|split; [tauto | split; [done | discriminate]]].
    destruct (getUserByUsername_getUser _ _ _ Hok Hfind) as [Hget _].
    unfold createMessage. simpl. unfold getUser in *. simpl. rewrite Hget. simpl.
    split; [by left|]. split; [done|]. intros _. exists user, text.
    repeat split; try done. apply jm_get_set_eq.
  - destruct (room_guard_denied _ _ _ Hguard) as [[_ ->]|(user & _ & _ & ->)]; simpl.
    + split; [tauto|]. split; [done | discriminate].
    + split; [tauto|]. split; [done | discriminate].
Qed.

Lemma post_message_outcomes_witness :
  status (snd (post_message "lobby" (Some "hi") "m-1" 5000 demo_server)) = 200
  ∧ (status (snd (post_message "lobby" None "m-1" 5000 demo_server)) ≠ 200 →
     fst (post_message "lobby" None "m-1" 5000 demo_server) = demo_server).
Proof.
  split; [reflexivity|].
  refine (proj1 (proj2 (post_message_outcomes "lobby" None "m-1" 5000 demo_server _))).
  apply (reachable_storage_inv demo_server). by eexists.
Defined.

(** X11: a login is answered 200, 400 or 401.  Unless the answer is 200 the
    server is unchanged; it is 200 only when a user of that name is stored
    with exactly that password, and then the session id is mapped to that
    user's id and the user is marked online. *)
Theorem login_outcomes
    (username password sessionId : string) (now : Z) (sv : Server) :
  let sv' := fst (login username password sessionId now sv) in
  let resp := snd (login username password sessionId now sv) in
  (status resp = 200 ∨ status resp = 400 ∨ status resp = 401)
  ∧ (status resp ≠ 200 → sv' = sv)
  ∧ (status resp = 200 →
     ∃ user,
       getUserByUsername username (storage sv) = Some user
       ∧ u_password user = password
       ∧ jm_get sessionId (userSessions sv') = Some (u_id user)
       ∧ storage sv' = updateUserOnlineStatus (u_id user) true now (storage sv)).
Proof.
  unfold login.
  destruct (_ || _); simpl; [split; [tauto | split; [done | discriminate]]|].
  destruct (getUserByUsername username (storage sv)) as [user|];
    simpl; [|split; [tauto | split; [done | discriminate]]].
  destruct (String.eqb_spec (u_password user) password) as [Hpw|Hpw];
    simpl; [|split; [tauto | split; [done | discriminate]]].
  split; [tauto|]. split; [done|]. intros _. exists user.
  repeat split; try done. apply jm_get_set_eq.
Qed.

(** In every state the server reaches, no session id is stored twice. *)
Lemma sessions_nodup_step e sv :
  List.NoDup (jm_keys (userSessions sv)) →
  List.NoDup (jm_keys (userSessions (server_step e sv))).
Proof.
  intros Hnd. destruct e as [req now|i|e']; simpl; [|unfold fire_timer|done].
  - destruct req; simpl; try done.
    + unfold login. destruct (_ || _); [done|].
      destruct (getUserByUsername _ _); [|done].
      destruct (String.eqb _ _); [|done]. simpl. by apply jm_set_NoDup.
    + unfold signup.
      repeat (match goal with |- context [if ?c then _ else _] => destruct c end; [done|]).
      simpl. by apply jm_set_NoDup.
    + unfold logout. destruct (truthy _); [|done].
      destruct (jm_get _ _); [|done]. simpl. by apply jm_delete_NoDup.
    + unfold post_message. destruct (room_guard _ _); [|done].
      destruct content; [|done]. by destruct (createMessage _ _ _ _) as [? [?|?]].
    + unfold post_typing. destruct (room_guard _ _); [|done]. by destruct isTyping.
  - by destruct (nth_error _ _).
Qed.

Lemma reachable_sessions_nodup sv : reachable sv → List.NoDup (jm_keys (userSessions sv)).
Proof.
  intros [events ->]. induction events as [|e events IH] using rev_ind.
  - constructor.
  - unfold run_server in *. rewrite fold_left_app. simpl. by apply sessions_nodup_step.
Qed.

Lemma replace_first_bearer (sid : string) :
  replace_first "Bearer " "" (String.append "Bearer " sid) = sid.
Proof.
  destruct sid; reflexivity.
Qed.

Lemma updateUserOnlineStatus_known id isOnline now s user :
  getUser id s = Some user →
  getUser id (updateUserOnlineStatus id isOnline now s) = Some (with_presence isOnline now user).
Proof.
  unfold updateUserOnlineStatus, getUser. intros ->. simpl. apply jm_get_set_eq.
Qed.

Lemma get_me_bearer sid sv :
  get_me (Some (String.append "Bearer " sid)) sv
  = if negb (truthy (Some sid)) then (sv, (401, Auth_error "Not authenticated"))
    else
      match jm_get sid (userSessions sv) with
      | None => (sv, (401, Auth_error "Not authenticated"))
      | Some userId =>
          if negb (truthy (Some userId)) then (sv, (401, Auth_error "Invalid session"))
          else
            match getUser userId (storage sv) with
            | Some user => (sv, (200, Auth_user user))
            | None =>
                (mkServer (storage sv) (jm_delete sid (userSessions sv)) (timers sv) (hub sv),
                 (401, Auth_error "User not found"))
            end
      end.
Proof. unfold get_me. cbn [option_map]. by rewrite replace_first_bearer. Qed.

(** X10: a login with the stored password opens a session that
    GET /api/auth/me accepts under the header "Bearer <session id>",
    answering the user marked online; after a logout with that session id
    the same header is refused with 401 and the user is marked offline. *)
Theorem login_me_logout_round_trip
    (username password sessionId : string) (now later : Z) (sv : Server) (user : User)
    (Hok : store_ok (storage sv))
    (Hsessions : List.NoDup (jm_keys (userSessions sv)))
    (Hname : username ≠ "") (Hpw : password ≠ "") (Hsid : sessionId ≠ "")
    (Hfind : getUserByUsername username (storage sv) = Some user)
    (Hpass : u_password user = password) (Huid : u_id user ≠ "") :
  let bearer := Some (String.append "Bearer " sessionId) in
  let sv1 := fst (login username password sessionId now sv) in
  let sv2 := fst (logout sessionId later sv1) in
  status (snd (login username password sessionId now sv)) = 200
  ∧ get_me bearer sv1 = (sv1, (200, Auth_user (with_presence true now user)))
  ∧ status (snd (logout sessionId later sv1)) = 200
  ∧ get_me bearer sv2 = (sv2, (401, Auth_error "Not authenticated"))
  ∧ getUser (u_id user) (storage sv2) = Some (with_presence false later user).
Proof.
  intros bearer sv1 sv2.
  destruct (getUserByUsername_getUser _ _ _ Hok Hfind) as [Hget _].
  apply String.eqb_neq in Hname, Hpw, Hsid, Huid.
  assert (Hlogin : login username password sessionId now sv
                   = (mkServer (updateUserOnlineStatus (u_id user) true now (storage sv))
                        (jm_set sessionId (u_id user) (userSessions sv)) (timers sv) (hub sv),
                      mkResponse 200 (J_session_user (with_presence true now user) sessionId))).
  { unfold login. rewrite Hname, Hpw, Hfind. simpl. rewrite Hpass, String.eqb_refl.
    by rewrite (updateUserOnlineStatus_known _ _ _ _ _ Hget). }
  assert (Hlogout : logout sessionId later sv1
                    = (mkServer (updateUserOnlineStatus (u_id user) false later (storage sv1))
                         (jm_delete sessionId (userSessions sv1)) (timers sv1) (hub sv1),
                       mkResponse 200 J_success)).
  { unfold sv1. rewrite Hlogin. unfold logout. simpl.
    rewrite Hsid, jm_get_set_eq, Huid. done. }
  split; [by rewrite Hlogin|]. split; [|split; [by rewrite Hlogout|split]].
  - unfold bearer. rewrite get_me_bearer. cbn [truthy]. rewrite Hsid. cbn [negb].
    unfold sv1. rewrite Hlogin. cbn [userSessions storage fst].
    rewrite jm_get_set_eq. cbn [truthy]. rewrite Huid. cbn [negb].
    by rewrite (updateUserOnlineStatus_known _ _ _ _ _ Hget).
  - unfold bearer. rewrite get_me_bearer. cbn [truthy]. rewrite Hsid. cbn [negb].
    unfold sv2. rewrite Hlogout. cbn [userSessions fst].
    unfold sv1. rewrite Hlogin. cbn [userSessions fst].
    rewrite jm_get_delete_eq; [done | by apply jm_set_NoDup].
  - unfold sv2. rewrite Hlogout. simpl. unfold sv1. rewrite Hlogin. simpl.
    rewrite (updateUserOnlineStatus_known _ _ _ _ (with_presence true now user)); [done|].
    by apply updateUserOnlineStatus_known.
Qed.

Lemma login_me_logout_round_trip_witness :
  let sv1 := fst (login "current_user" "secret1" "s-9" 4000 demo_server) in
  snd (get_me (Some "Bearer s-9") sv1)
  = (200, Auth_user (mkUser "u-alice" "current_user" "Alice" "secret1" (Some "AL") true 4000))
  ∧ snd (get_me (Some "Bearer s-9") (fst (logout "s-9" 6000 sv1)))
    = (401, Auth_error "Not authenticated")
  ∧ status (snd (login "current_user" "secret1" "s-9" 4000 demo_server)) = 200.
Proof.
  split; [reflexivity|]. split; [reflexivity|].
  refine (proj1 (login_me_logout_round_trip "current_user" "secret1" "s-9" 4000 6000
                   demo_server
                   (mkUser "u-alice" "current_user" "Alice" "secret1" (Some "AL") true 1000)
                   _ _ _ _ _ _ _ _)); try discriminate; try reflexivity.
  - apply (reachable_storage_inv demo_server). by eexists.
  - apply reachable_sessions_nodup. by eexists.
Defined.

(** X12: a successful signup maps the drawn session id to the new user,
    stores the room "Welcome" under the drawn room id and makes the new user
    a member of it, so the room-scoped checks admit the user there and
    [getChatRoomsForUser] lists that room for them. *)
Theorem signup_opens_welcome_room
    (b : SignupBody) (d : SignupDraws) (sv : Server)
    (Hvalid : valid_signup b)
    (Hnew : getUserByUsername (sb_username b) (storage sv) = None) :
  let sv' := fst (signup b d sv) in
  let welcome := mkChatRoom (sd_roomId d) "Welcome" (Some "Your first chat room")
                   (Some "users") "group" (sd_now d) in
  jm_get (sd_sessionId d) (userSessions sv') = Some (sd_userId d)
  ∧ getUser (sd_userId d) (storage sv') = Some (signup_user b d)
  ∧ getChatRoom (sd_roomId d) (storage sv') = Some welcome
  ∧ isUserInRoom (sd_userId d) (sd_roomId d) (storage sv') = true
  ∧ In welcome (List.map d_room (getChatRoomsForUser (sd_userId d) (storage sv'))).
Proof.
  intros sv' welcome.
  apply valid_signup_guards in Hvalid as (H1 & H2 & H3).
  assert (Hsv : sv' = mkServer
            (with_roomMembers
               (jm_set (sd_memberId d)
                  (mkRoomMember (sd_memberId d) (sd_userId d) (sd_roomId d) (sd_now d)))
               (with_chatRooms (jm_set (sd_roomId d) welcome)
                  (with_users (jm_set (sd_userId d) (signup_user b d)) (storage sv))))
            (jm_set (sd_sessionId d) (sd_userId d) (userSessions sv)) (timers sv) (hub sv)).
  { unfold sv', signup. by rewrite H1, H2, H3, Hnew. }
  assert (Hmember : isUserInRoom (sd_userId d) (sd_roomId d) (storage sv') = true).
  { apply isUserInRoom_membership. rewrite Hsv.
    exists (mkRoomMember (sd_memberId d) (sd_userId d) (sd_roomId d) (sd_now d)).
    split; [|done]. apply jm_values_In. exists (sd_memberId d).
    apply jm_get_In. simpl. apply jm_get_set_eq. }
  assert (Hroom : getChatRoom (sd_roomId d) (storage sv') = Some welcome).
  { rewrite Hsv. unfold getChatRoom. simpl. apply jm_get_set_eq. }
  split; [rewrite Hsv; simpl; apply jm_get_set_eq|].
  split; [rewrite Hsv; unfold getUser; simpl; apply jm_get_set_eq|].
  split; [exact Hroom|]. split; [exact Hmember|].
  unfold getChatRoomsForUser.
  apply in_map_iff. exists (room_details welcome (storage sv')). split; [done|].
  apply js_sort_In. apply (in_map (fun room => room_details room (storage sv'))).
  apply filter_In. split.
  - apply jm_values_In. exists (sd_roomId d). by apply jm_get_In.
  - apply existsb_eqb_In. apply member_room_ids_In. by apply isUserInRoom_membership.
Qed.

Lemma signup_opens_welcome_room_witness :
  u_avatar (signup_user (fst elodie_signup) (snd elodie_signup)) = Some "ÉL"
  ∧ getUser "u-elodie"
      (storage (fst (signup (fst elodie_signup) (snd elodie_signup) demo_server)))
    = Some (signup_user (fst elodie_signup) (snd elodie_signup))
  ∧ List.map (fun det => r_name (d_room det))
      (getChatRoomsForUser "u-elodie"
         (storage (fst (signup (fst elodie_signup) (snd elodie_signup) demo_server))))
    = ["Welcome"].
Proof.
  split; [reflexivity|]. split; [|reflexivity].
  refine (proj1 (proj2
    (signup_opens_welcome_room (fst elodie_signup) (snd elodie_signup) demo_server _ _))).
  - repeat split; try (simpl; discriminate). vm_compute. lia.
  - reflexivity.
Defined.

(** X13: a signup whose fields do not pass the checks (a field empty, the
    confirmation different, the password shorter than 6) is answered 400
    and changes nothing, whether or not the username is taken. *)
Theorem signup_rejects_invalid_fields
    (b : SignupBody) (d : SignupDraws) (sv : Server) (Hinvalid : ¬ valid_signup b) :
  fst (signup b d sv) = sv ∧ status (snd (signup b d sv)) = 400.
Proof.
  unfold signup.
  destruct (String.eqb_spec (sb_username b) ""); [done|].
  destruct (String.eqb_spec (sb_displayName b) ""); [done|].
  destruct (String.eqb_spec (sb_password b) ""); [done|]. simpl.
  destruct (String.eqb_spec (sb_password b) (sb_confirmPassword b)); [|done]. simpl.
  destruct (Nat.ltb_spec (js_length (sb_password b)) 6); [done|].
  exfalso. apply Hinvalid. by repeat split.
Qed.

Lemma signup_rejects_invalid_fields_witness :
  String.length "pässe" = 6
  ∧ status (snd (signup (mkSignupBody "current_user" "Al" "pässe" "pässe")
                   (snd bob_signup) demo_server)) = 400.
Proof.
  split; [reflexivity|].
  refine (proj2 (signup_rejects_invalid_fields _ _ _ _)).
  intros (_ & _ & _ & _ & Hlen). vm_compute in Hlen. lia.
Defined.

(** X14: no request handler changes the registry or writes to a
    connection, and no socket event changes the store, the sessions or the
    timers: the request API and the push channel act on disjoint state. *)
Theorem requests_and_sockets_are_separate (sv : Server) :
  (∀ req now, hub (fst (handle req now sv)) = hub sv)
  ∧ (∀ authorization, hub (fst (get_me authorization sv)) = hub sv)
  ∧ (∀ i, hub (fire_timer i sv) = hub sv)
  ∧ (∀ e, storage (server_step (Socket e) sv) = storage sv
          ∧ userSessions (server_step (Socket e) sv) = userSessions sv
          ∧ timers (server_step (Socket e) sv) = timers sv).
Proof.
  split; [|split; [|split]].
  - intros req now. destruct req; simpl; try done.
    + unfold login. destruct (_ || _); [done|].
      destruct (getUserByUsername _ _); [|done]. by destruct (String.eqb _ _).
    + unfold signup.
      repeat (match goal with |- context [if ?c then _ else _] => destruct c end; [done|]).
      done.
    + unfold logout. destruct (truthy _); [|done]. by destruct (jm_get _ _).
    + apply post_message_hub.
    + apply post_typing_hub.
  - intros authorization. unfold get_me. destruct authorization as [header|]; [|done].
    simpl. destruct (negb _); [done|]. destruct (jm_get _ _); [|done].
    destruct (negb _); [done|]. by destruct (getUser _ _).
  - intros i. unfold fire_timer. by destruct (nth_error _ _).
  - done.
Qed.

(** * Further properties of the registry *)

Lemma broadcast_extra roomId fr exclude h :
  ∃ extra,
    sent (broadcast roomId fr exclude h) = sent h ++ extra
    ∧ ∀ c fr', In (c, fr') extra →
        fr' = fr ∧ in_room c roomId h ∧ readyState h c = OPEN
        ∧ is_excluded exclude c = false.
Proof.
  unfold broadcast. destruct (roomClients h !! roomId) as [clients|] eqn:Hset.
  - eexists. split; [reflexivity|]. intros c fr' Hin.
    apply in_map_iff in Hin as (c' & [= <- <-] & Hin).
    apply filter_In in Hin as [Hin Hsel]. apply andb_prop in Hsel as [Hex Hopen].
    split; [done|]. split; [by exists clients|].
    split; [by destruct (readyState h c') | by destruct (is_excluded exclude c')].
  - exists []. split; [by rewrite app_nil_r | intros ? ? []].
Qed.

Lemma no_extra (P : nat → Frame → Prop) (l : list (nat * Frame)) :
  ∃ extra, l = l ++ extra ∧ ∀ c fr, In (c, fr) extra → P c fr.
Proof. exists []. split; [by rewrite app_nil_r | intros ? ? []]. Qed.

(** X15: whatever frame a connection sends, the server writes only to
    open connections that are, afterwards, in the set of the sender's
    current room.  A frame of an unknown type and a frame that does not
    parse change nothing, and neither does a frame other than [join_room]
    from a sender whose current room id is unset or empty: none of them
    causes a write. *)
Theorem frames_stay_in_the_senders_room (ws : nat) (frame : ClientFrame) (h : Hub) :
  let h' := on_message ws frame h in
  (∃ extra,
     sent h' = sent h ++ extra
     ∧ ∀ c fr, In (c, fr) extra →
         readyState h c = OPEN
         ∧ ∃ v roomId, conn_vars h' !! ws = Some v
                       ∧ currentRoomId v = Some roomId
                       ∧ in_room c roomId h')
  ∧ (frame = In_other ∨ frame = In_unparsable → h' = h)
  ∧ (∀ v, conn_vars h !! ws = Some v → truthy (currentRoomId v) = false →
          (∀ roomId userId, frame ≠ In_join_room roomId userId) → h' = h).
Proof.
  cbv zeta. split; [|split].
  2: { unfold on_message. intros [-> | ->]; by destruct (conn_vars h !! ws). }
  2: { intros v Hvars Hfalsy Hother. unfold on_message. rewrite Hvars.
       destruct frame as [roomId userId|message|isTyping| |]; try done.
       - by destruct (Hother roomId userId).
       - destruct (currentRoomId v) as [roomId|]; [|done]. by rewrite Hfalsy.
       - destruct (currentRoomId v) as [roomId|]; [|done]. by rewrite Hfalsy. }
  unfold on_message. destruct (conn_vars h !! ws) as [v|] eqn:Hvars; [|apply no_extra].
  destruct frame as [roomId userId|message|isTyping| |]; try apply no_extra.
  - set (h1 := mkHub (enter_room ws roomId (leave_previous ws v (roomClients h)))
                 (<[ws := mkConnVars (Some roomId) (Some userId)]> (conn_vars h))
                 (readyState h) (sent h)).
    destruct (broadcast_extra roomId (Out_user_joined (Some userId) roomId) (Some ws) h1)
      as (extra & Hsent & Hextra).
    destruct (broadcast_registry roomId (Out_user_joined (Some userId) roomId) (Some ws) h1)
      as (Hrc & Hcv & _).
    exists extra. split; [exact Hsent|]. intros c fr Hin.
    destruct (Hextra c fr Hin) as (_ & (clients & Hset & Hc) & Hopen & _).
    split; [exact Hopen|]. exists (mkConnVars (Some roomId) (Some userId)), roomId.
    rewrite Hcv. simpl. rewrite lookup_insert_eq. repeat split.
    exists clients. by rewrite Hrc.
  - destruct (currentRoomId v) as [roomId|] eqn:Hroom; [|apply no_extra].
    destruct (truthy (Some roomId)); [|apply no_extra].
    destruct (broadcast_extra roomId (Out_new_message message) None h)
      as (extra & Hsent & Hextra).
    destruct (broadcast_registry roomId (Out_new_message message) None h) as (Hrc & Hcv & _).
    exists extra. split; [exact Hsent|]. intros c fr Hin.
    destruct (Hextra c fr Hin) as (_ & (clients & Hset & Hc) & Hopen & _).
    split; [exact Hopen|]. exists v, roomId. rewrite Hcv. repeat split; try done.
    exists clients. by rewrite Hrc.
  - destruct (currentRoomId v) as [roomId|] eqn:Hroom; [|apply no_extra].
    destruct (truthy (Some roomId)); [|apply no_extra].
    destruct (broadcast_extra roomId (Out_typing_status (currentUserId v) isTyping roomId)
                (Some ws) h) as (extra & Hsent & Hextra).
    destruct (broadcast_registry roomId (Out_typing_status (currentUserId v) isTyping roomId)
                (Some ws) h) as (Hrc & Hcv & _).
    exists extra. split; [exact Hsent|]. intros c fr Hin.
    destruct (Hextra c fr Hin) as (_ & (clients & Hset & Hc) & Hopen & _).
    split; [exact Hopen|]. exists v, roomId. rewrite Hcv. repeat split; try done.
    exists clients. by rewrite Hrc.
Qed.

Lemma ws_add_NoDup ws clients : List.NoDup clients → List.NoDup (ws_add ws clients).
Proof.
  intros Hnd. unfold ws_add. destruct (existsb (Nat.eqb ws) clients) eqn:Hex; [done|].
  apply List.NoDup_app; [done | repeat constructor; intros []|].
  intros c Hc [Heq|[]]. subst c.
  assert (existsb (Nat.eqb ws) clients = true); [|congruence].
  apply existsb_exists. exists ws. split; [done | apply Nat.eqb_refl].
Qed.

Lemma room_sets_nodup_same h h' :
  roomClients h' = roomClients h → room_sets_nodup h → room_sets_nodup h'.
Proof. intros Hrc Hnd r clients. rewrite Hrc. apply Hnd. Qed.

Lemma room_sets_nodup_insert r clients (h : Hub) cv rs st :
  List.NoDup clients → room_sets_nodup h →
  room_sets_nodup (mkHub (<[r := clients]> (roomClients h)) cv rs st).
Proof.
  intros Hc Hnd r' clients'. simpl. destruct (decide (r = r')) as [->|Hne].
  - rewrite lookup_insert_eq. by intros [= <-].
  - rewrite lookup_insert_ne by done. apply Hnd.
Qed.

Lemma room_sets_nodup_step e h : room_sets_nodup h → room_sets_nodup (hub_step e h).
Proof.
  intros Hnd. destruct e as [ws|ws frame|ws]; simpl.
  - destruct (conn_vars h !! ws); [done|]. by apply (room_sets_nodup_same h).
  - assert (Hmsg : room_sets_nodup (on_message ws frame h)).
    { unfold on_message. destruct (conn_vars h !! ws) as [v|]; [|done].
      destruct frame as [roomId userId|message|isTyping| |]; try done.
      - eapply room_sets_nodup_same; [apply broadcast_registry|].
        assert (Hleft : room_sets_nodup
                  (mkHub (leave_previous ws v (roomClients h)) (conn_vars h)
                     (readyState h) (sent h))).
        { unfold leave_previous. destruct (currentRoomId v) as [prev|]; [|done].
          destruct (truthy (Some prev)); [|done].
          destruct (roomClients h !! prev) as [cl|] eqn:Hprev; [|done].
          apply room_sets_nodup_insert; [|done]. apply List.NoDup_filter. by eapply Hnd. }
        intros r clients. simpl. unfold enter_room.
        destruct (leave_previous ws v (roomClients h) !! roomId) as [cl|] eqn:Hroom.
        + rewrite Hroom. destruct (decide (roomId = r)) as [->|Hne].
          * rewrite lookup_insert_eq. intros [= <-]. apply ws_add_NoDup.
            by apply (Hleft r cl).
          * rewrite lookup_insert_ne by done. apply Hleft.
        + rewrite lookup_insert_eq. destruct (decide (roomId = r)) as [->|Hne].
          * rewrite lookup_insert_eq. intros [= <-]. apply ws_add_NoDup. constructor.
          * rewrite !lookup_insert_ne by done. apply Hleft.
      - destruct (currentRoomId v); [|done]. destruct (truthy _); [|done].
        eapply room_sets_nodup_same; [apply broadcast_registry | done].
      - destruct (currentRoomId v); [|done]. destruct (truthy _); [|done].
        eapply room_sets_nodup_same; [apply broadcast_registry | done]. }
    by destruct (readyState h ws).
  - unfold on_close.
    destruct (conn_vars h !! ws) as [v|]; [|by apply (room_sets_nodup_same h)].
    destruct (currentRoomId v) as [roomId|]; [|by apply (room_sets_nodup_same h)].
    destruct (truthy (Some roomId)); [|by apply (room_sets_nodup_same h)].
    destruct (roomClients h !! roomId) as [clients|] eqn:Hset;
      [|by apply (room_sets_nodup_same h)].
    assert (Hleft : room_sets_nodup
              (mkHub (<[roomId := ws_delete ws clients]> (roomClients h)) (conn_vars h)
                 (fun c => if Nat.eqb c ws then CLOSED else readyState h c) (sent h))).
    { apply room_sets_nodup_insert; [|done]. apply List.NoDup_filter. by eapply Hnd. }
    destruct (currentUserId v) as [userId|]; [|done].
    destruct (truthy (Some userId)); [|done].
    eapply room_sets_nodup_same; [apply broadcast_registry | done].
Qed.

Lemma delivered_to_app c h extra :
  List.map snd (List.filter (fun p : nat * Frame => Nat.eqb (fst p) c) (sent h ++ extra))
  = delivered_to c h
    ++ List.map snd (List.filter (fun p : nat * Frame => Nat.eqb (fst p) c) extra).
Proof. unfold delivered_to. by rewrite List.filter_app, map_app. Qed.

(** X16: in every state the registry reaches, one call of [broadcast]
    writes at most one frame to any connection. *)
Theorem broadcast_writes_each_connection_once
    (events : list HubEvent) (roomId : string) (fr : Frame) (exclude : option nat) (c : nat) :
  let h := run_hub events empty_hub in
  (length (delivered_to c (broadcast roomId fr exclude h))
   <= S (length (delivered_to c h)))%nat.
Proof.
  intros h.
  assert (Hnd : room_sets_nodup h).
  { unfold h. induction events as [|e events IH] using rev_ind.
    - intros r clients Hset. simpl in Hset. by rewrite lookup_empty in Hset.
    - unfold run_hub in *. rewrite fold_left_app. simpl. by apply room_sets_nodup_step. }
  unfold broadcast. destruct (roomClients h !! roomId) as [clients|] eqn:Hset; [|lia].
  unfold delivered_to at 1. simpl. rewrite delivered_to_app, length_app, length_map.
  assert (Hone : (length (List.filter (fun p : nat * Frame => Nat.eqb (fst p) c)
                            (List.map (fun client => (client, fr))
                               (List.filter
                                  (fun client => negb (is_excluded exclude client)
                                                 && is_open (readyState h client))
                                  clients))) <= 1)%nat); [|lia].
  specialize (Hnd _ _ Hset).
  apply (List.NoDup_filter (fun client => negb (is_excluded exclude client)
                                     && is_open (readyState h client))) in Hnd.
  induction Hnd as [|x l Hnotin Hnd IH]; simpl; [lia|].
  destruct (Nat.eqb_spec x c) as [->|Hne]; simpl; [|exact IH].
  assert (Hnil : List.filter (fun p : nat * Frame => Nat.eqb (fst p) c)
                   (List.map (fun client => (client, fr)) l) = []); [|by rewrite Hnil].
  clear -Hnotin. induction l as [|y l IH]; simpl; [done|].
  destruct (Nat.eqb_spec y c) as [->|_]; [exfalso; apply Hnotin; by left|].
  apply IH. intros Hin. apply Hnotin. by right.
Qed.

(** X17: when the memberships are recorded in the connections' variables
    (no connection joined the room named by the empty string), a close
    takes the connection out of every room set and leaves the membership of
    every other connection as it was. *)
Theorem close_removes_the_connection (ws : nat) (h : Hub) (Hrec : memberships_recorded h) :
  (∀ r, ¬ in_room ws r (on_close ws h))
  ∧ (∀ c r, c ≠ ws → in_room c r (on_close ws h) ↔ in_room c r h).
Proof.
  assert (Hsame : ∀ h', roomClients h' = roomClients h →
            (∀ r, in_room ws r h → False) →
            (∀ r, ¬ in_room ws r h')
            ∧ (∀ c r, c ≠ ws → in_room c r h' ↔ in_room c r h)).
  { intros h' Hrc Hno. unfold in_room in *. rewrite Hrc. split; [|done].
    intros r Hin. by apply (Hno r). }
  unfold on_close.
  destruct (conn_vars h !! ws) as [v|] eqn:Hvars.
  2: { apply Hsame; [done|]. intros r Hin.
       destruct (Hrec ws r Hin) as (_ & v & Hv & _). congruence. }
  destruct (currentRoomId v) as [roomId|] eqn:Hroom.
  2: { apply Hsame; [done|]. intros r Hin.
       destruct (Hrec ws r Hin) as (_ & v' & Hv & Hcur). congruence. }
  destruct (truthy (Some roomId)) eqn:Htruthy.
  2: { apply Hsame; [done|]. intros r Hin.
       destruct (Hrec ws r Hin) as (Hr & v' & Hv & Hcur).
       assert (r = roomId) as -> by congruence.
       simpl in Htruthy. by destruct (String.eqb_spec roomId ""). }
  destruct (roomClients h !! roomId) as [clients|] eqn:Hset.
  2: { apply Hsame; [done|]. intros r Hin.
       destruct (Hrec ws r Hin) as (_ & v' & Hv & Hcur).
       assert (r = roomId) as -> by congruence.
       destruct Hin as (cl & Hr & _). congruence. }
  assert (Hleft : ∀ h',
            roomClients h' = <[roomId := ws_delete ws clients]> (roomClients h) →
            (∀ r, ¬ in_room ws r h')
            ∧ (∀ c r, c ≠ ws → in_room c r h' ↔ in_room c r h)).
  { intros h' Hrc. unfold in_room. rewrite Hrc. split.
    - intros r (cl & Hr & Hin). destruct (decide (roomId = r)) as [->|Hne].
      + rewrite lookup_insert_eq in Hr. injection Hr as <-.
        apply ws_delete_In in Hin as [_ Hne]. done.
      + rewrite lookup_insert_ne in Hr by done.
        destruct (Hrec ws r) as (_ & v' & Hv & Hcur); [by exists cl|]. congruence.
    - intros c r Hc. destruct (decide (roomId = r)) as [->|Hne].
      + rewrite lookup_insert_eq, Hset. split.
        * intros (cl & Heq & Hin). injection Heq as Heq. subst cl.
          apply ws_delete_In in Hin as [Hin _]. by exists clients.
        * intros (cl & Heq & Hin). injection Heq as Heq. subst cl.
          exists (ws_delete ws clients). split; [done|]. by apply ws_delete_In.
      + by rewrite lookup_insert_ne. }
  destruct (currentUserId v) as [userId|]; [|by apply Hleft].
  destruct (truthy (Some userId)); [|by apply Hleft].
  apply Hleft. apply broadcast_registry.
Qed.

Lemma memberships_recorded_run events :
  Forall names_its_room events → memberships_recorded (run_hub events empty_hub).
Proof.
  intros Hnamed. induction events as [|e events IH] using rev_ind.
  - intros ws r (clients & Hset & _). simpl in Hset. by rewrite lookup_empty in Hset.
  - apply Forall_app in Hnamed as [Hevents He]. apply Forall_cons in He as [He _].
    unfold run_hub in *. rewrite fold_left_app. simpl.
    by apply memberships_recorded_step; [|apply IH].
Qed.

Lemma lobby_hub_recorded : memberships_recorded lobby_hub.
Proof.
  apply memberships_recorded_run.
  repeat (constructor; [simpl; first [exact I | discriminate]|]). constructor.
Qed.

Lemma close_removes_the_connection_witness :
  roomClients lobby_hub !! "lobby" = Some [1; 2]
  ∧ roomClients (on_close 1 lobby_hub) !! "lobby" = Some [2]
  ∧ ∀ r, ¬ in_room 1 r (on_close 1 lobby_hub).
Proof.
  split; [vm_compute; reflexivity|]. split; [vm_compute; reflexivity|].
  exact (proj1 (close_removes_the_connection 1 lobby_hub lobby_hub_recorded)).
Defined.

Lemma delivered_to_unchanged c h h' extra :
  sent h' = sent h ++ extra → (∀ fr, ¬ In (c, fr) extra) →
  delivered_to c h' = delivered_to c h.
Proof.
  intros Hsent Hnone. unfold delivered_to at 1. rewrite Hsent, delivered_to_app.
  assert (Hnil : List.filter (fun p : nat * Frame => Nat.eqb (fst p) c) extra = []);
    [|by rewrite Hnil, app_nil_r].
  clear Hsent. induction extra as [|[c' fr] extra IH]; simpl; [done|].
  destruct (Nat.eqb_spec c' c) as [->|_].
  - exfalso. apply (Hnone fr). by left.
  - apply IH. intros fr' Hin. apply (Hnone fr'). by right.
Qed.

(** X18: in a registry whose memberships are recorded in the connections'
    variables (no connection joined the room named by the empty string), a
    connection that joins another room is taken out of the room it was in,
    and nothing is written to the connections of any other room: the room
    it leaves gets no [user_left]. *)
Theorem switching_rooms_is_silent_for_the_old_room
    (ws : nat) (v : ConnVars) (roomId userId : string) (h : Hub)
    (Hrec : memberships_recorded h) (Hvars : conn_vars h !! ws = Some v) :
  let h' := on_message ws (In_join_room roomId userId) h in
  in_room ws roomId h'
  ∧ (∀ r, r ≠ roomId → ¬ in_room ws r h')
  ∧ (∀ c r, r ≠ roomId → in_room c r h → delivered_to c h' = delivered_to c h).
Proof.
  intros h'.
  destruct (join_room_notifies_others ws v roomId userId h Hvars)
    as (clients & Hset & Hws & Hsent & _). fold h' in Hset, Hsent.
  assert (Hrc : roomClients h' = enter_room ws roomId (leave_previous ws v (roomClients h))).
  { unfold h', on_message. rewrite Hvars. apply broadcast_registry. }
  split; [by exists clients|]. split.
  - intros r Hne (cl & Hr & Hin). rewrite Hrc in Hr.
    destruct (enter_room_member _ _ _ _ _ _ Hr Hin) as [[_ ->]|(cl1 & Hr1 & Hin1)]; [done|].
    destruct (leave_previous_member _ _ _ _ _ _ Hr1 Hin1) as [(cl0 & Hr0 & Hin0) Hleft].
    destruct (Hrec ws r) as (Hnamed & v' & Hv' & Hcur); [by exists cl0|].
    apply Hnamed, Hleft; [done | congruence].
  - intros c r Hne Hin. apply (delivered_to_unchanged c h h' _ Hsent).
    intros fr Hextra. apply in_map_iff in Hextra as (c' & [= -> _] & Hc).
    apply filter_In in Hc as [Hc Hsel]. apply andb_prop in Hsel as [Hnotws _].
    assert (c ≠ ws) by (intros ->; by rewrite Nat.eqb_refl in Hnotws).
    rewrite Hrc in Hset.
    destruct (enter_room_member _ _ _ _ _ _ Hset Hc) as [[-> _]|(cl1 & Hr1 & Hin1)]; [done|].
    destruct (leave_previous_member _ _ _ _ _ _ Hr1 Hin1) as [(cl0 & Hr0 & Hin0) _].
    destruct (Hrec c r Hin) as (_ & v1 & Hv1 & Hcur1).
    destruct (Hrec c roomId) as (_ & v2 & Hv2 & Hcur2); [by exists cl0|]. congruence.
Qed.

Lemma switching_rooms_is_silent_for_the_old_room_witness :
  let h' := on_message 1 (In_join_room "den" "u-alice") lobby_hub in
  roomClients h' !! "lobby" = Some [2]
  ∧ roomClients h' !! "den" = Some [3; 1]
  ∧ delivered_to 2 h' = delivered_to 2 lobby_hub
  ∧ ∀ r, r ≠ "den" → ¬ in_room 1 r h'.
Proof.
  split; [vm_compute; reflexivity|]. split; [vm_compute; reflexivity|].
  split; [reflexivity|].
  refine (proj1 (proj2 (switching_rooms_is_silent_for_the_old_room 1
                          (mkConnVars (Some "lobby") (Some "u-alice")) "den" "u-alice"
                          lobby_hub lobby_hub_recorded _))).
  vm_compute; reflexivity.
Defined.

(** X19: what the server writes for a connection that joined with a
    non-empty room id and user id reaches the callbacks of the receiving
    hooks: each frame written for a typing notice invokes
    [onTypingStatus] with the sender's user id, each frame written for a
    relayed message invokes [onNewMessage] with that message, each frame
    written when the connection closes invokes [onUserActivity] with
    [left], and each frame written when it joins again invokes it with
    [joined]. *)
Theorem server_frames_reach_the_hook_callbacks
    (ws : nat) (roomId userId : string) (h : Hub)
    (Hvars : conn_vars h !! ws = Some (mkConnVars (Some roomId) (Some userId)))
    (Hroom : roomId ≠ "") (Huser : userId ≠ "") :
  (∀ isTyping c fr,
     In (c, fr) (sent (on_message ws (In_typing_status (Some isTyping)) h)) →
     In (c, fr) (sent h) ∨ c ≠ ws ∧ onmessage fr = Some (OnTypingStatus userId isTyping))
  ∧ (∀ message c fr,
       In (c, fr) (sent (on_message ws (In_new_message (Some message)) h)) →
       In (c, fr) (sent h) ∨ onmessage fr = Some (OnNewMessage message))
  ∧ (∀ c fr,
       In (c, fr) (sent (on_close ws h)) →
       In (c, fr) (sent h) ∨ c ≠ ws ∧ onmessage fr = Some (OnUserActivity userId left))
  ∧ (∀ c fr,
       In (c, fr) (sent (on_message ws (In_join_room roomId userId) h)) →
       In (c, fr) (sent h) ∨ c ≠ ws ∧ onmessage fr = Some (OnUserActivity userId joined)).
Proof.
  assert (Hr : truthy (Some roomId) = true).
  { simpl. apply String.eqb_neq in Hroom. by rewrite Hroom. }
  assert (Hu : truthy (Some userId) = true).
  { simpl. apply String.eqb_neq in Huser. by rewrite Huser. }
  assert (Hfrom : ∀ fr exclude h1 c fr',
            In (c, fr') (sent (broadcast roomId fr exclude h1)) →
            In (c, fr') (sent h1) ∨ fr' = fr ∧ is_excluded exclude c = false).
  { intros fr exclude h1 c fr' Hin.
    destruct (broadcast_extra roomId fr exclude h1) as (extra & Hsent & Hextra).
    rewrite Hsent in Hin. apply in_app_or in Hin as [Hin|Hin]; [by left | right].
    destruct (Hextra c fr' Hin) as (-> & _ & _ & Hex). done. }
  assert (Hnotws : ∀ c, is_excluded (Some ws) c = false → c ≠ ws).
  { intros c Hex ->. simpl in Hex. by rewrite Nat.eqb_refl in Hex. }
  split; [|split; [|split]].
  - intros isTyping c fr. unfold on_message. rewrite Hvars.
    cbn [currentRoomId currentUserId]. rewrite Hr. intros Hin. apply Hfrom in Hin as [Hin|[-> Hex]]; [by left | right].
    split; [by apply Hnotws|]. simpl. simpl in Hu. by rewrite Hu.
  - intros message c fr. unfold on_message. rewrite Hvars.
    cbn [currentRoomId currentUserId]. rewrite Hr. intros Hin. apply Hfrom in Hin as [Hin|[-> _]]; [by left | by right].
  - intros c fr. unfold on_close. rewrite Hvars.
    cbn [currentRoomId currentUserId]. rewrite Hr, Hu.
    destruct (roomClients h !! roomId) as [clients|]; [|by left].
    intros Hin. apply Hfrom in Hin as [Hin|[-> Hex]]; [by left | right].
    split; [by apply Hnotws|]. simpl. simpl in Hu. by rewrite Hu.
  - intros c fr. unfold on_message. rewrite Hvars.
    intros Hin. apply Hfrom in Hin as [Hin|[-> Hex]]; [by left | right].
    split; [by apply Hnotws|]. simpl. simpl in Hu. by rewrite Hu.
Qed.

Lemma server_frames_reach_the_hook_callbacks_witness :
  List.map (fun p => (fst p, onmessage (snd p)))
    (sent (on_message 1 (In_typing_status (Some true)) lobby_hub))
  = [(1, Some (OnUserActivity "u-bob" joined)); (2, Some (OnTypingStatus "u-alice" true))]
  ∧ ∀ c fr,
      In (c, fr) (sent (on_close 1 lobby_hub)) →
      In (c, fr) (sent lobby_hub)
      ∨ c ≠ 1 ∧ onmessage fr = Some (OnUserActivity "u-alice" left).
Proof.
  split; [vm_compute; reflexivity|].
  refine (proj1 (proj2 (proj2
    (server_frames_reach_the_hook_callbacks 1 "lobby" "u-alice" lobby_hub _ _ _))));
    [vm_compute; reflexivity | discriminate | discriminate].
Defined.

(** * Further properties of the client *)

(** X20: reconnection after the hook gave up.  Once more than five
    failures in a row have exhausted the attempts, a call of [connect] whose
    socket fails is not retried at all, since only [onopen] resets the
    counter; a call of [connect] whose socket opens restores the whole
    schedule of 1000, 2000, 4000, 8000 and 16000 ms. *)
Theorem manual_connect_after_giving_up
    (k j : nat) (c : WsHook)
    (Hcount : reconnectAttempts c = 0) (Harmed : armed c = []) (Hk : 5 < k) :
  let final := fst (fail_repeatedly k c) in
  reconnectAttempts (connect final) = 5
  ∧ snd (fail_repeatedly j (connect final)) = []
  ∧ snd (fail_repeatedly j (onopen Current (connect final)))
    = List.map (fun n => (2 ^ Z.of_nat n * 1000)%Z) (seq 0 (Nat.min j 5)).
Proof.
  intros final.
  assert (Hissued : timers_issued c) by (unfold timers_issued; rewrite Harmed; constructor).
  destruct (fail_repeatedly_from k c) as (_ & Hnone & Hfinal & Hstatus);
    [rewrite Hcount; unfold maxReconnectAttempts; lia | done|].
  rewrite Hcount in *. unfold maxReconnectAttempts in *. simpl in Hfinal, Hstatus.
  destruct Hstatus as (_ & _ & _ & Hclosed); [lia|]. specialize (Hclosed ltac:(lia)).
  fold final in Hnone, Hfinal, Hclosed. rewrite Harmed in Hnone.
  assert (Hconn : connect final
                  = mkWsHook (Some CONNECTING) connecting 5
                      (reconnectTimeoutRef final) [] (handles final)).
  { unfold connect. rewrite Hclosed, Hnone. f_equal. lia. }
  rewrite Hconn. split; [done|]. split.
  - destruct (fail_repeatedly_from j
                (mkWsHook (Some CONNECTING) connecting 5
                   (reconnectTimeoutRef final) [] (handles final)))
      as (Hdelays & _); [simpl; unfold maxReconnectAttempts; lia | constructor|].
    rewrite Hdelays. unfold maxReconnectAttempts. simpl.
    by replace (Nat.min j 0) with 0 by lia.
  - destruct (fail_repeatedly_from j
                (onopen Current
                   (mkWsHook (Some CONNECTING) connecting 5
                      (reconnectTimeoutRef final) [] (handles final))))
      as (Hdelays & _); [simpl; unfold maxReconnectAttempts; lia | constructor|].
    rewrite Hdelays. unfold maxReconnectAttempts. simpl. by rewrite Nat.min_comm.
Qed.

Lemma manual_connect_after_giving_up_witness :
  snd (fail_repeatedly 3 (connect (fst (fail_repeatedly 6 fresh_hook)))) = []
  ∧ snd (fail_repeatedly 3 (onopen Current (connect (fst (fail_repeatedly 6 fresh_hook)))))
    = [1000; 2000; 4000]%Z.
Proof.
  split; [|reflexivity].
  refine (proj1 (proj2 (manual_connect_after_giving_up 6 3 fresh_hook eq_refl eq_refl _))).
  lia.
Defined.

(** X21: [disconnect] clears the one timer whose handle the ref holds -- a
    timer set earlier stays -- and forgets the socket.  The close event of
    the socket it closed still runs the close handler: [ws.current] stays
    [null], and while fewer than five attempts were made a new reconnect
    timer is set; when that timer fires the counter is raised and a new
    socket is opened, although [disconnect] was called. *)
Theorem close_event_after_disconnect_reconnects
    (c : WsHook) (Hissued : timers_issued c)
    (Hsocket : ∃ st, ws_current c = Some st ∧ st ≠ CLOSED)
    (Hattempts : reconnectAttempts c < maxReconnectAttempts) :
  let handle := S (handles c) in
  let closed := onclose Detached (disconnect c) in
  ws_current (disconnect c) = None
  ∧ connectionStatus (disconnect c) = disconnected
  ∧ (∀ t, In t (armed (disconnect c))
          ↔ In t (armed c) ∧ reconnectTimeoutRef c ≠ Some (fst t))
  ∧ ws_current closed = None
  ∧ armed closed
    = armed (disconnect c) ++ [(handle, (2 ^ Z.of_nat (reconnectAttempts c) * 1000)%Z)]
  ∧ reconnect_timer handle closed
    = mkWsHook (Some CONNECTING) connecting (S (reconnectAttempts c)) (Some handle)
        (armed (disconnect c)) handle.
Proof.
  intros handle closed.
  assert (Hkept : timers_issued (disconnect c)) by apply (timers_issued_step Disconnects c Hissued).
  split; [done|]. split; [done|]. split.
  { intros t. unfold disconnect. cbn [armed].
    destruct (reconnectTimeoutRef c) as [h|].
    - rewrite clearTimeout_subset. split; intros [Hin Hne]; (split; [done|congruence]).
    - split; [by intros Hin|by intros [Hin _]]. }
  subst closed. rewrite onclose_arms by done.
  split; [done|]. split; [done|].
  unfold reconnect_timer. cbn [armed handles reconnectAttempts ws_current connectionStatus
                               reconnectTimeoutRef].
  change (handles (disconnect c)) with (handles c). fold handle.
  rewrite (timer_delay_fresh _ (handles c)) by (done || (subst handle; lia)).
  rewrite (clearTimeout_fresh _ (handles c)) by (done || (subst handle; lia)).
  reflexivity.
Qed.

Lemma close_event_after_disconnect_reconnects_witness :
  armed two_timers_hook = [(1, 1000%Z); (2, 1000%Z)]
  ∧ armed (disconnect two_timers_hook) = [(1, 1000%Z)]
  ∧ armed (onclose Detached (disconnect two_timers_hook)) = [(1, 1000%Z); (3, 1000%Z)].
Proof.
  split; [reflexivity|]. split; [reflexivity|].
  refine (proj1 (proj2 (proj2 (proj2 (proj2
    (close_event_after_disconnect_reconnects two_timers_hook _ _ _)))))).
  - repeat constructor.
  - exists CONNECTING. by split.
  - unfold maxReconnectAttempts. simpl. lia.
Defined.

(** X22: a typing notice of the input box takes exactly one path: the
    socket when the hook's socket is open, the request API otherwise.  On
    the socket path the server stores nothing (so [getTypingUsers], which
    the polling fallback reads, does not change); on the request path the
    server stores the row and writes to no connection. *)
Theorem typing_notice_is_pushed_or_stored
    (roomId : string) (typing : bool) (hook : option WsHook)
    (ws : nat) (uuid : string) (now : Z) (sv : Server) :
  match updateTyping roomId typing hook with
  | ViaSocket frame =>
      (∃ c, hook = Some c ∧ ws_current c = Some OPEN)
      ∧ frame = In_typing_status (Some typing)
      ∧ storage (server_step (Socket (Receive ws frame)) sv) = storage sv
      ∧ ∀ room t,
          getTypingUsers room t (storage (server_step (Socket (Receive ws frame)) sv))
          = getTypingUsers room t (storage sv)
  | ViaRequest room flag =>
      (∀ c, hook = Some c → ws_current c ≠ Some OPEN)
      ∧ room = roomId ∧ flag = IsBool typing
      ∧ hub (fst (post_typing room flag uuid now sv)) = hub sv
  end.
Proof.
  unfold updateTyping, sendTypingStatus, hook_send.
  destruct hook as [c|].
  - destruct (ws_current c) as [[]|] eqn:Hws; simpl;
      try (split; [intros c' [= <-]; congruence|];
           split; [done|]; split; [done|]; apply post_typing_hub).
    split; [by exists c|]. done.
  - split; [discriminate|]. split; [done|]. split; [done|]. apply post_typing_hub.
Qed.

Lemma handleNewMessage_cases message prev :
  (In (m_id (mws_message message)) (message_ids prev) ∧ handleNewMessage message prev = prev)
  ∨ (¬ In (m_id (mws_message message)) (message_ids prev)
     ∧ handleNewMessage message prev = prev ++ [message]).
Proof.
  unfold handleNewMessage.
  destruct (existsb (fun m => same_message m message) prev) eqn:Hex.
  - left. split; [|done]. apply existsb_exists in Hex as (m & Hin & Hsame).
    apply String.eqb_eq in Hsame. rewrite <- Hsame.
    by apply (in_map (fun m => m_id (mws_message m))).
  - right. split; [|done]. intros Hin. apply in_map_iff in Hin as (m & Hid & Hin).
    assert (existsb (fun m => same_message m message) prev = true); [|congruence].
    apply existsb_exists. exists m. split; [done|]. by apply String.eqb_eq.
Qed.

Lemma handleNewMessage_ids message prev :
  List.NoDup (message_ids prev) →
  List.NoDup (message_ids (handleNewMessage message prev))
  ∧ ∀ id, In id (message_ids (handleNewMessage message prev))
          ↔ id = m_id (mws_message message) ∨ In id (message_ids prev).
Proof.
  intros Hnd. destruct (handleNewMessage_cases message prev) as [[Hin ->]|[Hnot ->]].
  - split; [done|]. intros id. split; [by right|]. intros [->|?]; done.
  - unfold message_ids in *. rewrite map_app. simpl. split.
    + apply List.NoDup_app; [done | repeat constructor; intros []|].
      intros id Hid [<-|[]]. done.
    + intros id. rewrite in_app_iff. simpl. split; [intros [?|[?|[]]]; auto|].
      intros [->|?]; auto.
Qed.

(** X23: the chat area keeps one copy of a message however often it
    arrives (as the answer to the own request and again over the push
    channel): message ids stay free of duplicates, the messages already
    shown keep their place and content, a message whose id is already shown
    is dropped, and the ids shown are exactly those that were shown or
    arrived. *)
Theorem chat_area_keeps_one_copy_per_id
    (arrivals prev : list MessageWithSender) (Hnd : List.NoDup (message_ids prev)) :
  let shown := receive_all arrivals prev in
  List.NoDup (message_ids shown)
  ∧ (∀ id, In id (message_ids shown)
           ↔ In id (message_ids prev) ∨ In id (message_ids arrivals))
  ∧ (∃ added, shown = prev ++ added)
  ∧ receive_all arrivals shown = shown.
Proof.
  revert prev Hnd. induction arrivals as [|m arrivals IH]; intros prev Hnd.
  - simpl. split; [done|]. split; [intros id; simpl; tauto|].
    split; [exists []; by rewrite app_nil_r | done].
  - destruct (handleNewMessage_ids m prev Hnd) as [Hnd1 Hids1].
    destruct (IH (handleNewMessage m prev) Hnd1) as (Hnd2 & Hids2 & [added Hadded] & Hidem).
    unfold receive_all in *. simpl fold_left.
    set (shown := fold_left (fun acc m0 => handleNewMessage m0 acc) arrivals
                    (handleNewMessage m prev)) in *.
    split; [exact Hnd2|]. split; [|split].
    + intros id. rewrite Hids2, Hids1. simpl. clear. split.
      * intros [[->|H]|H]; [right; by left | by left | right; by right].
      * intros [H|[<-|H]]; [left; by right | left; by left | by right].
    + destruct (handleNewMessage_cases m prev) as [[_ Heq]|[_ Heq]]; rewrite Heq in Hadded.
      * by exists added.
      * exists ([m] ++ added). by rewrite Hadded, <- app_assoc.
    + assert (Hm : handleNewMessage m shown = shown).
      { destruct (handleNewMessage_cases m shown) as [[_ Heq]|[Hnot _]]; [done|].
        exfalso. apply Hnot. apply Hids2. left. apply Hids1. by left. }
      by rewrite Hm.
Qed.

Lemma chat_area_keeps_one_copy_per_id_witness :
  let alice := mkUser "u-alice" "current_user" "Alice" "secret1" (Some "AL") true 1000 in
  let sent_copy := mkMessageWithSender (mkMessage "m-1" "hi" "u-alice" "lobby" 5000 "sent") alice in
  let pushed_copy :=
    mkMessageWithSender (mkMessage "m-1" "hi" "u-alice" "lobby" 5000 "delivered") alice in
  receive_all [sent_copy; pushed_copy] [] = [sent_copy]
  ∧ List.NoDup (message_ids (receive_all [sent_copy; pushed_copy] [])).
Proof.
  split; [reflexivity|].
  apply chat_area_keeps_one_copy_per_id. constructor.
Defined.

Lemma find_member_id userId members user :
  find_member userId members = Some user → u_id user = userId.
Proof.
  unfold find_member. destruct members as [ms|]; [|discriminate].
  intros Hfind. apply find_some in Hfind as [_ Heq]. by apply String.eqb_eq.
Qed.

Lemma handleTypingStatus_ids cur userId isTyping members prev :
  let next := handleTypingStatus cur userId isTyping (find_member userId members) prev in
  List.NoDup (List.map u_id prev) →
  List.NoDup (List.map u_id next)
  ∧ (∀ id, In id (List.map u_id next) →
           In id (List.map u_id prev) ∨ (id = userId ∧ isTyping = true ∧ cur ≠ Some userId))
  ∧ (isTyping = false → is_Some (find_member userId members) → cur ≠ Some userId →
     ¬ In userId (List.map u_id next)).
Proof.
  intros next Hnd. unfold next, handleTypingStatus.
  destruct (find_member userId members) as [user|] eqn:Hfound.
  2: { split; [done|]. split; [by left|]. by intros _ [? [=]]. }
  apply find_member_id in Hfound.
  destruct cur as [me|].
  - destruct (String.eqb_spec userId me) as [->|Hne]; simpl.
    + split; [done|]. split; [by left|]. intros _ _ Hcur. by destruct Hcur.
    + destruct isTyping.
      * destruct (existsb (fun u => String.eqb (u_id u) userId) prev) eqn:Hex.
        -- split; [done|]. split; [by left | discriminate].
        -- rewrite map_app. simpl. split; [|split; [|discriminate]].
           ++ apply List.NoDup_app; [done | repeat constructor; intros []|].
              intros id Hid [<-|[]]. apply in_map_iff in Hid as (u & Hu & Hin).
              assert (existsb (fun u => String.eqb (u_id u) userId) prev = true); [|congruence].
              apply existsb_exists. exists u. split; [done|]. apply String.eqb_eq. congruence.
           ++ intros id Hid. apply in_app_or in Hid as [Hid|[<-|[]]]; [by left | right].
              repeat split; [done | congruence].
      * split; [by apply NoDup_map_filter|]. split.
        -- intros id Hid. left. apply in_map_iff in Hid as (u & <- & Hin).
           apply filter_In in Hin as [Hin _]. by apply in_map.
        -- intros _ _ _ Hin. apply in_map_iff in Hin as (u & Hu & Hin).
           apply filter_In in Hin as [_ Hsel]. apply String.eqb_eq in Hu.
           rewrite Hu in Hsel. discriminate.
  - simpl. destruct isTyping.
    + destruct (existsb (fun u => String.eqb (u_id u) userId) prev) eqn:Hex.
      * split; [done|]. split; [by left | discriminate].
      * rewrite map_app. simpl. split; [|split; [|discriminate]].
        -- apply List.NoDup_app; [done | repeat constructor; intros []|].
           intros id Hid [<-|[]]. apply in_map_iff in Hid as (u & Hu & Hin).
           assert (existsb (fun u => String.eqb (u_id u) userId) prev = true); [|congruence].
           apply existsb_exists. exists u. split; [done|]. apply String.eqb_eq. congruence.
        -- intros id Hid. apply in_app_or in Hid as [Hid|[<-|[]]]; [by left | right].
           repeat split; [done | discriminate].
    + split; [by apply NoDup_map_filter|]. split.
      * intros id Hid. left. apply in_map_iff in Hid as (u & <- & Hin).
        apply filter_In in Hin as [Hin _]. by apply in_map.
      * intros _ _ _ Hin. apply in_map_iff in Hin as (u & Hu & Hin).
        apply filter_In in Hin as [_ Hsel]. apply String.eqb_eq in Hu.
        rewrite Hu in Hsel. discriminate.
Qed.

(** X24: the list of users shown as typing by the chat area, built from
    the pushed typing notices, never names a user twice and never names the
    current user; a notice that a member stopped typing takes that member
    off the list. *)
Theorem typing_indicators_exclude_the_current_user
    (cur : option string) (events : list TypingEvent) :
  let shown := apply_typing_events cur events [] in
  List.NoDup (List.map u_id shown)
  ∧ (∀ me, cur = Some me → ¬ In me (List.map u_id shown))
  ∧ (∀ e, te_isTyping e = false →
          is_Some (find_member (te_userId e) (te_members e)) →
          ¬ In (te_userId e) (List.map u_id (apply_typing_events cur (events ++ [e]) []))).
Proof.
  assert (Hinv : List.NoDup (List.map u_id (apply_typing_events cur events []))
                 ∧ (∀ me, cur = Some me →
                          ¬ In me (List.map u_id (apply_typing_events cur events [])))).
  { induction events as [|e events [IHnd IHme]] using rev_ind.
    - split; [constructor | intros me _ []].
    - unfold apply_typing_events in *. rewrite fold_left_app. simpl.
      destruct (handleTypingStatus_ids cur (te_userId e) (te_isTyping e) (te_members e)
                  _ IHnd) as (Hnd & Hsub & _).
      split; [exact Hnd|]. intros me Hme Hin.
      destruct (Hsub me Hin) as [Hold|(-> & _ & Hne)]; [by apply (IHme me)|]. done. }
  destruct Hinv as [Hnd Hme]. split; [exact Hnd|]. split; [exact Hme|].
  intros e Hstop Hfound Hin.
  unfold apply_typing_events in *. rewrite fold_left_app in Hin. simpl in Hin.
  destruct (handleTypingStatus_ids cur (te_userId e) (te_isTyping e) (te_members e)
              _ Hnd) as (_ & Hsub & Hgone).
  destruct (decide (cur = Some (te_userId e))) as [Hcur|Hcur].
  - destruct (Hsub _ Hin) as [Hold|(_ & _ & Hne)]; [by apply (Hme _ Hcur) | done].
  - by apply Hgone.
Qed.

(** X25: the sender's own message comes back and is shown once.  With the
    hook's socket open, [broadcastNewMessage] relays the created message;
    the server writes it to every open connection of the sender's room,
    the sender's own included; the hook hands that frame to
    [onNewMessage]; and the chat area, which already added the message when
    the request answered, still shows one copy. *)
Theorem own_message_echo_is_shown_once
    (c : WsHook) (ws : nat) (roomId userId : string) (clients : list nat) (h : Hub)
    (message : MessageWithSender) (prev : list MessageWithSender)
    (Hsocket : ws_current c = Some OPEN)
    (Hvars : conn_vars h !! ws = Some (mkConnVars (Some roomId) (Some userId)))
    (Hroom : roomId ≠ "")
    (Hset : roomClients h !! roomId = Some clients)
    (Hmember : In ws clients) (Hopen : readyState h ws = OPEN) :
  broadcastNewMessage message c = Some (In_new_message (Some message))
  ∧ In (Out_new_message (Some message))
       (delivered_to ws (on_message ws (In_new_message (Some message)) h))
  ∧ onmessage (Out_new_message (Some message)) = Some (OnNewMessage message)
  ∧ receive_all [message; message] prev = receive_all [message] prev.
Proof.
  split; [unfold broadcastNewMessage, hook_send; by rewrite Hsocket|].
  split; [|split; [done|]].
  - unfold on_message. rewrite Hvars. cbn [currentRoomId].
    apply String.eqb_neq in Hroom. cbn [truthy]. rewrite Hroom. cbn [negb].
    unfold delivered_to. rewrite (broadcast_sent _ _ _ _ _ Hset).
    apply in_map_iff. exists (ws, Out_new_message (Some message)). split; [done|].
    apply filter_In. split; [|simpl; apply Nat.eqb_refl].
    apply in_or_app. right.
    apply (in_map (fun client => (client, Out_new_message (Some message)))).
    apply filter_In. split; [done|]. by rewrite Hopen.
  - unfold receive_all. simpl.
    destruct (handleNewMessage_cases message (handleNewMessage message prev))
      as [[_ Heq]|[Hnot _]]; [done|].
    exfalso. apply Hnot.
    destruct (handleNewMessage_cases message prev) as [[Hin ->]|[_ ->]]; [done|].
    unfold message_ids. rewrite map_app, in_app_iff. right. by left.
Qed.

Lemma own_message_echo_is_shown_once_witness :
  let alice := mkUser "u-alice" "current_user" "Alice" "secret1" (Some "AL") true 1000 in
  let m := mkMessageWithSender (mkMessage "m-1" "hi" "u-alice" "lobby" 5000 "sent") alice in
  delivered_to 1 (on_message 1 (In_new_message (Some m)) lobby_hub)
  = [Out_user_joined (Some "u-bob") "lobby"; Out_new_message (Some m)]
  ∧ receive_all [m; m] [] = receive_all [m] [].
Proof.
  split; [vm_compute; reflexivity|].
  refine (proj2 (proj2 (proj2
    (own_message_echo_is_shown_once fresh_hook 1 "lobby" "u-alice" [1; 2] lobby_hub _ []
       eq_refl _ _ _ _ _)))).
  - vm_compute; reflexivity.
  - discriminate.
  - vm_compute; reflexivity.
  - by left.
  - reflexivity.
Defined.
